(** * n01d-media: the job execution engine, embedded and checked

  A shallow embedding of the two places of the suite that drive an external
  [ffmpeg] process:

  - [modules/encoder.py], class [MediaEncoder]: the command builder
    [_build_ffmpeg_command], the batch worker [_encode_files] with the
    callbacks it schedules on the interface thread, and [cancel_encode];
  - [modules/screen_recorder.py], class [ScreenRecorder]: the capture
    command builder, [_toggle_pause], [_stop_recording] and
    [_refresh_recordings_list].

  Python strings are [string] (a sequence of bytes, UTF-8 for the few
  non-ASCII labels), a [dict] read with [.get] is a [gmap], a list indexed
  by position is read with [!!], an exception is the [Raise] branch of
  [Result], and the state of an object is a record passed explicitly. *)

From Stdlib Require Import ZArith QArith Ascii String List DecimalString DecimalPos.
From stdpp Require Import base option list sorting strings gmap.

Local Open Scope string_scope.
Local Open Scope list_scope.

(** ** Python values and exceptions *)

Module Py.

(** The exceptions the modelled code can raise. *)
Inductive Exn :=
| IndexError
| AttributeError (msg : string)
| StopIteration
| ValueError (msg : string)
| OSError (msg : string)
| BrokenPipeError
| TimeoutExpired.

Inductive Result (A : Type) :=
| Ok (a : A)
| Raise (e : Exn).
Arguments Ok {A} a.
Arguments Raise {A} e.

#[export] Instance Result_ret : MRet Result := fun _ a => Ok a.
#[export] Instance Result_bind : MBind Result := fun _ _ f r =>
  match r with
  | Ok a => f a
  | Raise e => Raise e
  end.

Definition is_ok {A} (r : Result A) : bool :=
  match r with Ok _ => true | Raise _ => false end.

(** [sub in s] on strings. *)
Fixpoint contains (sub s : string) : bool :=
  String.prefix sub s ||
  match s with
  | EmptyString => false
  | String _ s' => contains sub s'
  end.

(** [s.endswith(suf)]. *)
Definition endswith (s suf : string) : bool :=
  let n := String.length s in
  let k := String.length suf in
  (k <=? n)%nat && String.eqb (String.substring (n - k) k s) suf.

(** ASCII white space as [str.isspace] sees it: tab to carriage return,
    the four separators 0x1c to 0x1f, and the space. *)
Definition isspace (c : ascii) : bool :=
  let n := nat_of_ascii c in
  ((9 <=? n) && (n <=? 13) || (28 <=? n) && (n <=? 32))%nat.

(** [s.split()]: the maximal runs of characters that are not white space.
    [cur] holds the run being read, reversed. *)
Fixpoint split_ws_aux (s : string) (cur : option string) : list string :=
  match s with
  | EmptyString =>
      match cur with
      | Some w => [String.rev w]
      | None => []
      end
  | String c s' =>
      if isspace c then
        match cur with
        | Some w => String.rev w :: split_ws_aux s' None
        | None => split_ws_aux s' None
        end
      else
        split_ws_aux s' (Some (String c (default EmptyString cur)))
  end.

Definition split_ws (s : string) : list string := split_ws_aux s None.

(** [s.split(sep)] for a one-character separator: empty fields are kept. *)
Fixpoint split_on (sep : ascii) (s : string) : list string :=
  match s with
  | EmptyString => [EmptyString]
  | String c s' =>
      if Ascii.eqb c sep then EmptyString :: split_on sep s'
      else
        match split_on sep s' with
        | w :: ws => String c w :: ws
        | [] => [String c EmptyString]
        end
  end.

(** [sep.join(l)]. *)
Fixpoint join (sep : string) (l : list string) : string :=
  match l with
  | [] => EmptyString
  | [w] => w
  | w :: ws => w +:+ sep +:+ join sep ws
  end.

(** [s.rfind(c)]: the last position of [c], [None] for Python's -1. *)
Fixpoint rfind (c : ascii) (s : string) : option nat :=
  match s with
  | EmptyString => None
  | String d s' =>
      match rfind c s' with
      | Some i => Some (S i)
      | None => if Ascii.eqb d c then Some 0%nat else None
      end
  end.

(** [str(n)] for an [int]. *)
Definition str_int (n : Z) : string := NilZero.string_of_int (Z.to_int n).

(** [l[i]]: an index out of range raises. *)
Definition getitem {A} (l : list A) (i : nat) : Result A :=
  match l !! i with
  | Some a => Ok a
  | None => Raise IndexError
  end.

End Py.
Export Py.

(** ** [pathlib.PurePosixPath] *)

Module PurePath.

(** A parsed path: the root ("", "/" or "//") and the components that are
    neither empty nor ".". *)
Record Path := mkPath { root : string; tail : list string }.

Definition lstrip_slash_count (s : string) : nat :=
  (fix go (s : string) : nat :=
     match s with
     | String "/" s' => S (go s')
     | _ => 0%nat
     end) s.

Definition splitroot (s : string) : string :=
  match lstrip_slash_count s with
  | 0%nat => ""
  | 2%nat => "//"
  | _ => "/"
  end.

Definition keep_component (x : string) : bool :=
  negb (String.eqb x "") && negb (String.eqb x ".").

(** [Path(s)]. *)
Definition parse (s : string) : Path :=
  {| root := splitroot s;
     tail := List.filter keep_component (split_on "/" s) |}.

(** [str(p)]. *)
Definition str (p : Path) : string :=
  match root p +:+ join "/" (tail p) with
  | EmptyString => "."
  | s => s
  end.

(** [p.name]. *)
Definition name (p : Path) : string := List.last (tail p) "".

(** [p.stem]: the name without its last suffix; a leading or a closing dot
    is not a suffix separator. *)
Definition stem (p : Path) : string :=
  let n := name p in
  match rfind "." n with
  | Some i =>
      if ((0 <? i) && (i <? String.length n - 1))%nat
      then String.substring 0 i n
      else n
  | None => n
  end.

(** [p.parent]. *)
Definition parent (p : Path) : Path :=
  match tail p with
  | [] => p
  | _ => {| root := root p; tail := List.removelast (tail p) |}
  end.

(** [p / key]: an absolute [key] replaces [p]. *)
Definition joinpath (p : Path) (key : string) : Path :=
  match key with
  | String "/" _ => parse key
  | _ => {| root := root p; tail := tail p ++ tail (parse key) |}
  end.

End PurePath.

(** ** [modules/encoder.py]: class [MediaEncoder] *)

Module Encoder.
Import PurePath.

Inductive WidgetState := normal | disabled.

(** A label: its text and the theme colour key it is drawn in. *)
Record Label := mkLabel { text : string; text_color : string }.

(** The fields of a [MediaEncoder] the engine reads or writes.  A combo box
    or an entry is the string its [get()] returns; the preset slider is its
    position (0 to 8 on the widget); the progress bar holds the exact
    fraction where Python holds a float; [current_process] is the process
    identifier of the [Popen] handle. *)
Record MediaEncoder := mkEncoder {
  input_files : list Path;
  output_dir : option Path;
  is_encoding : bool;
  current_process : option nat;
  format_tabs : string;
  format_dropdown : string;
  resolution_dropdown : string;
  video_bitrate : string;
  fps_dropdown : string;
  audio_codec : string;
  audio_bitrate : string;
  sample_rate : string;
  preset_slider : nat;
  progress_bar : Q;
  progress_label : Label;
  start_btn : WidgetState;
  cancel_btn : WidgetState;
  status_bar : option (string * bool)
}.

Definition ext_map : gmap string string :=
  list_to_map
    [ ("MP4 (H.264)", ".mp4"); ("MKV (H.264)", ".mkv"); ("WebM (VP9)", ".webm");
      ("AVI", ".avi"); ("MOV", ".mov"); ("GIF", ".gif");
      ("MP3", ".mp3"); ("AAC (M4A)", ".m4a"); ("FLAC", ".flac");
      ("WAV", ".wav"); ("OGG (Vorbis)", ".ogg"); ("Opus", ".opus");
      ("PNG", ".png"); ("JPEG", ".jpg"); ("WebP", ".webp");
      ("BMP", ".bmp"); ("TIFF", ".tiff") ].

Definition presets : list string :=
  [ "ultrafast"; "superfast"; "veryfast"; "faster"; "fast"; "medium";
    "slow"; "slower"; "veryslow" ].

(** The values the settings panel offers in its drop-downs. *)
Definition resolution_values : list string :=
  [ "Original"; "3840x2160 (4K)"; "1920x1080 (1080p)"; "1280x720 (720p)";
    "854x480 (480p)"; "Custom" ].
Definition fps_values : list string := [ "Original"; "60"; "30"; "24"; "15" ].
Definition audio_codec_values : list string :=
  [ "AAC"; "MP3"; "FLAC"; "Opus"; "Copy" ].
Definition audio_bitrate_values : list string :=
  [ "320k"; "256k"; "192k"; "128k"; "96k" ].
Definition sample_rate_values : list string :=
  [ "Original"; "48000"; "44100"; "22050" ].

(** The video branch of [_build_ffmpeg_command]. *)
Definition video_args (self : MediaEncoder) (format_name : string)
    (cmd : list string) : Result (list string) :=
  let res := resolution_dropdown self in
  cmd ← (if negb (String.eqb res "Original") && negb (String.eqb res "Custom")
         then res_value ← getitem (split_ws res) 0; Ok (cmd ++ ["-s"; res_value])
         else Ok cmd);
  let cmd :=
    if contains "H.264" format_name then cmd ++ ["-c:v"; "libx264"]
    else if contains "VP9" format_name then cmd ++ ["-c:v"; "libvpx-vp9"]
    else cmd in
  preset ← getitem presets (preset_slider self);
  let cmd := cmd ++ ["-preset"; preset] in
  let vbr := video_bitrate self in
  let cmd :=
    if negb (String.eqb vbr "") then cmd ++ ["-b:v"; vbr +:+ "k"] else cmd in
  let fps := fps_dropdown self in
  let cmd :=
    if negb (String.eqb fps "Original") then cmd ++ ["-r"; fps] else cmd in
  let acodec := audio_codec self in
  let cmd :=
    if String.eqb acodec "AAC" then cmd ++ ["-c:a"; "aac"]
    else if String.eqb acodec "MP3" then cmd ++ ["-c:a"; "libmp3lame"]
    else if String.eqb acodec "Copy" then cmd ++ ["-c:a"; "copy"]
    else cmd in
  let abr := audio_bitrate self in
  Ok (cmd ++ ["-b:a"; abr]).

(** The audio branch. *)
Definition audio_args (self : MediaEncoder) (format_name : string)
    (cmd : list string) : list string :=
  let cmd := cmd ++ ["-vn"] in
  let cmd :=
    if contains "MP3" format_name then cmd ++ ["-c:a"; "libmp3lame"]
    else if contains "AAC" format_name then cmd ++ ["-c:a"; "aac"]
    else if contains "FLAC" format_name then cmd ++ ["-c:a"; "flac"]
    else if contains "Opus" format_name then cmd ++ ["-c:a"; "libopus"]
    else cmd in
  let abr := audio_bitrate self in
  let cmd := cmd ++ ["-b:a"; abr] in
  let sr := sample_rate self in
  if negb (String.eqb sr "Original") then cmd ++ ["-ar"; sr] else cmd.

(** [_build_ffmpeg_command(self, input_file, category, format_name)]. *)
Definition _build_ffmpeg_command (self : MediaEncoder) (input_file : Path)
    (category format_name : string) : Result (list string) :=
  let ext := default ".mp4" (ext_map !! format_name) in
  let output :=
    match output_dir self with
    | Some d => joinpath d (stem input_file +:+ "_converted" +:+ ext)
    | None => joinpath (parent input_file) (stem input_file +:+ "_converted" +:+ ext)
    end in
  let cmd := ["ffmpeg"; "-i"; str input_file; "-y"] in
  cmd ← (if String.eqb category "Video" then video_args self format_name cmd
         else if String.eqb category "Audio" then Ok (audio_args self format_name cmd)
         else Ok cmd);
  Ok (cmd ++ [str output]).

(** *** The callbacks run on the interface thread *)

Definition _update_progress (self : MediaEncoder) (progress : Q)
    (message : string) : MediaEncoder :=
  mkEncoder (input_files self) (output_dir self) (is_encoding self)
    (current_process self) (format_tabs self) (format_dropdown self)
    (resolution_dropdown self) (video_bitrate self) (fps_dropdown self)
    (audio_codec self) (audio_bitrate self) (sample_rate self)
    (preset_slider self)
    progress
    (mkLabel message (text_color (progress_label self)))
    (start_btn self) (cancel_btn self) (status_bar self).

Definition _encode_error (self : MediaEncoder) (error : string) : MediaEncoder :=
  mkEncoder (input_files self) (output_dir self)
    false
    (current_process self) (format_tabs self) (format_dropdown self)
    (resolution_dropdown self) (video_bitrate self) (fps_dropdown self)
    (audio_codec self) (audio_bitrate self) (sample_rate self)
    (preset_slider self) (progress_bar self)
    (mkLabel ("Error: " +:+ error) "red")
    normal disabled (status_bar self).

(** [if self.app:] is the presence of a status bar. *)
Definition _encode_complete (self : MediaEncoder) : MediaEncoder :=
  mkEncoder (input_files self) (output_dir self)
    false
    (current_process self) (format_tabs self) (format_dropdown self)
    (resolution_dropdown self) (video_bitrate self) (fps_dropdown self)
    (audio_codec self) (audio_bitrate self) (sample_rate self)
    (preset_slider self)
    1%Q
    (mkLabel "Encoding complete!" "success")
    normal disabled
    (match status_bar self with
     | Some _ => Some ("Encoding complete!", false)
     | None => None
     end).

(** A call handed to the interface thread with [self.after(0, ...)]. *)
Inductive Callback :=
| UpdateProgress (progress : Q) (message : string)
| EncodeError (error : string)
| EncodeComplete.

Definition run_callback (self : MediaEncoder) (cb : Callback) : MediaEncoder :=
  match cb with
  | UpdateProgress p m => _update_progress self p m
  | EncodeError e => _encode_error self e
  | EncodeComplete => _encode_complete self
  end.

(** *** The external process, as the worker sees it *)

(** What the operating system answers to one [Popen(cmd)]: the call raises,
    or a process starts whose diagnostic stream yields [stderr], after which
    reading either ends or raises [read_error], and which exits with
    [returncode]. *)
Inductive Outcome :=
| SpawnFails (error : string)
| Spawned (pid : nat) (stderr : list string) (read_error : option string)
    (returncode : Z).

(** The calls made on the operating system, in order. *)
Inductive Syscall :=
| SysPopen (pid : nat) (cmd : list string)
| SysPopenFailed (cmd : list string)
| SysTerminate (pid : nat)
| SysWait (pid : nat) (returncode : Z).

(** The worker thread and the interface thread share the encoder object.
    [queue] holds the callbacks scheduled and not yet run, [trace] the system
    calls made so far, [clock] counts the reads of [is_encoding] by the
    worker. *)
Record World := mkWorld {
  self : MediaEncoder;
  queue : list Callback;
  trace : list Syscall;
  clock : nat
}.

Definition after (w : World) (cb : Callback) : World :=
  mkWorld (self w) (queue w ++ [cb]) (trace w) (clock w).

Definition syscall (w : World) (c : Syscall) : World :=
  mkWorld (self w) (queue w) (trace w ++ [c]) (clock w).

(** The interface thread runs the first [k] queued callbacks. *)
Definition mainloop (k : nat) (w : World) : World :=
  mkWorld (foldl run_callback (self w) (take k (queue w)))
          (drop k (queue w)) (trace w) (clock w).

(** The interleaving of the two threads: [sched n] is the number of queued
    callbacks the interface thread has run when the worker reads
    [self.is_encoding] for the [n]-th time. *)
Definition Schedule := nat → nat.

Definition read_is_encoding (sched : Schedule) (w : World) : World * bool :=
  let w := mainloop (sched (clock w)) w in
  (mkWorld (self w) (queue w) (trace w) (S (clock w)), is_encoding (self w)).

Definition set_current_process (w : World) (pid : nat) : World :=
  let s := self w in
  mkWorld
    (mkEncoder (input_files s) (output_dir s) (is_encoding s)
       (Some pid) (format_tabs s) (format_dropdown s)
       (resolution_dropdown s) (video_bitrate s) (fps_dropdown s)
       (audio_codec s) (audio_bitrate s) (sample_rate s)
       (preset_slider s) (progress_bar s) (progress_label s)
       (start_btn s) (cancel_btn s) (status_bar s))
    (queue w) (trace w) (clock w).

(** What one diagnostic line makes the monitor do: the branch taken on the
    timestamp marker is [pass], so no line yields a callback. *)
Definition parse_progress (line : string) : list Callback :=
  if contains "time=" line then [] else [].

(** [for line in self.current_process.stderr: ...]; [true] when the loop
    was left with [break]. *)
Fixpoint monitor (sched : Schedule) (pid : nat) (lines : list string)
    (w : World) : World * bool :=
  match lines with
  | [] => (w, false)
  | line :: rest =>
      let '(w, enc) := read_is_encoding sched w in
      if negb enc then (syscall w (SysTerminate pid), true)
      else
        let w := foldl after w (parse_progress line) in
        monitor sched pid rest w
  end.

(** The [try] block of one iteration. *)
Definition run_job (sched : Schedule) (outcome : Outcome) (cmd : list string)
    (w : World) : World :=
  match outcome with
  | SpawnFails e => after (syscall w (SysPopenFailed cmd)) (EncodeError e)
  | Spawned pid stderr read_error returncode =>
      let w := set_current_process (syscall w (SysPopen pid cmd)) pid in
      let '(w, broke) := monitor sched pid stderr w in
      match broke, read_error with
      | false, Some e => after w (EncodeError e)
      | _, _ => syscall w (SysWait pid returncode)
      end
  end.

(** The loop of [_encode_files] from file number [i] on; [env i cmd] is the
    outcome of the [i]-th [Popen]. *)
Fixpoint encode_loop (env : nat → list string → Outcome) (sched : Schedule)
    (category format_name : string) (total : nat) (i : nat)
    (files : list Path) (w : World) : Result World :=
  match files with
  | [] => Ok w
  | input_file :: rest =>
      let '(w, enc) := read_is_encoding sched w in
      if negb enc then Ok w
      else
        let progress := Qmake (Z.of_nat i) (Pos.of_nat total) in
        let w := after w (UpdateProgress progress ("Encoding: " +:+ name input_file)) in
        cmd ← _build_ffmpeg_command (self w) input_file category format_name;
        let w := run_job sched (env i cmd) cmd w in
        encode_loop env sched category format_name total (S i) rest w
  end.

(** [_encode_files(self, category, format_name)], run in the worker. *)
Definition _encode_files (env : nat → list string → Outcome) (sched : Schedule)
    (category format_name : string) (w : World) : Result World :=
  let total := length (input_files (self w)) in
  w ← encode_loop env sched category format_name total 0
        (input_files (self w)) w;
  Ok (after w EncodeComplete).

(** [start_encode(self)], up to the start of the worker. *)
Definition start_encode (s : MediaEncoder) : MediaEncoder :=
  match input_files s with
  | [] =>
      mkEncoder (input_files s) (output_dir s) (is_encoding s)
        (current_process s) (format_tabs s) (format_dropdown s)
        (resolution_dropdown s) (video_bitrate s) (fps_dropdown s)
        (audio_codec s) (audio_bitrate s) (sample_rate s)
        (preset_slider s) (progress_bar s) (progress_label s)
        (start_btn s) (cancel_btn s)
        (match status_bar s with
         | Some _ => Some ("No input files", true)
         | None => None
         end)
  | _ =>
      mkEncoder (input_files s) (output_dir s) true
        (current_process s) (format_tabs s) (format_dropdown s)
        (resolution_dropdown s) (video_bitrate s) (fps_dropdown s)
        (audio_codec s) (audio_bitrate s) (sample_rate s)
        (preset_slider s) (progress_bar s) (progress_label s)
        disabled normal (status_bar s)
  end.


(** A freshly built encoder: the constructor's values and the first entry
    of each drop-down. *)
Definition init : MediaEncoder :=
  mkEncoder [] None false None "Video" "MP4 (H.264)" "Original" ""
    "Original" "AAC" "192k" "Original" 4 0%Q
    (mkLabel "Ready to encode" "text_dim") normal disabled None.

End Encoder.

(** ** [modules/screen_recorder.py]: class [ScreenRecorder] *)

Module Recorder.
Import PurePath.

Inductive WidgetState := normal | disabled.

(** One entry of [QUALITY_PRESETS]. *)
Record Quality := mkQuality { crf : Z; preset : string; label : string }.

(** [QUALITY_PRESETS], in the order the dictionary is written: the search
    by label in [_begin_capture] walks it in that order. *)
Definition QUALITY_PRESETS : list (string * Quality) :=
  [ ("low", mkQuality 28 "ultrafast" "Low (Fast)");
    ("medium", mkQuality 23 "fast" "Medium");
    ("high", mkQuality 18 "medium" "High");
    ("lossless", mkQuality 0 "slow" "Lossless") ].

Definition FORMATS : list string := [ "mp4"; "mkv"; "webm"; "avi"; "mov" ].


(** An entry of the output directory as [glob] yields it, with what
    [stat()] answers for it at the two places that call it: [st_mtime] when
    [sorted] computes the key of the entry (line 394), [st_size] when the
    loop draws its row (line 422).  [None] is an [OSError]: a dangling
    link, a file removed in between. *)
Record FileEntry := mkFile {
  fname : string;
  st_mtime : option Z;
  st_size : option Z
}.

(** What the recordings panel shows: the placeholder label, or one row per
    recording (its name and its size in bytes, and the path the play button
    opens); the row of a file whose [stat()] raised in the loop is left with
    its frame and the label of its name. *)
Inductive Row :=
| NoRecordingsYet
| RecordingRow (rname : string) (size : Z) (target : Path)
| UnfinishedRow (rname : string).

Record ScreenRecorder := mkRecorder {
  is_recording : bool;
  is_paused : bool;
  recording_process : option nat;
  record_start_time : option Z;
  current_output_file : option Path;
  output_dir : Path;
  current_preset : string;
  format_var : string;
  quality_var : string;
  fps_var : string;
  countdown_var : bool;
  timer_label : string;
  status_label : string;
  record_btn : string * string;
  pause_btn : WidgetState * string;
  stop_btn : WidgetState;
  recordings_scroll : list Row;
  status_callback : bool
}.

Inductive Signal := SIGSTOP | SIGCONT.

(** The calls made on the operating system, in order. *)
Inductive Syscall :=
| SysPopen (pid : nat) (cmd : list string)
| SysPopenFailed (cmd : list string)
| SysSendSignal (pid : nat) (sig : Signal)
| SysStdinWrite (pid : nat) (data : string)
| SysStdinFlush (pid : nat)
| SysWait (pid : nat) (timeout : Z)
| SysTerminate (pid : nat).

(** The recorder object, the system calls made so far and the messages
    handed to [status_callback]. *)
Record World := mkWorld {
  self : ScreenRecorder;
  trace : list Syscall;
  status_log : list string
}.

Definition syscall (w : World) (c : Syscall) : World :=
  mkWorld (self w) (trace w ++ [c]) (status_log w).

Definition with_self (w : World) (s : ScreenRecorder) : World :=
  mkWorld s (trace w) (status_log w).

(** [preset in [...]]. *)
Definition member (x : string) (l : list string) : bool :=
  bool_decide (x ∈ l).

(** [_build_ffmpeg_command(self, quality, fps)]; [environ] is
    [os.environ]. *)
Definition _build_ffmpeg_command (environ : gmap string string)
    (self : ScreenRecorder) (quality : Quality) (fps : Z) : list string :=
  let cmd := ["ffmpeg"; "-y"] in
  let preset_id := current_preset self in
  let cmd :=
    if member preset_id ["screen_only"; "screen_audio"; "screen_mic"; "screen_all"]
    then cmd ++ ["-f"; "x11grab"; "-framerate"; str_int fps;
                 "-i"; default ":0" (environ !! "DISPLAY")]
    else cmd in
  let cmd :=
    if member preset_id ["screen_audio"; "screen_all"]
    then cmd ++ ["-f"; "pulse"; "-i"; "default"]
    else cmd in
  let cmd :=
    if member preset_id ["screen_mic"; "screen_all"]
    then cmd ++ ["-f"; "pulse"; "-i"; "default"]
    else cmd in
  let cmd :=
    if member preset_id ["webcam"; "webcam_screen"]
    then cmd ++ ["-f"; "v4l2"; "-framerate"; str_int fps; "-i"; "/dev/video0"]
    else cmd in
  let cmd :=
    cmd ++ ["-c:v"; "libx264"; "-preset"; preset quality;
            "-crf"; str_int (crf quality); "-pix_fmt"; "yuv420p"] in
  let cmd :=
    if negb (member preset_id ["screen_only"; "webcam"])
    then cmd ++ ["-c:a"; "aac"; "-b:a"; "128k"]
    else cmd in
  cmd ++ [match current_output_file self with
          | Some f => str f
          | None => "None"
          end].

(** [glob("*.mp4")] on the names of a directory. *)
Definition glob_mp4 (dir : list FileEntry) : list FileEntry :=
  List.filter (fun f => endswith (fname f) ".mp4") dir.

(** The keys [sorted] computes, one [f.stat().st_mtime] per entry in the
    order of the entries, before it compares any two: the first [stat()]
    that fails raises.  [out] is the directory the entries are in. *)
Fixpoint keys (out : Path) (l : list FileEntry) : Result (list (Z * FileEntry)) :=
  match l with
  | [] => Ok []
  | f :: l' =>
      match st_mtime f with
      | Some t => ks ← keys out l'; Ok ((t, f) :: ks)
      | None =>
          Raise (OSError ("No such file or directory: " +:+
                          str (joinpath out (fname f))))
      end
  end.

(** [sorted(..., reverse=True)] on the entries with their keys: stable,
    newest first. *)
Fixpoint insert_by_mtime (x : Z * FileEntry) (l : list (Z * FileEntry))
    : list (Z * FileEntry) :=
  match l with
  | [] => [x]
  | y :: l' =>
      if (fst y <=? fst x)%Z then x :: l
      else y :: insert_by_mtime x l'
  end.

Definition sorted_by_mtime (l : list (Z * FileEntry)) : list (Z * FileEntry) :=
  foldr insert_by_mtime [] l.

(** The list [recordings] of [_refresh_recordings_list]. *)
Definition recent_recordings (out : Path) (dir : list FileEntry)
    : Result (list FileEntry) :=
  ks ← keys out (glob_mp4 dir);
  Ok (take 10 (List.map snd (sorted_by_mtime ks))).

(** The loop over [recordings]: the rows drawn, and the exception of the
    first [rec.stat()] that fails, which is reached once the frame of that
    file and the label of its name are packed. *)
Fixpoint draw_rows (out : Path) (recordings : list FileEntry)
    : list Row * option Exn :=
  match recordings with
  | [] => ([], None)
  | rec :: rest =>
      match st_size rec with
      | Some size =>
          let '(rows, e) := draw_rows out rest in
          (RecordingRow (fname rec) size (joinpath out (fname rec)) :: rows, e)
      | None =>
          ([UnfinishedRow (fname rec)],
           Some (OSError ("No such file or directory: " +:+
                          str (joinpath out (fname rec)))))
      end
  end.

Definition set_recordings_scroll (s : ScreenRecorder) (rows : list Row)
    : ScreenRecorder :=
  mkRecorder (is_recording s) (is_paused s) (recording_process s)
    (record_start_time s) (current_output_file s) (output_dir s)
    (current_preset s) (format_var s) (quality_var s) (fps_var s)
    (countdown_var s) (timer_label s) (status_label s) (record_btn s)
    (pause_btn s) (stop_btn s) rows (status_callback s).

(** What [_refresh_recordings_list] leaves in the panel, whose rows it
    destroys first, and the exception it raises, if any: nothing is drawn
    when [sorted] raises. *)
Definition recordings_panel (out : Path) (dir : list FileEntry)
    : list Row * option Exn :=
  match recent_recordings out dir with
  | Raise e => ([], Some e)
  | Ok [] => ([NoRecordingsYet], None)
  | Ok recordings => draw_rows out recordings
  end.

(** [_refresh_recordings_list(self)]; [dir] is the content of
    [self.output_dir] when it is called.  The result is the recorder as the
    call leaves it, with the exception it raises, if any. *)
Definition _refresh_recordings_list (dir : list FileEntry)
    (s : ScreenRecorder) : ScreenRecorder * option Exn :=
  let '(rows, e) := recordings_panel (output_dir s) dir in
  (set_recordings_scroll s rows, e).

(** [_select_preset(self, preset_id)], without the button colours. *)
Definition _select_preset (s : ScreenRecorder) (preset_id : string)
    : ScreenRecorder :=
  mkRecorder (is_recording s) (is_paused s) (recording_process s)
    (record_start_time s) (current_output_file s) (output_dir s)
    preset_id (format_var s) (quality_var s) (fps_var s)
    (countdown_var s) (timer_label s) (status_label s) (record_btn s)
    (pause_btn s) (stop_btn s) (recordings_scroll s) (status_callback s).

(** [_toggle_pause(self)]. *)
Definition _toggle_pause (w : World) : World :=
  let s := self w in
  match recording_process s with
  | None => w
  | Some pid =>
      if is_paused s then
        with_self (syscall w (SysSendSignal pid SIGCONT))
          (mkRecorder (is_recording s) false (recording_process s)
             (record_start_time s) (current_output_file s) (output_dir s)
             (current_preset s) (format_var s) (quality_var s) (fps_var s)
             (countdown_var s) (timer_label s) "🔴 Recording..."
             (record_btn s) (fst (pause_btn s), "⏸") (stop_btn s)
             (recordings_scroll s) (status_callback s))
      else
        with_self (syscall w (SysSendSignal pid SIGSTOP))
          (mkRecorder (is_recording s) true (recording_process s)
             (record_start_time s) (current_output_file s) (output_dir s)
             (current_preset s) (format_var s) (quality_var s) (fps_var s)
             (countdown_var s) (timer_label s) "⏸ Paused"
             (record_btn s) (fst (pause_btn s), "▶") (stop_btn s)
             (recordings_scroll s) (status_callback s))
  end.

(** How the process answers the graceful stop: writing the quit byte or
    flushing it raises, or the process exits within the time allowed to
    [wait], or [wait] times out. *)
Inductive StopResponse :=
| WriteRaises (e : Exn)
| FlushRaises (e : Exn)
| ExitsInTime
| WaitTimesOut.

(** The [try]/[except] of [_stop_recording] on the handle [pid]. *)
Definition graceful_stop (r : StopResponse) (pid : nat) (w : World) : World :=
  let w := syscall w (SysStdinWrite pid "q") in
  match r with
  | WriteRaises _ => syscall w (SysTerminate pid)
  | FlushRaises _ => syscall (syscall w (SysStdinFlush pid)) (SysTerminate pid)
  | ExitsInTime => syscall (syscall w (SysStdinFlush pid)) (SysWait pid 5)
  | WaitTimesOut =>
      syscall (syscall (syscall w (SysStdinFlush pid)) (SysWait pid 5))
        (SysTerminate pid)
  end.

(** The fields [_stop_recording] writes once the process is dealt with. *)
Definition stop_fields (s : ScreenRecorder) : ScreenRecorder :=
  mkRecorder false false None None (current_output_file s) (output_dir s)
    (current_preset s) (format_var s) (quality_var s) (fps_var s)
    (countdown_var s) "00:00:00" "Recording saved!"
    ("#ff3366", "⏺") (disabled, "⏸") disabled
    (recordings_scroll s) (status_callback s).

(** [_stop_recording(self)].  The exception, if any, is raised by one of
    the last two statements, after the process has been dealt with and every
    field has been written: by the refresh of the panel (line 614), and then
    the status callback is not reached, or by the message for the callback
    (line 617). *)
Definition _stop_recording (r : StopResponse) (dir : list FileEntry)
    (w : World) : World * option Exn :=
  let s := self w in
  let w :=
    match recording_process s with
    | Some pid => graceful_stop r pid w
    | None => w
    end in
  let '(s, raised) := _refresh_recordings_list dir (stop_fields s) in
  let w := with_self w s in
  match raised with
  | Some e => (w, Some e)
  | None =>
      if status_callback s then
        match current_output_file s with
        | Some f =>
            (mkWorld (self w) (trace w) (status_log w ++ ["Saved: " +:+ name f]),
             None)
        | None =>
            (w, Some (AttributeError "'NoneType' object has no attribute 'name'"))
        end
      else (w, None)
  end.

(** [int(s)] for a string of decimal digits. *)
Definition int_of_str (s : string) : Result Z :=
  match NilZero.uint_of_string s with
  | Some d => Ok (Z.of_uint d)
  | None => Raise (ValueError ("invalid literal for int() with base 10: " +:+ s))
  end.

(** [next(k for k, v in QUALITY_PRESETS.items() if v['label'] == l)]
    followed by the lookup of that key. *)
Definition quality_of_label (l : string) : Result Quality :=
  match List.find (fun kv => String.eqb (label (snd kv)) l) QUALITY_PRESETS with
  | Some (k, _) =>
      match List.find (fun kv => String.eqb (fst kv) k) QUALITY_PRESETS with
      | Some (_, q) => Ok q
      | None => Raise IndexError
      end
  | None => Raise StopIteration
  end.

(** What the operating system answers to [Popen(cmd)]. *)
Inductive Outcome :=
| SpawnFails (error : string)
| Spawned (pid : nat).

(** [str(e)[:30]]. *)
Definition first30 (s : string) : string := String.substring 0 30 s.

(** [_begin_capture(self)]: [timestamp] is [datetime.now()] formatted,
    [now] is [time.time()]. *)
Definition _begin_capture (environ : gmap string string) (timestamp : string)
    (now : Z) (env : list string → Outcome) (w : World) : Result World :=
  let s := self w in
  let ext := format_var s in
  let out := joinpath (output_dir s) ("recording_" +:+ timestamp +:+ "." +:+ ext) in
  let s :=
    mkRecorder (is_recording s) (is_paused s) (recording_process s)
      (record_start_time s) (Some out) (output_dir s)
      (current_preset s) (format_var s) (quality_var s) (fps_var s)
      (countdown_var s) (timer_label s) (status_label s) (record_btn s)
      (pause_btn s) (stop_btn s) (recordings_scroll s) (status_callback s) in
  quality ← quality_of_label (quality_var s);
  fps ← int_of_str (fps_var s);
  let cmd := _build_ffmpeg_command environ s quality fps in
  match env cmd with
  | Spawned pid =>
      Ok (mkWorld
            (mkRecorder true false (Some pid) (Some now)
               (current_output_file s) (output_dir s)
               (current_preset s) (format_var s) (quality_var s) (fps_var s)
               (countdown_var s) (timer_label s) "🔴 Recording..."
               ("#00ff88", "⏺") (normal, snd (pause_btn s)) normal
               (recordings_scroll s) (status_callback s))
            (trace w ++ [SysPopen pid cmd])
            (if status_callback s
             then status_log w ++ ["Recording to " +:+ name out]
             else status_log w))
  | SpawnFails e =>
      Ok (mkWorld
            (mkRecorder (is_recording s) (is_paused s) (recording_process s)
               (record_start_time s) (current_output_file s) (output_dir s)
               (current_preset s) (format_var s) (quality_var s) (fps_var s)
               (countdown_var s) (timer_label s) ("Error: " +:+ first30 e)
               (record_btn s) (pause_btn s) (stop_btn s)
               (recordings_scroll s) (status_callback s))
            (trace w ++ [SysPopenFailed cmd])
            (status_log w))
  end.

(** The recorder the constructor builds, for an output directory [dir]
    whose content is [listing]; an exception of the first refresh of the
    panel leaves the constructor, and no recorder is built. *)
Definition init (dir : Path) (listing : list FileEntry) (callback : bool)
    : Result ScreenRecorder :=
  match
    _refresh_recordings_list listing
      (mkRecorder false false None None None dir "screen_audio" "mp4" "Medium"
         "30" true "00:00:00" "Ready to Record" ("#ff3366", "⏺")
         (disabled, "⏸") disabled [] callback)
  with
  | (s, None) => Ok s
  | (_, Some e) => Raise e
  end.

End Recorder.

(** ** Predicates used to state the properties *)

Module Props.

(** The option [flag] followed by [value] occurs in the argument list. *)
Fixpoint has_option (flag value : string) (cmd : list string) : bool :=
  match cmd with
  | a :: rest =>
      match rest with
      | b :: _ => (String.eqb a flag && String.eqb b value) || has_option flag value rest
      | [] => false
      end
  | [] => false
  end.

(** The argument list mentions [flag] at all. *)
Definition has_flag (flag : string) (cmd : list string) : bool :=
  existsb (String.eqb flag) cmd.

(** The settings of an encoder that its command builder reads. *)
Definition same_encoder_settings (s1 s2 : Encoder.MediaEncoder) : Prop :=
  Encoder.output_dir s1 = Encoder.output_dir s2 ∧
  Encoder.resolution_dropdown s1 = Encoder.resolution_dropdown s2 ∧
  Encoder.preset_slider s1 = Encoder.preset_slider s2 ∧
  Encoder.video_bitrate s1 = Encoder.video_bitrate s2 ∧
  Encoder.fps_dropdown s1 = Encoder.fps_dropdown s2 ∧
  Encoder.audio_codec s1 = Encoder.audio_codec s2 ∧
  Encoder.audio_bitrate s1 = Encoder.audio_bitrate s2 ∧
  Encoder.sample_rate s1 = Encoder.sample_rate s2.


(** [stat()] answers for every "*.mp4" entry of the directory, at both
    places where [_refresh_recordings_list] calls it. *)
Definition examinable (dir : list Recorder.FileEntry) : Prop :=
  ∀ f, f ∈ dir → endswith (Recorder.fname f) ".mp4" = true →
       is_Some (Recorder.st_mtime f) ∧ is_Some (Recorder.st_size f).

(** The settings of a recorder that its command builder reads. *)
Definition same_recorder_settings (s1 s2 : Recorder.ScreenRecorder) : Prop :=
  Recorder.current_preset s1 = Recorder.current_preset s2 ∧
  Recorder.current_output_file s1 = Recorder.current_output_file s2.

(** The groups of arguments the video branch of the encoder appends, one
    per setting, written as functions of that setting alone. *)
Definition resolution_args (res : string) : Result (list string) :=
  if negb (String.eqb res "Original") && negb (String.eqb res "Custom")
  then res_value ← getitem (split_ws res) 0; Ok ["-s"; res_value]
  else Ok [].

Definition video_codec_args (format_name : string) : list string :=
  if contains "H.264" format_name then ["-c:v"; "libx264"]
  else if contains "VP9" format_name then ["-c:v"; "libvpx-vp9"]
  else [].

Definition video_bitrate_args (vbr : string) : list string :=
  if negb (String.eqb vbr "") then ["-b:v"; vbr +:+ "k"] else [].

Definition frame_rate_args (fps : string) : list string :=
  if negb (String.eqb fps "Original") then ["-r"; fps] else [].

Definition audio_codec_args (acodec : string) : list string :=
  if String.eqb acodec "AAC" then ["-c:a"; "aac"]
  else if String.eqb acodec "MP3" then ["-c:a"; "libmp3lame"]
  else if String.eqb acodec "Copy" then ["-c:a"; "copy"]
  else [].






End Props.

(** ** The concrete inputs the properties are tried on *)

Module Scenarios.
Import Props.

Definition clip_encoder : Encoder.MediaEncoder :=
  Encoder.mkEncoder [PurePath.parse "clip.mov"] None false None "Video" "MP4 (H.264)"
    "Original" "" "Original" "AAC" "192k" "Original" 5 0%Q
    (Encoder.mkLabel "Ready to encode" "text_dim") Encoder.normal Encoder.disabled None.

(** The same encoder with the audio codec menu at "MP3". *)
Definition mp3_clip_encoder : Encoder.MediaEncoder :=
  Encoder.mkEncoder [PurePath.parse "clip.mov"] None false None "Video" "MP4 (H.264)"
    "Original" "" "Original" "MP3" "192k" "Original" 5 0%Q
    (Encoder.mkLabel "Ready to encode" "text_dim") Encoder.normal Encoder.disabled None.

Definition default_quality : Recorder.Quality :=
  Recorder.mkQuality 23 "fast" "Medium".

(** The recorder the constructor builds when [built] is its result. *)
Definition constructed (built : Result Recorder.ScreenRecorder)
    (dir : PurePath.Path) : Recorder.ScreenRecorder :=
  match built with
  | Ok s => s
  | Raise _ =>
      Recorder.mkRecorder false false None None None dir "screen_audio" "mp4"
        "Medium" "30" true "00:00:00" "Ready to Record" ("#ff3366", "⏺")
        (Recorder.disabled, "⏸") Recorder.disabled [] false
  end.

Definition default_recorder : Recorder.ScreenRecorder :=
  constructed
    (Recorder.init (PurePath.parse "/home/user/Videos/N01D-Recordings") [] false)
    (PurePath.parse "/home/user/Videos/N01D-Recordings").

(** Two encoders with the same settings, one idle and one in the middle of
    a batch; two environments that differ outside DISPLAY. *)
Definition busy_encoder : Encoder.MediaEncoder :=
  Encoder._update_progress
    (Encoder.set_current_process
       (Encoder.mkWorld (Encoder.start_encode clip_encoder) [] [] 0)
       77).(Encoder.self)
    (1 # 2)%Q "Encoding: clip.mov".


(** A batch of three inputs, started. *)
Definition three_files : list PurePath.Path :=
  [PurePath.parse "a.mov"; PurePath.parse "b.mov"; PurePath.parse "c.mov"].

Definition batch_encoder : Encoder.MediaEncoder :=
  Encoder.start_encode
    (Encoder.mkEncoder three_files None false None "Video" "MP4 (H.264)"
       "Original" "" "Original" "AAC" "192k" "Original" 5 0%Q
       (Encoder.mkLabel "Ready to encode" "text_dim")
       Encoder.normal Encoder.disabled None).

Definition batch_world : Encoder.World := Encoder.mkWorld batch_encoder [] [] 0.

Definition progress_line : string :=
  "frame=  120 fps= 30 q=28.0 size=     512kB time=00:00:05.00 bitrate= 838.9kbits/s".



(** Reading the diagnostic stream of the second process raises. *)
Definition second_raises (i : nat) (cmd : list string) : Encoder.Outcome :=
  match i with
  | 1 => Encoder.Spawned 101 []
           (Some "'utf-8' codec can't decode byte 0xff in position 0: invalid start byte") 1
  | _ => Encoder.Spawned (100 + i) [progress_line] None 0
  end.


(** The interface thread runs no callback while the worker is busy. *)
Definition idle : Encoder.Schedule := fun _ => 0.





(** A recording started by the recorder the constructor builds: the process
    is running, the output file is named after the clock. *)
Definition spawn_ok (cmd : list string) : Recorder.Outcome :=
  Recorder.Spawned 4242.

Definition started (s : Recorder.ScreenRecorder) : Recorder.World :=
  match Recorder._begin_capture ∅ "20240101_120000" 1000 spawn_ok
          (Recorder.mkWorld s [] []) with
  | Ok w => w
  | Raise _ => Recorder.mkWorld s [] []
  end.

Definition recording_world : Recorder.World :=
  started
    (constructed
       (Recorder.init (PurePath.parse "/home/user/Videos/N01D-Recordings") [] true)
       (PurePath.parse "/home/user/Videos/N01D-Recordings")).

(** The same with the Matroska container chosen in the format menu. *)
Definition mkv_recorder : Recorder.ScreenRecorder :=
  Recorder.mkRecorder false false None None None
    (PurePath.parse "/home/user/Videos/N01D-Recordings")
    "screen_audio" "mkv" "Medium" "30" true "00:00:00" "Ready to Record"
    ("#ff3366", "⏺") (Recorder.disabled, "⏸") Recorder.disabled
    [Recorder.NoRecordingsYet] true.

(** The output directory once that recording has been written. *)
Definition mkv_directory : list Recorder.FileEntry :=
  [Recorder.mkFile "recording_20240101_120000.mkv" (Some 1005%Z) (Some 4096%Z)].

(** The new system calls of a world with respect to an earlier one. *)
Definition new_calls (before after : Recorder.World) : list Recorder.Syscall :=
  drop (length (Recorder.trace before)) (Recorder.trace after).

End Scenarios.

(** ** More of Python: suffixes and lower case *)

Module PyMore.

(** [p.suffix]: the last dot of the name and what follows, unless the dot
    opens or closes the name. *)
Definition suffix (p : PurePath.Path) : string :=
  let n := PurePath.name p in
  match rfind "." n with
  | Some i =>
      if ((0 <? i) && (i <? String.length n - 1))%nat
      then String.substring i (String.length n - i) n
      else ""
  | None => ""
  end.

(** [s.lower()] on ASCII letters; other bytes are kept. *)
Definition lower_char (c : ascii) : ascii :=
  let n := nat_of_ascii c in
  if ((65 <=? n) && (n <=? 90))%nat then ascii_of_nat (n + 32) else c.

Fixpoint lower (s : string) : string :=
  match s with
  | EmptyString => EmptyString
  | String c s' => String (lower_char c) (lower s')
  end.

#[export] Instance Path_eq_dec : EqDecision PurePath.Path.
Proof. solve_decision. Defined.

End PyMore.

(** ** [modules/encoder.py]: the list of input files and the format tabs *)

Module EncoderFiles.
Import PurePath Encoder PyMore.

(** What the file list shows: the placeholder label, or one frame per file
    with its label (icon and name) and, once [stat] has answered, its size in
    bytes and its remove button. *)
Inductive FileRow :=
| NoFilesLabel
| FileFrame (label : string) (size : option Z).

(** The encoder with its file list widget. *)
Record Panel := mkPanel { encoder : MediaEncoder; file_list : list FileRow }.

(** [filepath.stat().st_size], or [None] where [stat] raises. *)
Definition Stat := Path → option Z.

Definition set_input_files (s : MediaEncoder) (files : list Path) : MediaEncoder :=
  mkEncoder files (output_dir s) (is_encoding s)
    (current_process s) (format_tabs s) (format_dropdown s)
    (resolution_dropdown s) (video_bitrate s) (fps_dropdown s)
    (audio_codec s) (audio_bitrate s) (sample_rate s)
    (preset_slider s) (progress_bar s) (progress_label s)
    (start_btn s) (cancel_btn s) (status_bar s).

Definition set_output_dir (s : MediaEncoder) (d : option Path) : MediaEncoder :=
  mkEncoder (input_files s) d (is_encoding s)
    (current_process s) (format_tabs s) (format_dropdown s)
    (resolution_dropdown s) (video_bitrate s) (fps_dropdown s)
    (audio_codec s) (audio_bitrate s) (sample_rate s)
    (preset_slider s) (progress_bar s) (progress_label s)
    (start_btn s) (cancel_btn s) (status_bar s).

(** The icon chosen from the lower-cased suffix. *)
Definition icon_of (filepath : Path) : string :=
  let ext := lower (suffix filepath) in
  if bool_decide (ext ∈ [".mp4"; ".mkv"; ".avi"; ".mov"; ".webm"]) then "🎬"
  else if bool_decide (ext ∈ [".mp3"; ".wav"; ".flac"; ".ogg"]) then "🎵"
  else "🖼️".

(** The loop of [_update_file_list]: the rows built so far, and the exception
    of the first [stat] that fails; the frame of that file is left with its
    label alone. *)
Fixpoint file_rows (stat : Stat) (files : list Path) : list FileRow * option Exn :=
  match files with
  | [] => ([], None)
  | filepath :: rest =>
      let label := icon_of filepath +:+ "  " +:+ name filepath in
      match stat filepath with
      | Some size =>
          let '(rows, e) := file_rows stat rest in
          (FileFrame label (Some size) :: rows, e)
      | None =>
          ([FileFrame label None],
           Some (OSError ("No such file or directory: " +:+ str filepath)))
      end
  end.

(** [_update_file_list(self)]. *)
Definition _update_file_list (stat : Stat) (p : Panel) : Panel * option Exn :=
  match input_files (encoder p) with
  | [] => (mkPanel (encoder p) [NoFilesLabel], None)
  | files =>
      let '(rows, e) := file_rows stat files in
      (mkPanel (encoder p) rows, e)
  end.

(** The loop of [add_files]: each chosen name, as a path, is appended unless
    the list holds it. *)
Definition append_new (files : list Path) (f : string) : list Path :=
  if bool_decide (parse f ∈ files) then files else files ++ [parse f].

(** [add_files(self)]; [chosen] is what the file dialog returns. *)
Definition add_files (stat : Stat) (chosen : list string) (p : Panel)
    : Panel * option Exn :=
  let files := foldl append_new (input_files (encoder p)) chosen in
  _update_file_list stat (mkPanel (set_input_files (encoder p) files) (file_list p)).

(** [clear_files(self)]. *)
Definition clear_files (stat : Stat) (p : Panel) : Panel * option Exn :=
  _update_file_list stat (mkPanel (set_input_files (encoder p) []) (file_list p)).

(** [list.remove(x)]: the first element equal to [x] is dropped. *)
Fixpoint list_remove (x : Path) (l : list Path) : list Path :=
  match l with
  | [] => []
  | y :: l' => if bool_decide (y = x) then l' else y :: list_remove x l'
  end.

(** [_remove_file(self, filepath)]. *)
Definition _remove_file (stat : Stat) (filepath : Path) (p : Panel)
    : Panel * option Exn :=
  if bool_decide (filepath ∈ input_files (encoder p)) then
    _update_file_list stat
      (mkPanel (set_input_files (encoder p)
                  (list_remove filepath (input_files (encoder p))))
               (file_list p))
  else (p, None).

(** [load_file(self, filepath)]. *)
Definition load_file (stat : Stat) (filepath : Path) (p : Panel)
    : Panel * option Exn :=
  if bool_decide (filepath ∈ input_files (encoder p)) then (p, None)
  else
    _update_file_list stat
      (mkPanel (set_input_files (encoder p) (input_files (encoder p) ++ [filepath]))
               (file_list p)).

(** [browse_output(self)]; [directory] is what the directory dialog returns,
    empty when it was dismissed.  The entry widget only mirrors the choice. *)
Definition browse_output (directory : string) (s : MediaEncoder) : MediaEncoder :=
  if negb (String.eqb directory "") then set_output_dir s (Some (parse directory))
  else s.

(** The table of [_on_category_change], in the order it is written. *)
Definition formats : list (string * list string) :=
  [ ("Video", ["MP4 (H.264)"; "MKV (H.264)"; "WebM (VP9)"; "AVI"; "MOV"; "GIF"]);
    ("Audio", ["MP3"; "AAC (M4A)"; "FLAC"; "WAV"; "OGG (Vorbis)"; "Opus"]);
    ("Image", ["PNG"; "JPEG"; "WebP"; "BMP"; "TIFF"; "GIF"]) ].

Definition formats_get (category : string) : option (list string) :=
  snd <$> List.find (λ kv, String.eqb (fst kv) category) formats.

(** The format drop-down and the two settings frames. *)
Record FormatPanel := mkFormatPanel {
  format_values : list string;
  format_shown : string;
  video_settings : bool;
  audio_settings : bool
}.

(** What a failed subscript raises. *)
Inductive LookupError :=
| KeyError (key : string)
| ListIndexError.

(** [_on_category_change(self, category)]: the values of the drop-down are
    set first; then [formats[category][0]] raises for a category the table
    does not have, and the frames are shown or hidden otherwise. *)
Definition _on_category_change (category : string) (p : FormatPanel)
    : FormatPanel * option LookupError :=
  let values := default [] (formats_get category) in
  let p := mkFormatPanel values (format_shown p) (video_settings p) (audio_settings p) in
  match formats_get category with
  | None => (p, Some (KeyError category))
  | Some [] => (p, Some ListIndexError)
  | Some (first :: _) =>
      if String.eqb category "Video" then (mkFormatPanel values first true true, None)
      else if String.eqb category "Audio" then (mkFormatPanel values first false true, None)
      else (mkFormatPanel values first false false, None)
  end.

End EncoderFiles.

(** ** [modules/screen_recorder.py]: the record button and its countdown *)

Module RecorderUI.
Import PurePath Recorder.

(** The recorder with the timer callbacks of the toolkit that are pending:
    each is a call [countdown(n)] due one second after it was scheduled, and
    they fire in the order they were scheduled. *)
Record Desk := mkDesk { world : World; timers : list Z }.

(** What a capture finds when it begins: the environment, the clock in its
    two readings, and the answer of the operating system to [Popen]. *)
Record Moment := mkMoment {
  environ : gmap string string;
  timestamp : string;
  now : Z;
  popen : list string → Outcome
}.

Definition set_labels (s : ScreenRecorder) (timer status : string)
    : ScreenRecorder :=
  mkRecorder (is_recording s) (is_paused s) (recording_process s)
    (record_start_time s) (current_output_file s) (output_dir s)
    (current_preset s) (format_var s) (quality_var s) (fps_var s)
    (countdown_var s) timer status (record_btn s)
    (pause_btn s) (stop_btn s) (recordings_scroll s) (status_callback s).

(** The inner function [countdown(n)] of [_do_countdown]; the callback is
    [_begin_capture].  The colours of the timer label are left out. *)
Definition countdown (m : Moment) (n : Z) (d : Desk) : Result Desk :=
  let s := self (world d) in
  if (0 <? n)%Z then
    Ok (mkDesk (with_self (world d) (set_labels s (str_int n) "Starting..."))
               (timers d ++ [(n - 1)%Z]))
  else
    w ← _begin_capture (environ m) (timestamp m) (now m) (popen m)
          (with_self (world d) (set_labels s "00:00:00" (status_label s)));
    Ok (mkDesk w (timers d)).

(** [_start_recording(self)]; [countdown_seconds] is the field of that
    name. *)
Definition _start_recording (m : Moment) (countdown_seconds : Z) (d : Desk)
    : Result Desk :=
  if countdown_var (self (world d)) then countdown m countdown_seconds d
  else
    w ← _begin_capture (environ m) (timestamp m) (now m) (popen m) (world d);
    Ok (mkDesk w (timers d)).

(** [_toggle_recording(self)], the command of the record button. *)
Definition _toggle_recording (m : Moment) (countdown_seconds : Z)
    (r : StopResponse) (dir : list FileEntry) (d : Desk) : Result Desk :=
  if is_recording (self (world d)) then
    match _stop_recording r dir (world d) with
    | (w, None) => Ok (mkDesk w (timers d))
    | (_, Some e) => Raise e
    end
  else _start_recording m countdown_seconds d.

(** The toolkit fires the oldest pending timer. *)
Definition fire (m : Moment) (d : Desk) : Result Desk :=
  match timers d with
  | [] => Ok d
  | n :: rest => countdown m n (mkDesk (world d) rest)
  end.

(** One firing per moment of the list, in order. *)
Fixpoint fire_each (ms : list Moment) (d : Desk) : Result Desk :=
  match ms with
  | [] => Ok d
  | m :: ms' => d' ← fire m d; fire_each ms' d'
  end.


(** The assignment [self.output_dir = Path(path)]. *)
Definition set_output_dir (s : ScreenRecorder) (d : Path) : ScreenRecorder :=
  mkRecorder (is_recording s) (is_paused s) (recording_process s)
    (record_start_time s) (current_output_file s) d
    (current_preset s) (format_var s) (quality_var s) (fps_var s)
    (countdown_var s) (timer_label s) (status_label s) (record_btn s)
    (pause_btn s) (stop_btn s) (recordings_scroll s) (status_callback s).

(** [_browse_output(self)]; [path] is what the directory dialog returns and
    [dir] the content of that directory.  The label that mirrors the path is
    left out.  The refresh of the panel may raise, after the directory has
    been assigned. *)
Definition _browse_output (path : string) (dir : list FileEntry)
    (s : ScreenRecorder) : ScreenRecorder * option Exn :=
  if negb (String.eqb path "") then
    _refresh_recordings_list dir (set_output_dir s (parse path))
  else (s, None).






End RecorderUI.

(** ** [modules/encoder.py]: the preset slider and its labels *)

Module EncoderPreset.
Import Encoder.

(** The encoder with the label under the preset slider. *)
Record PresetPanel := mkPresetPanel {
  encoder : MediaEncoder;
  preset_label : string
}.

(** The two lists written in [_on_preset_change]. *)
Definition label_presets : list string :=
  [ "ultrafast"; "superfast"; "veryfast"; "faster"; "fast"; "medium";
    "slow"; "slower"; "veryslow" ].

Definition descriptions : list string :=
  [ "fastest"; "very fast"; "fast"; "faster"; "fast"; "balanced"; "slow";
    "slower"; "best quality" ].

(** The marks [_create_settings_section] draws under the slider, one per
    position. *)
Definition tick_labels : list string :=
  [ "ultrafast"; ""; "fast"; ""; "medium"; ""; "slow"; ""; "veryslow" ].

(** [_on_preset_change(self, value)]; the slider has eight steps from 0 to
    8, so [int(value)] is its position. *)
Definition _on_preset_change (value : nat) (p : PresetPanel) : Result PresetPanel :=
  let idx := value in
  name ← getitem label_presets idx;
  description ← getitem descriptions idx;
  Ok (mkPresetPanel (encoder p)
        ("Current: " +:+ name +:+ " (" +:+ description +:+ ")")).

(** The user moves the slider: the widget keeps the position and runs its
    command. *)
Definition slide (value : nat) (p : PresetPanel) : Result PresetPanel :=
  let s := encoder p in
  _on_preset_change value
    (mkPresetPanel
       (mkEncoder (input_files s) (output_dir s) (is_encoding s)
          (current_process s) (format_tabs s) (format_dropdown s)
          (resolution_dropdown s) (video_bitrate s) (fps_dropdown s)
          (audio_codec s) (audio_bitrate s) (sample_rate s) value
          (progress_bar s) (progress_label s) (start_btn s) (cancel_btn s)
          (status_bar s))
       (preset_label p)).

(** The panel as [_create_settings_section] leaves it: [preset_slider.set(4)]
    runs no command, and the label is created with its text. *)
Definition init_panel : PresetPanel :=
  mkPresetPanel Encoder.init "Current: medium (balanced)".

End EncoderPreset.

(** ** The status bar the modules report to *)

Module StatusBar.

(** The message label (its text, and whether it is drawn in the error
    colour), the handle the bar keeps, and the calls of [clear] the toolkit
    has scheduled for it: [after] gives each a fresh identifier, here with
    the time it is due. *)
Record Bar := mkBar {
  message_label : string * bool;
  _message_timeout : option nat;
  scheduled : list (nat * Z);
  next_id : nat
}.

(** [self.after(ms, self.clear)] called at a time that makes it due at
    [due]. *)
Definition after (due : Z) (b : Bar) : nat * Bar :=
  (next_id b,
   mkBar (message_label b) (_message_timeout b)
     (scheduled b ++ [(next_id b, due)]) (S (next_id b))).

(** [self.after_cancel(id)]; an identifier that is not scheduled any more
    is ignored. *)
Definition after_cancel (id : nat) (b : Bar) : Bar :=
  mkBar (message_label b) (_message_timeout b)
    (List.filter (λ t, negb (Nat.eqb (fst t) id)) (scheduled b)) (next_id b).

(** [set_message(self, message, error, timeout)] called at time [now]. *)
Definition set_message (message : string) (error : bool) (timeout : Z)
    (now : Z) (b : Bar) : Bar :=
  let b := mkBar (message, error) (_message_timeout b) (scheduled b) (next_id b) in
  let b :=
    match _message_timeout b with
    | Some id => after_cancel id b
    | None => b
    end in
  if (0 <? timeout)%Z then
    let '(id, b) := after (now + timeout) b in
    mkBar (message_label b) (Some id) (scheduled b) (next_id b)
  else b.

(** [clear(self)]. *)
Definition clear (b : Bar) : Bar :=
  mkBar ("Ready", false) None (scheduled b) (next_id b).

(** The toolkit runs the scheduled call [id]: it leaves the schedule and
    [clear] runs.  A call that was cancelled or has run does nothing. *)
Definition timer_runs (id : nat) (b : Bar) : Bar :=
  if existsb (λ t, Nat.eqb (fst t) id) (scheduled b)
  then clear (after_cancel id b)
  else b.

(** The bar as the constructor leaves it. *)
Definition init : Bar := mkBar ("Ready", false) None [] 0.

(** What the modules and the toolkit do to the bar when nobody calls
    [clear] directly. *)
Inductive Call :=
| SetMessage (message : string) (error : bool) (timeout : Z) (now : Z)
| TimerRuns (id : nat).

Definition call (c : Call) (b : Bar) : Bar :=
  match c with
  | SetMessage message error timeout now => set_message message error timeout now b
  | TimerRuns id => timer_runs id b
  end.

Definition calls (l : list Call) (b : Bar) : Bar := fold_left (λ b c, call c b) l b.

End StatusBar.

(** ** More concrete inputs *)

Module MoreScenarios.
Import PyMore EncoderFiles.

(** An encoder set to FLAC audio with an output directory chosen. *)
Definition flac_encoder : Encoder.MediaEncoder :=
  browse_output "/media/out"
    (Encoder.mkEncoder [] None false None "Audio" "FLAC"
       "Original" "" "Original" "AAC" "192k" "Original" 4 0%Q
       (Encoder.mkLabel "Ready to encode" "text_dim")
       Encoder.normal Encoder.disabled None).

(** A file system where every file but "gone.mp3" exists and has 2048
    bytes. *)
Definition some_files (f : PurePath.Path) : option Z :=
  if String.eqb (PurePath.name f) "gone.mp3" then None else Some 2048%Z.

(** A panel that lists two files. *)
Definition two_files_panel : Panel :=
  mkPanel
    (set_input_files Encoder.init
       [PurePath.parse "/media/in/a.mov"; PurePath.parse "/media/in/b.MP3"])
    [NoFilesLabel].

(** An output directory with a Matroska and an MP4 recording. *)
Definition mixed_directory : list Recorder.FileEntry :=
  [ Recorder.mkFile "recording_20240101_120000.mkv" (Some 1010%Z) (Some 4096%Z);
    Recorder.mkFile "take.mp4" (Some 1005%Z) (Some 4096%Z) ].

(** An output directory with a recording and a link "lost.mp4" whose
    target is gone. *)
Definition broken_directory : list Recorder.FileEntry :=
  [ Recorder.mkFile "take.mp4" (Some 1005%Z) (Some 4096%Z);
    Recorder.mkFile "lost.mp4" None None ].

(** Two moments at which a process starts, with different clocks and
    process identifiers. *)
Definition first_moment : RecorderUI.Moment :=
  RecorderUI.mkMoment ∅ "20240101_120003" 1003 (λ _, Recorder.Spawned 501).

Definition second_moment : RecorderUI.Moment :=
  RecorderUI.mkMoment ∅ "20240101_120004" 1004 (λ _, Recorder.Spawned 502).

(** A recorder as the constructor builds it, with nothing pending. *)
Definition idle_desk : RecorderUI.Desk :=
  RecorderUI.mkDesk
    (Recorder.mkWorld
       (Scenarios.constructed
          (Recorder.init (PurePath.parse "/home/user/Videos/N01D-Recordings") [] true)
          (PurePath.parse "/home/user/Videos/N01D-Recordings"))
       [] [])
    [].


(** A recorder with the countdown box unticked. *)
Definition prompt_recorder : Recorder.World :=
  Recorder.mkWorld
    (Recorder.mkRecorder false false None None None
       (PurePath.parse "/home/user/Videos/N01D-Recordings")
       "screen_audio" "mkv" "Medium" "30" false "00:00:00" "Ready to Record"
       ("#ff3366", "⏺") (Recorder.disabled, "⏸") Recorder.disabled
       [Recorder.NoRecordingsYet] true)
    [] [].

(** The panel after the slider was moved to its sixth position. *)
Definition slid_panel : EncoderPreset.PresetPanel :=
  match EncoderPreset.slide 5 EncoderPreset.init_panel with
  | Ok p => p
  | Raise _ => EncoderPreset.init_panel
  end.

(** The status bar after an encode reported its end and progress was
    shown without a timeout. *)
Definition bar_history : list StatusBar.Call :=
  [ StatusBar.SetMessage "Convert media formats" false 5000 0;
    StatusBar.SetMessage "Encoding complete!" false 5000 1200;
    StatusBar.TimerRuns 0;
    StatusBar.SetMessage "Progress: 40%" false 0 2000 ].

End MoreScenarios.

(** ** Further predicates *)

Module MoreProps.


(** The signals of [n] presses of the pause button, the first press made
    with the recorder paused or not. *)
Fixpoint pause_signals (paused : bool) (n : nat) : list Recorder.Signal :=
  match n with
  | O => []
  | S n' =>
      (if paused then Recorder.SIGCONT else Recorder.SIGSTOP) ::
      pause_signals (negb paused) n'
  end.

(** The row the recordings panel draws for one file of the directory
    [out]: complete when [stat()] gave its size. *)
Definition row_of (out : PurePath.Path) (f : Recorder.FileEntry) : Recorder.Row :=
  match Recorder.st_size f with
  | Some size =>
      Recorder.RecordingRow (Recorder.fname f) size
        (PurePath.joinpath out (Recorder.fname f))
  | None => Recorder.UnfinishedRow (Recorder.fname f)
  end.

(** Newest first, for files whose modification time was read. *)
Definition newer_first (a b : Recorder.FileEntry) : Prop :=
  match Recorder.st_mtime a, Recorder.st_mtime b with
  | Some ta, Some tb => (tb ≤ ta)%Z
  | _, _ => False
  end.


(** The recorder while the countdown shows [n], and when the countdown has
    run out and the capture is about to begin. *)
Definition counting (w : Recorder.World) (n : nat) : Recorder.World :=
  Recorder.with_self w
    (RecorderUI.set_labels (Recorder.self w) (str_int (Z.of_nat n)) "Starting...").

Definition about_to_begin (w : Recorder.World) (status : string) : Recorder.World :=
  Recorder.with_self w (RecorderUI.set_labels (Recorder.self w) "00:00:00" status).

(** The system call [c] addresses the process [pid]. *)
Definition acts_on (pid : nat) (c : Recorder.Syscall) : bool :=
  match c with
  | Recorder.SysPopen p _ | Recorder.SysSendSignal p _
  | Recorder.SysStdinWrite p _ | Recorder.SysStdinFlush p
  | Recorder.SysWait p _ | Recorder.SysTerminate p => Nat.eqb p pid
  | Recorder.SysPopenFailed _ => false
  end.



(** The schedule of the status bar holds at most the call the bar has the
    handle of. *)
Definition tidy (b : StatusBar.Bar) : Prop :=
  match StatusBar.scheduled b with
  | [] => True
  | [(id, _)] => StatusBar._message_timeout b = Some id
  | _ => False
  end.

(** The menus of the recorder show values they offer. *)
Definition menus_valid (s : Recorder.ScreenRecorder) : Prop :=
  Recorder.quality_var s ∈ ["Low (Fast)"; "Medium"; "High"; "Lossless"] ∧
  Recorder.fps_var s ∈ ["15"; "24"; "30"; "60"].

(** The character [c] occurs in [s]. *)
Fixpoint has_char (c : ascii) (s : string) : bool :=
  match s with
  | EmptyString => false
  | String d s' => Ascii.eqb d c || has_char c s'
  end.

(** A path component as [Path(...)] keeps it: not empty, not ".", without a
    separator. *)
Definition component (x : string) : Prop :=
  x ≠ "" ∧ x ≠ "." ∧ has_char "/" x = false.

(** A path as [Path(...)] builds it. *)
Definition parsed (p : PurePath.Path) : Prop :=
  PurePath.root p ∈ [""; "/"; "//"] ∧ Forall component (PurePath.tail p).

(** The output directory is unset or was built by [Path(...)]. *)
Definition parsed_directory (d : option PurePath.Path) : Prop :=
  match d with
  | Some p => parsed p
  | None => True
  end.

End MoreProps.

(** ** Tactics *)

Module ProofTools.

(** Case analysis on a membership in a list written out. *)
Ltac enum H :=
  repeat (apply elem_of_cons in H as [-> | H]);
  try (apply elem_of_nil in H; contradiction).

(** A membership in a list written out. *)
Ltac listed := repeat first [apply list_elem_of_here | apply list_elem_of_further].

(** Evaluate the membership tests on a preset that is known. *)
Ltac eval_members :=
  repeat match goal with
         | |- context [Recorder.member ?a ?l] =>
             let b := eval vm_compute in (Recorder.member a l) in
             change (Recorder.member a l) with b
         end;
  cbn [negb app].


(** Case analysis on every conditional of the goal. *)
Ltac split_ifs :=
  repeat match goal with
         | |- context [if ?b then _ else _] => destruct b
         end.

End ProofTools.

(** * The command builder of the encoder *)

Module EncoderBuilder.
Import PurePath Encoder Props Scenarios ProofTools.

Lemma bind_ok {A B} (r : Result A) (f : A → Result B) (b : B) :
  r ≫= f = Ok b → ∃ a, r = Ok a ∧ f a = Ok b.
Proof. destruct r as [a | e]; [exists a; auto | discriminate]. Qed.

Lemma has_flag_app (flag : string) (l1 l2 : list string) :
  has_flag flag (l1 ++ l2) = has_flag flag l1 || has_flag flag l2.
Proof. apply existsb_app. Qed.

Lemma has_option_here (flag value : string) (l1 l2 : list string) :
  has_option flag value (l1 ++ flag :: value :: l2) = true.
Proof.
  induction l1 as [| a l1 IH]; simpl.
  - by rewrite !String.eqb_refl.
  - destruct l1; simpl in *; rewrite IH; apply orb_true_r.
Qed.

(** The video branch, statement after statement, appends one group of
    arguments per setting. *)
Lemma video_args_groups (s : MediaEncoder) (fmt : string) (cmd : list string) :
  video_args s fmt cmd =
    res ← resolution_args (resolution_dropdown s);
    p ← getitem presets (preset_slider s);
    Ok (cmd ++ res ++ video_codec_args fmt ++ ["-preset"; p] ++
        video_bitrate_args (video_bitrate s) ++
        frame_rate_args (fps_dropdown s) ++
        audio_codec_args (audio_codec s) ++ ["-b:a"; audio_bitrate s]).
Proof.
  unfold video_args, resolution_args, video_codec_args, video_bitrate_args,
    frame_rate_args, audio_codec_args.
  destruct (negb _ && negb _); simpl.
  - destruct (getitem (split_ws _) 0) as [v |]; simpl; [| reflexivity].
    destruct (getitem presets _); simpl; [| reflexivity].
    split_ifs; simpl; by rewrite <- ?app_assoc.
  - destruct (getitem presets _); simpl; [| reflexivity].
    split_ifs; simpl; by rewrite <- ?app_assoc, ?app_nil_r.
Qed.

Lemma video_args_extends (s : MediaEncoder) (fmt : string) (cmd out : list string) :
  video_args s fmt cmd = Ok out → ∃ rest, out = cmd ++ rest.
Proof.
  rewrite video_args_groups. intros H.
  apply bind_ok in H as (r & _ & H). apply bind_ok in H as (p & _ & H).
  injection H as <-. eauto.
Qed.

Lemma audio_args_extends (s : MediaEncoder) (fmt : string) (cmd : list string) :
  ∃ rest, audio_args s fmt cmd = cmd ++ rest.
Proof.
  unfold audio_args.
  split_ifs;
    rewrite <- ?app_assoc; eauto.
Qed.

(** Whatever the settings, a command that is built starts with the tool, the
    input and the overwrite flag. *)
Lemma build_prefix (s : MediaEncoder) (f : Path) (cat fmt : string)
    (cmd : list string) :
  _build_ffmpeg_command s f cat fmt = Ok cmd →
  ∃ rest, cmd = "ffmpeg" :: "-i" :: str f :: "-y" :: rest.
Proof.
  unfold _build_ffmpeg_command.
  generalize (default ".mp4" (ext_map !! fmt)). intros ext.
  match goal with
  | |- context [Ok (_ ++ [?o])] => generalize o
  end.
  intros out H.
  apply bind_ok in H as (c & Hc & H). injection H as <-.
  assert (∃ rest, c = ["ffmpeg"; "-i"; str f; "-y"] ++ rest) as [rest ->].
  { destruct (String.eqb cat "Video").
    - by apply video_args_extends in Hc.
    - destruct (String.eqb cat "Audio").
      + destruct (audio_args_extends s fmt ["ffmpeg"; "-i"; str f; "-y"]) as [rest Hr].
        rewrite Hr in Hc. injection Hc as <-. eauto.
      + injection Hc as <-. exists []. reflexivity. }
  exists (rest ++ [out]). reflexivity.
Qed.

(** The builder reads the encoder object only through its settings. *)
Lemma build_reads_settings (s1 s2 : MediaEncoder) (f : Path) (cat fmt : string) :
  same_encoder_settings s1 s2 →
  _build_ffmpeg_command s1 f cat fmt = _build_ffmpeg_command s2 f cat fmt.
Proof.
  intros (Ho & Hr & Hp & Hv & Hf & Hc & Hb & Hs).
  unfold _build_ffmpeg_command, video_args, audio_args.
  by rewrite Ho, Hr, Hp, Hv, Hf, Hc, Hb, Hs.
Qed.

(** None of the values a drop-down offers puts a video bitrate flag in its
    group of arguments. *)
Lemma resolution_values_args (res : string) :
  res ∈ resolution_values →
  ∃ r, resolution_args res = Ok r ∧ has_flag "-b:v" r = false.
Proof.
  unfold resolution_values. intros H.
  enum H; eexists; (split; [vm_compute; reflexivity | reflexivity]).
Qed.

Lemma fps_values_args (fps : string) :
  fps ∈ fps_values → has_flag "-b:v" (frame_rate_args fps) = false.
Proof. unfold fps_values. intros H. enum H; reflexivity. Qed.

Lemma audio_codec_values_args (acodec : string) :
  acodec ∈ audio_codec_values → has_flag "-b:v" (audio_codec_args acodec) = false.
Proof. unfold audio_codec_values. intros H. enum H; reflexivity. Qed.

Lemma audio_bitrate_values_args (abr : string) :
  abr ∈ audio_bitrate_values → has_flag "-b:v" ["-b:a"; abr] = false.
Proof. unfold audio_bitrate_values. intros H. enum H; reflexivity. Qed.

(** C1. For the input "clip.mov", category video, the H.264 MP4 format, the
    preset "medium" (position 5 of the slider), no video bitrate and no
    output directory, whatever the other drop-downs show, the builder
    returns an argument list that (a) starts with the tool and the input
    "clip.mov", (b) selects the codec libx264, (c) selects the preset
    "medium", (d) holds no video bitrate flag "-b:v", and (e) ends with the
    output path "clip_converted.mp4", beside the input. *)
Theorem clip_mov_command (s : MediaEncoder) :
  output_dir s = None →
  preset_slider s = 5 →
  video_bitrate s = "" →
  resolution_dropdown s ∈ resolution_values →
  fps_dropdown s ∈ fps_values →
  audio_codec s ∈ audio_codec_values →
  audio_bitrate s ∈ audio_bitrate_values →
  ∃ cmd,
    _build_ffmpeg_command s (parse "clip.mov") "Video" "MP4 (H.264)" = Ok cmd ∧
    (∃ rest, cmd = "ffmpeg" :: "-i" :: "clip.mov" :: rest) ∧
    has_option "-c:v" "libx264" cmd = true ∧
    has_option "-preset" "medium" cmd = true ∧
    has_flag "-b:v" cmd = false ∧
    last cmd = Some "clip_converted.mp4".
Proof.
  intros Hout Hslider Hvbr Hres Hfps Hac Hab.
  apply resolution_values_args in Hres as (r & Hr & Hrb).
  apply fps_values_args in Hfps. apply audio_codec_values_args in Hac.
  apply audio_bitrate_values_args in Hab.
  unfold _build_ffmpeg_command.
  rewrite Hout, video_args_groups, Hr, Hslider, Hvbr.
  change (ext_map !! "MP4 (H.264)") with (Some ".mp4").
  change (getitem presets 5) with (Ok (A:=string) "medium").
  change (video_codec_args "MP4 (H.264)") with ["-c:v"; "libx264"].
  change (str (parse "clip.mov")) with "clip.mov".
  change (str (joinpath _ _)) with "clip_converted.mp4".
  change (video_bitrate_args "") with (@nil string).
  change (String.eqb "Video" "Video") with true.
  cbn [mbind Result_bind app].
  set (F := frame_rate_args _) in *. set (A := audio_codec_args _) in *.
  set (B := ["-b:a"; audio_bitrate s]) in *.
  exists (["ffmpeg"; "-i"; "clip.mov"; "-y"] ++ r ++ ["-c:v"; "libx264"] ++
          ["-preset"; "medium"] ++ F ++ A ++ B ++ ["clip_converted.mp4"]).
  split; [f_equal; cbn [app]; repeat (rewrite <- app_assoc; cbn [app]); reflexivity |].
  split; [simpl; eauto |]. split; [| split; [| split]].
  - rewrite app_assoc. apply has_option_here.
  - rewrite 2!app_assoc. apply has_option_here.
  - rewrite !has_flag_app, Hrb, Hfps, Hac, Hab. reflexivity.
  - rewrite !app_assoc. apply last_snoc.
Qed.

Lemma clip_mov_command_witness :
  ∃ cmd,
    _build_ffmpeg_command clip_encoder (parse "clip.mov") "Video" "MP4 (H.264)" = Ok cmd ∧
    (∃ rest, cmd = "ffmpeg" :: "-i" :: "clip.mov" :: rest) ∧
    has_option "-c:v" "libx264" cmd = true ∧
    has_option "-preset" "medium" cmd = true ∧
    has_flag "-b:v" cmd = false ∧
    last cmd = Some "clip_converted.mp4".
Proof.
  apply (clip_mov_command clip_encoder); try reflexivity; simpl; listed.
Defined.

End EncoderBuilder.

(** * The command builder of the recorder *)

Module RecorderBuilder.
Import PurePath Recorder Props Scenarios ProofTools.

(** The capture command starts with the tool and the overwrite flag. *)
Lemma capture_prefix (environ : gmap string string) (s : ScreenRecorder)
    (q : Quality) (fps : Z) :
  ∃ rest, _build_ffmpeg_command environ s q fps = "ffmpeg" :: "-y" :: rest.
Proof.
  unfold _build_ffmpeg_command.
  split_ifs;
    cbn [app]; eauto.
Qed.

(** The builder reads the recorder through its preset and its output file,
    and the environment through DISPLAY. *)
Lemma capture_reads_settings (env1 env2 : gmap string string)
    (s1 s2 : ScreenRecorder) (q : Quality) (fps : Z) :
  same_recorder_settings s1 s2 →
  env1 !! "DISPLAY" = env2 !! "DISPLAY" →
  _build_ffmpeg_command env1 s1 q fps = _build_ffmpeg_command env2 s2 q fps.
Proof.
  intros [Hp Ho] Hd. unfold _build_ffmpeg_command. by rewrite Hp, Ho, Hd.
Qed.

(** C10. With the same quality, frame rate, output file and environment,
    the command built for "screen_audio" is the command built for
    "screen_mic", element for element: after the screen input both hold one
    audio input "-f pulse -i default"; the command built for "screen_all"
    holds that audio input twice. *)
Theorem screen_audio_is_screen_mic (environ : gmap string string)
    (s : ScreenRecorder) (q : Quality) (fps : Z) :
  let pulse := ["-f"; "pulse"; "-i"; "default"] in
  let screen := ["ffmpeg"; "-y"; "-f"; "x11grab"; "-framerate"; str_int fps;
                 "-i"; default ":0" (environ !! "DISPLAY")] in
  let output := ["-c:v"; "libx264"; "-preset"; preset q; "-crf"; str_int (crf q);
                 "-pix_fmt"; "yuv420p"; "-c:a"; "aac"; "-b:a"; "128k";
                 match current_output_file s with
                 | Some f => str f
                 | None => "None"
                 end] in
  _build_ffmpeg_command environ (_select_preset s "screen_audio") q fps =
    _build_ffmpeg_command environ (_select_preset s "screen_mic") q fps ∧
  _build_ffmpeg_command environ (_select_preset s "screen_audio") q fps =
    screen ++ pulse ++ output ∧
  _build_ffmpeg_command environ (_select_preset s "screen_all") q fps =
    screen ++ pulse ++ pulse ++ output.
Proof.
  unfold _build_ffmpeg_command.
  cbn [current_preset current_output_file _select_preset].
  eval_members. auto.
Qed.

End RecorderBuilder.

(** * Properties shared by the two builders *)

Module Builders.
Import PurePath Props Scenarios ProofTools.

(** C4, as stated, fails: an encoder and a recorder left at the settings
    their constructors give them, where nothing asks for an overwrite, both
    get the overwrite flag "-y" in their command. *)
Lemma overwrite_flag_without_request :
  (∃ cmd,
     Encoder._build_ffmpeg_command Encoder.init (parse "clip.mov")
       "Video" "MP4 (H.264)" = Ok cmd ∧
     has_flag "-y" cmd = true) ∧
  has_flag "-y"
    (Recorder._build_ffmpeg_command ∅ default_recorder default_quality 30) = true.
Proof. split; [eexists; split |]; vm_compute; reflexivity. Qed.

(** C4, amended. Every command the encoder builds has the overwrite flag
    "-y" as its fourth argument, right after the input, and every command
    the recorder builds has it as its second argument, whatever the
    settings: no setting is read to decide it. *)
Theorem overwrite_flag_always_passed :
  (∀ (s : Encoder.MediaEncoder) (f : Path) (cat fmt : string) (cmd : list string),
     Encoder._build_ffmpeg_command s f cat fmt = Ok cmd →
     cmd !! 3 = Some "-y" ∧ has_flag "-y" cmd = true) ∧
  (∀ (environ : gmap string string) (r : Recorder.ScreenRecorder)
     (q : Recorder.Quality) (fps : Z),
     Recorder._build_ffmpeg_command environ r q fps !! 1 = Some "-y" ∧
     has_flag "-y" (Recorder._build_ffmpeg_command environ r q fps) = true).
Proof.
  split.
  - intros s f cat fmt cmd H.
    apply EncoderBuilder.build_prefix in H as [rest ->].
    split; [reflexivity |].
    unfold has_flag. cbn [existsb]. rewrite String.eqb_refl.
    by rewrite !orb_true_r.
  - intros environ r q fps.
    destruct (RecorderBuilder.capture_prefix environ r q fps) as [rest ->].
    split; [reflexivity |].
    unfold has_flag. cbn [existsb]. rewrite String.eqb_refl.
    by rewrite !orb_true_r.
Qed.

Lemma overwrite_flag_always_passed_witness :
  [ "ffmpeg"; "-i"; "clip.mov"; "-y"; "-c:v"; "libx264"; "-preset"; "fast";
    "-c:a"; "aac"; "-b:a"; "192k"; "clip_converted.mp4" ] !! 3 = Some "-y" ∧
  has_flag "-y"
    [ "ffmpeg"; "-i"; "clip.mov"; "-y"; "-c:v"; "libx264"; "-preset"; "fast";
      "-c:a"; "aac"; "-b:a"; "192k"; "clip_converted.mp4" ] = true.
Proof.
  apply (proj1 overwrite_flag_always_passed Encoder.init (parse "clip.mov")
           "Video" "MP4 (H.264)").
  vm_compute. reflexivity.
Defined.

(** C9, as stated, fails for the recorder: two runs with the same recorder
    object, quality and frame rate give different argument lists when the
    environment variable DISPLAY differs between them. *)
Lemma capture_command_depends_on_display :
  Recorder._build_ffmpeg_command {[ "DISPLAY" := ":0" ]} default_recorder
    default_quality 30 ≠
  Recorder._build_ffmpeg_command {[ "DISPLAY" := ":1" ]} default_recorder
    default_quality 30.
Proof. vm_compute. discriminate. Qed.

(** C9, amended. The encoder's builder gives the same argument list for the
    same input, category and format on any two encoder objects that agree
    on the eight settings it reads: output directory, resolution, preset,
    video bitrate, frame rate, audio codec, audio bitrate and sample rate,
    whatever their other fields hold.  The audio codec, which the claim
    does not list, is one of them: two encoders that differ in it alone are
    given different commands.  The recorder's builder
    gives the same argument list for the same quality and frame rate on any
    two recorder objects that agree on capture preset and output file,
    provided the environment variable DISPLAY is the same in both runs. *)
Theorem builders_read_only_settings :
  (∀ (s1 s2 : Encoder.MediaEncoder) (f : Path) (cat fmt : string),
     same_encoder_settings s1 s2 →
     Encoder._build_ffmpeg_command s1 f cat fmt =
     Encoder._build_ffmpeg_command s2 f cat fmt) ∧
  (∀ (env1 env2 : gmap string string) (r1 r2 : Recorder.ScreenRecorder)
     (q : Recorder.Quality) (fps : Z),
     same_recorder_settings r1 r2 →
     env1 !! "DISPLAY" = env2 !! "DISPLAY" →
     Recorder._build_ffmpeg_command env1 r1 q fps =
     Recorder._build_ffmpeg_command env2 r2 q fps) ∧
  (Encoder.output_dir clip_encoder = Encoder.output_dir mp3_clip_encoder ∧
   Encoder.resolution_dropdown clip_encoder =
     Encoder.resolution_dropdown mp3_clip_encoder ∧
   Encoder.preset_slider clip_encoder = Encoder.preset_slider mp3_clip_encoder ∧
   Encoder.video_bitrate clip_encoder = Encoder.video_bitrate mp3_clip_encoder ∧
   Encoder.fps_dropdown clip_encoder = Encoder.fps_dropdown mp3_clip_encoder ∧
   Encoder.audio_bitrate clip_encoder = Encoder.audio_bitrate mp3_clip_encoder ∧
   Encoder.sample_rate clip_encoder = Encoder.sample_rate mp3_clip_encoder ∧
   Encoder._build_ffmpeg_command clip_encoder (parse "clip.mov")
     "Video" "MP4 (H.264)" ≠
   Encoder._build_ffmpeg_command mp3_clip_encoder (parse "clip.mov")
     "Video" "MP4 (H.264)").
Proof.
  split; [| split].
  - apply EncoderBuilder.build_reads_settings.
  - apply RecorderBuilder.capture_reads_settings.
  - do 7 (split; [reflexivity |]). intros H. vm_compute in H. discriminate H.
Qed.

Lemma builders_read_only_settings_witness :
  Encoder._build_ffmpeg_command clip_encoder (parse "clip.mov")
    "Video" "MP4 (H.264)" =
  Encoder._build_ffmpeg_command busy_encoder (parse "clip.mov")
    "Video" "MP4 (H.264)" ∧
  Recorder._build_ffmpeg_command {[ "DISPLAY" := ":0"; "HOME" := "/root" ]}
    default_recorder default_quality 30 =
  Recorder._build_ffmpeg_command {[ "DISPLAY" := ":0" ]}
    (fst (Recorder._refresh_recordings_list
            [Recorder.mkFile "old.mp4" (Some 10%Z) (Some 2048%Z)] default_recorder))
    default_quality 30.
Proof.
  split.
  - apply (proj1 builders_read_only_settings).
    repeat split.
  - apply (proj1 (proj2 builders_read_only_settings)).
    + repeat split.
    + vm_compute. reflexivity.
Defined.

End Builders.

(** * The batch worker of the encoder *)

Module Batch.
Import PurePath Encoder Props Scenarios ProofTools.





(** C3, on the code. A diagnostic line, with the timestamp marker or
    without it, makes the monitor schedule nothing; the line of a running
    job that reports five seconds elapsed carries the marker and still
    yields no progress value.  Reading a whole stream never adds a
    callback to the queue: the progress display moves only between files. *)
Theorem timestamp_lines_update_nothing :
  contains "time=" progress_line = true ∧
  (∀ line : string, parse_progress line = []) ∧
  (∀ (sched : Schedule) (pid : nat) (lines : list string) (w : World),
     ∃ k, queue (fst (monitor sched pid lines w)) = drop k (queue w)).
Proof.
  split; [reflexivity |]. split.
  - intros line. unfold parse_progress. by destruct (contains _ _).
  - intros sched pid lines. induction lines as [| line rest IH]; intros w.
    + exists 0. reflexivity.
    + cbn [monitor]. unfold read_is_encoding at 1.
      cbn [self queue trace clock mainloop].
      set (w1 := mkWorld _ _ _ _).
      destruct (is_encoding _); cbn [negb].
      * assert (parse_progress line = []) as -> by
          (unfold parse_progress; by destruct (contains _ _)).
        cbn [foldl]. destruct (IH w1) as [k Hk]. rewrite Hk.
        exists (sched (clock w) + k). subst w1. cbn [queue]. by rewrite drop_drop.
      * exists (sched (clock w)). reflexivity.
Qed.








(** The same batch with an interface thread that runs nothing while the
    worker is busy: the flag is still set when the worker reads it, and the
    third file is started and waited for. *)
Lemma third_job_runs_if_error_is_handled_late :
  ∃ w,
    _encode_files second_raises idle "Video" "MP4 (H.264)" batch_world = Ok w ∧
    SysPopen 102 ["ffmpeg"; "-i"; "c.mov"; "-y"; "-c:v"; "libx264";
                  "-preset"; "medium"; "-c:a"; "aac"; "-b:a"; "192k";
                  "c_converted.mp4"] ∈ trace w ∧
    SysWait 102 0 ∈ trace w.
Proof.
  eexists. split; [vm_compute; reflexivity |]. split; listed.
Qed.



End Batch.

(** * Cancel, stop, pause and the list of recordings *)

Module Control.
Import PurePath Props Scenarios ProofTools.

(** Refreshing the list touches the list alone, whether it raises or
    not. *)
Lemma refresh_self (dir : list Recorder.FileEntry) (s : Recorder.ScreenRecorder) :
  fst (Recorder._refresh_recordings_list dir s) =
  Recorder.set_recordings_scroll s
    (fst (Recorder.recordings_panel (Recorder.output_dir s) dir)).
Proof.
  unfold Recorder._refresh_recordings_list.
  by destruct (Recorder.recordings_panel _ _).
Qed.

Lemma refresh_raised (dir : list Recorder.FileEntry) (s : Recorder.ScreenRecorder) :
  snd (Recorder._refresh_recordings_list dir s) =
  snd (Recorder.recordings_panel (Recorder.output_dir s) dir).
Proof.
  unfold Recorder._refresh_recordings_list.
  by destruct (Recorder.recordings_panel _ _).
Qed.

Lemma refresh_keeps (dir : list Recorder.FileEntry) (s : Recorder.ScreenRecorder) :
  Recorder.recording_process (fst (Recorder._refresh_recordings_list dir s)) =
    Recorder.recording_process s ∧
  Recorder.current_output_file (fst (Recorder._refresh_recordings_list dir s)) =
    Recorder.current_output_file s ∧
  Recorder.status_callback (fst (Recorder._refresh_recordings_list dir s)) =
    Recorder.status_callback s.
Proof. rewrite refresh_self. repeat split. Qed.

Lemma refresh_stop_fields_twice (dir : list Recorder.FileEntry)
    (s : Recorder.ScreenRecorder) :
  Recorder._refresh_recordings_list dir
    (Recorder.stop_fields
       (fst (Recorder._refresh_recordings_list dir (Recorder.stop_fields s)))) =
  Recorder._refresh_recordings_list dir (Recorder.stop_fields s).
Proof.
  rewrite refresh_self. unfold Recorder._refresh_recordings_list.
  cbn [Recorder.stop_fields Recorder.set_recordings_scroll Recorder.output_dir].
  by destruct (Recorder.recordings_panel _ _).
Qed.

(** The three results of a stop, one at a time. *)
Lemma stop_self (r : Recorder.StopResponse) (dir : list Recorder.FileEntry)
    (w : Recorder.World) :
  Recorder.self (fst (Recorder._stop_recording r dir w)) =
  fst (Recorder._refresh_recordings_list dir (Recorder.stop_fields (Recorder.self w))).
Proof.
  unfold Recorder._stop_recording.
  destruct (Recorder._refresh_recordings_list _ _) as [s [e |]]; [reflexivity |].
  destruct (Recorder.status_callback _); [| reflexivity].
  destruct (Recorder.current_output_file _); reflexivity.
Qed.

Lemma stop_trace (r : Recorder.StopResponse) (dir : list Recorder.FileEntry)
    (w : Recorder.World) :
  Recorder.trace (fst (Recorder._stop_recording r dir w)) =
  match Recorder.recording_process (Recorder.self w) with
  | Some pid => Recorder.trace (Recorder.graceful_stop r pid w)
  | None => Recorder.trace w
  end.
Proof.
  unfold Recorder._stop_recording.
  destruct (Recorder._refresh_recordings_list _ _) as [s [e |]];
    destruct (Recorder.recording_process _); try reflexivity;
    (destruct (Recorder.status_callback _); [| reflexivity]);
    destruct (Recorder.current_output_file _); reflexivity.
Qed.

(** What a stop raises: the exception of the refresh, or else the one of
    the message for the status callback. *)
Lemma stop_raised (r : Recorder.StopResponse) (dir : list Recorder.FileEntry)
    (w : Recorder.World) :
  snd (Recorder._stop_recording r dir w) =
  match snd (Recorder.recordings_panel (Recorder.output_dir (Recorder.self w)) dir) with
  | Some e => Some e
  | None =>
      if Recorder.status_callback (Recorder.self w) then
        match Recorder.current_output_file (Recorder.self w) with
        | Some _ => None
        | None => Some (AttributeError "'NoneType' object has no attribute 'name'")
        end
      else None
  end.
Proof.
  unfold Recorder._stop_recording.
  pose proof (refresh_self dir (Recorder.stop_fields (Recorder.self w))) as Hs.
  pose proof (refresh_raised dir (Recorder.stop_fields (Recorder.self w))) as He.
  destruct (Recorder._refresh_recordings_list _ _) as [s e].
  cbn [fst snd] in Hs, He. subst s e.
  cbn [Recorder.stop_fields Recorder.output_dir].
  destruct (snd (Recorder.recordings_panel _ _)); [reflexivity |].
  cbn [Recorder.set_recordings_scroll Recorder.status_callback
       Recorder.current_output_file].
  destruct (Recorder.status_callback _); [| reflexivity].
  destruct (Recorder.current_output_file _); reflexivity.
Qed.

(** The messages of a stop: "Saved:" is sent when the refresh has
    returned. *)
Lemma stop_log (r : Recorder.StopResponse) (dir : list Recorder.FileEntry)
    (w : Recorder.World) (f : Path) :
  Recorder.current_output_file (Recorder.self w) = Some f →
  Recorder.status_log (fst (Recorder._stop_recording r dir w)) =
  Recorder.status_log w ++
  match snd (Recorder.recordings_panel (Recorder.output_dir (Recorder.self w)) dir) with
  | Some _ => []
  | None =>
      if Recorder.status_callback (Recorder.self w) then ["Saved: " +:+ name f]
      else []
  end.
Proof.
  intros Hf. unfold Recorder._stop_recording.
  pose proof (refresh_self dir (Recorder.stop_fields (Recorder.self w))) as Hs.
  pose proof (refresh_raised dir (Recorder.stop_fields (Recorder.self w))) as He.
  destruct (Recorder._refresh_recordings_list _ _) as [s e].
  cbn [fst snd] in Hs, He. subst s e.
  cbn [Recorder.stop_fields Recorder.output_dir].
  destruct (snd (Recorder.recordings_panel _ _)).
  - cbn [fst Recorder.status_log Recorder.with_self]. rewrite app_nil_r.
    destruct (Recorder.recording_process _); [destruct r |]; reflexivity.
  - cbn [Recorder.stop_fields Recorder.set_recordings_scroll
         Recorder.status_callback Recorder.current_output_file]. rewrite Hf.
    destruct (Recorder.status_callback _);
      cbn [fst Recorder.status_log Recorder.with_self Recorder.self Recorder.trace];
      rewrite ?app_nil_r;
      (destruct (Recorder.recording_process _); [destruct r |]; reflexivity).
Qed.

(** The keys are the modification times of the entries, in their order. *)
Lemma keys_ok (out : Path) (l : list Recorder.FileEntry)
    (ks : list (Z * Recorder.FileEntry)) :
  Recorder.keys out l = Ok ks →
  List.map snd ks = l ∧
  Forall (λ p, Recorder.st_mtime (snd p) = Some (fst p)) ks.
Proof.
  revert ks. induction l as [| f l IH]; intros ks H; cbn [Recorder.keys] in H.
  - injection H as <-. by split.
  - destruct (Recorder.st_mtime f) as [t |] eqn:Ht; [| discriminate H].
    destruct (Recorder.keys out l) as [ks' |]; [| discriminate H].
    cbn [mbind Result_bind] in H. injection H as <-.
    destruct (IH ks' eq_refl) as [Hm Hk]. split.
    + cbn [List.map snd]. by rewrite Hm.
    + by constructor.
Qed.

Lemma keys_total (out : Path) (l : list Recorder.FileEntry) :
  Forall (λ f, is_Some (Recorder.st_mtime f)) l →
  ∃ ks, Recorder.keys out l = Ok ks.
Proof.
  induction 1 as [| f l [t Ht] _ [ks IH]]; cbn [Recorder.keys]; [by eexists |].
  rewrite Ht, IH. by eexists.
Qed.

Lemma keys_raise (out : Path) (l : list Recorder.FileEntry) :
  ¬ Forall (λ f, is_Some (Recorder.st_mtime f)) l →
  ∃ msg, Recorder.keys out l = Raise (OSError msg).
Proof.
  induction l as [| f l IH]; intros H; [by destruct H |].
  cbn [Recorder.keys]. destruct (Recorder.st_mtime f) as [t |] eqn:Ht; [| by eexists].
  destruct IH as [msg ->]; [| by eexists].
  intros Hl. apply H. constructor; [by rewrite Ht | exact Hl].
Qed.

(** The loop draws one row per file until a [stat()] fails. *)
Lemma draw_rows_total (out : Path) (l : list Recorder.FileEntry) :
  Forall (λ f, is_Some (Recorder.st_size f)) l →
  snd (Recorder.draw_rows out l) = None ∧
  length (fst (Recorder.draw_rows out l)) = length l.
Proof.
  induction 1 as [| f l [n Hn] _ [IHe IHl]]; cbn [Recorder.draw_rows]; [by split |].
  rewrite Hn. destruct (Recorder.draw_rows out l) as [rows e].
  cbn [fst snd length] in *. by rewrite IHl.
Qed.

Lemma draw_rows_raised (out : Path) (l : list Recorder.FileEntry) :
  snd (Recorder.draw_rows out l) = None ∨
  ∃ msg, snd (Recorder.draw_rows out l) = Some (OSError msg).
Proof.
  induction l as [| f l IH]; cbn [Recorder.draw_rows]; [by left |].
  destruct (Recorder.st_size f); [| right; by eexists].
  by destruct (Recorder.draw_rows out l).
Qed.

Lemma draw_rows_elem (out : Path) (l : list Recorder.FileEntry) (row : Recorder.Row) :
  row ∈ fst (Recorder.draw_rows out l) →
  ∃ f, f ∈ l ∧
       (row = Recorder.UnfinishedRow (Recorder.fname f) ∨
        ∃ size, Recorder.st_size f = Some size ∧
                row = Recorder.RecordingRow (Recorder.fname f) size
                        (joinpath out (Recorder.fname f))).
Proof.
  induction l as [| f l IH]; cbn [Recorder.draw_rows]; [by intros ?%elem_of_nil |].
  destruct (Recorder.st_size f) as [size |] eqn:Hsize.
  - destruct (Recorder.draw_rows out l) as [rows e]. cbn [fst] in *.
    intros [-> | Hrow]%elem_of_cons.
    + exists f. split; [listed | right; by exists size].
    + destruct (IH Hrow) as (g & Hg & Hcase). exists g.
      split; [by apply list_elem_of_further | exact Hcase].
  - cbn [fst]. intros ->%list_elem_of_singleton.
    exists f. split; [listed | by left].
Qed.

Lemma draw_rows_length (out : Path) (l : list Recorder.FileEntry) :
  (length (fst (Recorder.draw_rows out l)) ≤ length l)%nat.
Proof.
  induction l as [| f l IH]; cbn [Recorder.draw_rows]; [done |].
  destruct (Recorder.st_size f); [| cbn; lia].
  destruct (Recorder.draw_rows out l). cbn [fst length] in *. lia.
Qed.

(** Sorting by modification time keeps the entries. *)
Lemma insert_by_mtime_elem (x y : Z * Recorder.FileEntry)
    (l : list (Z * Recorder.FileEntry)) :
  x ∈ Recorder.insert_by_mtime y l ↔ x = y ∨ x ∈ l.
Proof.
  induction l as [| z l IH]; cbn [Recorder.insert_by_mtime].
  - rewrite list_elem_of_singleton. rewrite elem_of_nil. tauto.
  - destruct (_ <=? _)%Z.
    + by rewrite elem_of_cons.
    + rewrite !elem_of_cons, IH. tauto.
Qed.

Lemma sorted_by_mtime_elem (x : Z * Recorder.FileEntry)
    (l : list (Z * Recorder.FileEntry)) :
  x ∈ Recorder.sorted_by_mtime l ↔ x ∈ l.
Proof.
  unfold Recorder.sorted_by_mtime. induction l as [| y l IH]; cbn [foldr].
  - reflexivity.
  - rewrite insert_by_mtime_elem, elem_of_cons, IH. reflexivity.
Qed.

(** The files [sorted(...)[:10]] gives are "*.mp4" entries of the
    directory whose modification time could be read, at most ten. *)
Lemma recent_elem (out : Path) (dir l : list Recorder.FileEntry) :
  Recorder.recent_recordings out dir = Ok l →
  (length l ≤ 10)%nat ∧
  ∀ f, f ∈ l →
       f ∈ dir ∧ endswith (Recorder.fname f) ".mp4" = true ∧
       is_Some (Recorder.st_mtime f).
Proof.
  unfold Recorder.recent_recordings. intros H.
  destruct (Recorder.keys out (Recorder.glob_mp4 dir)) as [ks |] eqn:Hks;
    [| discriminate H].
  cbn [mbind Result_bind] in H. injection H as <-.
  destruct (keys_ok _ _ _ Hks) as [Hmap Hkey]. split.
  - rewrite length_take. lia.
  - intros f Hf.
    assert (f ∈ List.map snd (Recorder.sorted_by_mtime ks)) as Hin.
    { rewrite <- (take_drop 10 (List.map snd _)). apply elem_of_app. by left. }
    apply list_elem_of_In, in_map_iff in Hin as (p & <- & Hp).
    apply list_elem_of_In in Hp. apply (proj1 (sorted_by_mtime_elem _ _)) in Hp.
    assert (snd p ∈ Recorder.glob_mp4 dir) as Hglob.
    { rewrite <- Hmap. apply list_elem_of_In, in_map, list_elem_of_In, Hp. }
    apply list_elem_of_In, filter_In in Hglob as [Hdir Hsuf].
    apply list_elem_of_In in Hdir. split; [exact Hdir |]. split; [exact Hsuf |].
    rewrite (proj1 (Forall_forall _ _) Hkey p Hp). by eexists.
Qed.

(** The refresh raises an [OSError] or nothing, and nothing when every
    "*.mp4" entry can be examined. *)
Lemma panel_raised (out : Path) (dir : list Recorder.FileEntry) :
  snd (Recorder.recordings_panel out dir) = None ∨
  ∃ msg, snd (Recorder.recordings_panel out dir) = Some (OSError msg).
Proof.
  unfold Recorder.recordings_panel, Recorder.recent_recordings.
  destruct (decide (Forall (λ f, is_Some (Recorder.st_mtime f))
                      (Recorder.glob_mp4 dir))) as [Hall | Hnot].
  - destruct (keys_total out _ Hall) as [ks ->]. cbn [mbind Result_bind].
    destruct (take 10 _) as [| f l]; [by left |]. apply draw_rows_raised.
  - destruct (keys_raise out _ Hnot) as [msg ->]. right. by exists msg.
Qed.

Lemma panel_examinable (out : Path) (dir : list Recorder.FileEntry) :
  examinable dir → snd (Recorder.recordings_panel out dir) = None.
Proof.
  intros Hdir. unfold Recorder.recordings_panel.
  destruct (Recorder.recent_recordings out dir) as [l | e] eqn:Hl.
  - destruct (recent_elem _ _ _ Hl) as [_ Hin].
    destruct l as [| f l]; [reflexivity |].
    apply draw_rows_total, Forall_forall. intros g Hg.
    destruct (Hin g Hg) as (Hd & Hsuf & _). by apply (Hdir g Hd Hsuf).
  - unfold Recorder.recent_recordings in Hl.
    destruct (keys_total out (Recorder.glob_mp4 dir)) as [ks Hks].
    + apply Forall_forall. intros g Hg.
      apply list_elem_of_In, filter_In in Hg as [Hd Hsuf].
      apply list_elem_of_In in Hd. by apply (Hdir g Hd Hsuf).
    + rewrite Hks in Hl. discriminate Hl.
Qed.




(** C6, as stated, fails: when flushing the quit byte raises (the pipe of a
    process that has already exited is broken), the process is terminated
    at once, and no wait of five seconds comes before. *)
Lemma terminate_without_waiting :
  new_calls recording_world
    (fst (Recorder._stop_recording (Recorder.FlushRaises BrokenPipeError) []
            recording_world)) =
  [ Recorder.SysStdinWrite 4242 "q"; Recorder.SysStdinFlush 4242;
    Recorder.SysTerminate 4242 ].
Proof. vm_compute. reflexivity. Qed.

(** C6, amended. Stopping a recording whose process handle is set always
    begins by writing the quit byte "q" to the standard input of the
    process; [terminate] is never called before that write.  When the write
    and the flush succeed, the recorder waits up to 5 seconds and
    terminates the process only if that wait times out; when the write or
    the flush raises, it terminates the process without waiting.  In every
    case the handle is dropped. *)
Theorem graceful_stop_always_first (r : Recorder.StopResponse)
    (dir : list Recorder.FileEntry) (w : Recorder.World) (pid : nat) :
  Recorder.recording_process (Recorder.self w) = Some pid →
  let w' := fst (Recorder._stop_recording r dir w) in
  Recorder.trace w' =
    Recorder.trace w ++
    Recorder.SysStdinWrite pid "q" ::
    match r with
    | Recorder.WriteRaises _ => [Recorder.SysTerminate pid]
    | Recorder.FlushRaises _ =>
        [Recorder.SysStdinFlush pid; Recorder.SysTerminate pid]
    | Recorder.ExitsInTime =>
        [Recorder.SysStdinFlush pid; Recorder.SysWait pid 5]
    | Recorder.WaitTimesOut =>
        [Recorder.SysStdinFlush pid; Recorder.SysWait pid 5;
         Recorder.SysTerminate pid]
    end ∧
  Recorder.recording_process (Recorder.self w') = None.
Proof.
  intros Hp. cbn zeta. split.
  - rewrite stop_trace, Hp.
    destruct r; unfold Recorder.graceful_stop, Recorder.syscall;
      cbn [Recorder.trace]; rewrite <- ?app_assoc; reflexivity.
  - rewrite stop_self. rewrite (proj1 (refresh_keeps _ _)). reflexivity.
Qed.

Lemma graceful_stop_always_first_witness :
  let w' := fst (Recorder._stop_recording Recorder.WaitTimesOut [] recording_world) in
  Recorder.trace w' =
    Recorder.trace recording_world ++
    [ Recorder.SysStdinWrite 4242 "q"; Recorder.SysStdinFlush 4242;
      Recorder.SysWait 4242 5; Recorder.SysTerminate 4242 ] ∧
  Recorder.recording_process (Recorder.self w') = None.
Proof.
  apply (graceful_stop_always_first Recorder.WaitTimesOut [] recording_world 4242).
  reflexivity.
Defined.

(** C7. Pausing a running recording and resuming it leaves the recorder
    recording and not paused, with the same process handle: the only system
    calls made are SIGSTOP and then SIGCONT sent to that process, so no
    process is started. *)
Theorem pause_resume_keeps_process (w : Recorder.World) (pid : nat) :
  Recorder.recording_process (Recorder.self w) = Some pid →
  Recorder.is_paused (Recorder.self w) = false →
  let paused := Recorder._toggle_pause w in
  let resumed := Recorder._toggle_pause paused in
  Recorder.is_paused (Recorder.self paused) = true ∧
  Recorder.recording_process (Recorder.self paused) = Some pid ∧
  Recorder.is_paused (Recorder.self resumed) = false ∧
  Recorder.is_recording (Recorder.self resumed) =
    Recorder.is_recording (Recorder.self w) ∧
  Recorder.recording_process (Recorder.self resumed) = Some pid ∧
  Recorder.status_label (Recorder.self resumed) = "🔴 Recording..." ∧
  Recorder.trace resumed =
    Recorder.trace w ++
    [Recorder.SysSendSignal pid Recorder.SIGSTOP;
     Recorder.SysSendSignal pid Recorder.SIGCONT].
Proof.
  destruct w as [[] t l]. cbn [Recorder.self Recorder.recording_process
    Recorder.is_paused]. intros -> ->. cbn zeta.
  unfold Recorder._toggle_pause, Recorder.with_self, Recorder.syscall.
  cbn [Recorder.self Recorder.trace Recorder.status_log
       Recorder.recording_process Recorder.is_paused Recorder.is_recording
       Recorder.status_label].
  rewrite <- app_assoc. repeat split.
Qed.

Lemma pause_resume_keeps_process_witness :
  let paused := Recorder._toggle_pause recording_world in
  let resumed := Recorder._toggle_pause paused in
  Recorder.is_paused (Recorder.self paused) = true ∧
  Recorder.recording_process (Recorder.self paused) = Some 4242 ∧
  Recorder.is_paused (Recorder.self resumed) = false ∧
  Recorder.is_recording (Recorder.self resumed) =
    Recorder.is_recording (Recorder.self recording_world) ∧
  Recorder.recording_process (Recorder.self resumed) = Some 4242 ∧
  Recorder.status_label (Recorder.self resumed) = "🔴 Recording..." ∧
  Recorder.trace resumed =
    Recorder.trace recording_world ++
    [Recorder.SysSendSignal 4242 Recorder.SIGSTOP;
     Recorder.SysSendSignal 4242 Recorder.SIGCONT].
Proof.
  apply (pause_resume_keeps_process recording_world 4242); reflexivity.
Defined.

(** The panel shows at most ten rows, and a row only for a file of the
    directory whose name ends in ".mp4". *)
Lemma listed_rows_are_mp4 (dir : list Recorder.FileEntry)
    (s : Recorder.ScreenRecorder) :
  let rows := Recorder.recordings_scroll (fst (Recorder._refresh_recordings_list dir s)) in
  (length rows ≤ 10)%nat ∧
  ∀ row, row ∈ rows →
    row = Recorder.NoRecordingsYet ∨
    ∃ f, f ∈ dir ∧ endswith (Recorder.fname f) ".mp4" = true ∧
         (row = Recorder.UnfinishedRow (Recorder.fname f) ∨
          ∃ size, Recorder.st_size f = Some size ∧
                  row = Recorder.RecordingRow (Recorder.fname f) size
                          (joinpath (Recorder.output_dir s) (Recorder.fname f))).
Proof.
  cbn zeta. rewrite refresh_self.
  cbn [Recorder.set_recordings_scroll Recorder.recordings_scroll].
  unfold Recorder.recordings_panel.
  destruct (Recorder.recent_recordings _ dir) as [l | e] eqn:Hrec.
  - destruct (recent_elem _ _ _ Hrec) as [Hlen Hin].
    destruct l as [| f fs].
    + cbn. split; [lia |]. intros row H. left. by apply list_elem_of_singleton in H.
    + split.
      * pose proof (draw_rows_length (Recorder.output_dir s) (f :: fs)). lia.
      * intros row Hrow. right.
        destruct (draw_rows_elem _ _ _ Hrow) as (g & Hg & Hcase).
        destruct (Hin g Hg) as (Hd & Hsuf & _). by exists g.
  - cbn. split; [lia |]. by intros row H%elem_of_nil.
Qed.

(** The rows are ordered by modification time, newest first. *)
Lemma insert_by_mtime_sorted (x : Z * Recorder.FileEntry)
    (l : list (Z * Recorder.FileEntry)) :
  StronglySorted (λ a b, (fst b ≤ fst a)%Z) l →
  StronglySorted (λ a b, (fst b ≤ fst a)%Z) (Recorder.insert_by_mtime x l).
Proof.
  induction 1 as [| y l Hl IH Hy]; cbn [Recorder.insert_by_mtime].
  - repeat constructor.
  - destruct (Z.leb_spec (fst y) (fst x)) as [Hle | Hlt].
    + constructor; [by constructor |]. constructor; [exact Hle |].
      eapply Forall_impl; [exact Hy |]. intros z Hz. cbn beta in *. lia.
    + constructor; [exact IH |].
      apply Forall_forall. intros z Hz.
      apply insert_by_mtime_elem in Hz as [-> | Hz]; [lia |].
      by apply (proj1 (Forall_forall _ _) Hy).
Qed.

Lemma sorted_by_mtime_sorted (l : list (Z * Recorder.FileEntry)) :
  StronglySorted (λ a b, (fst b ≤ fst a)%Z) (Recorder.sorted_by_mtime l).
Proof.
  unfold Recorder.sorted_by_mtime. induction l as [| x l IH]; cbn [foldr].
  - constructor.
  - by apply insert_by_mtime_sorted.
Qed.

(** Strings: the length and the tail of a concatenation. *)
Lemma append_length (x y : string) :
  String.length (x +:+ y) = (String.length x + String.length y)%nat.
Proof. induction x as [| c x IH]; simpl; [reflexivity | by rewrite IH]. Qed.

Lemma append_assoc (x y z : string) : x +:+ (y +:+ z) = (x +:+ y) +:+ z.
Proof.
  induction x as [| c x IH]; [reflexivity |].
  change (String c (x +:+ (y +:+ z)) = String c ((x +:+ y) +:+ z)).
  by rewrite IH.
Qed.

Lemma substring_whole (y : string) : String.substring 0 (String.length y) y = y.
Proof. induction y as [| c y IH]; simpl; [reflexivity | by rewrite IH]. Qed.

Lemma substring_tail (x y : string) :
  String.substring (String.length x) (String.length y) (x +:+ y) = y.
Proof. induction x as [| c x IH]; simpl; [apply substring_whole | exact IH]. Qed.

(** A name ends with a suffix exactly when its last characters are that
    suffix. *)
Lemma endswith_tail (x y suf : string) :
  String.length y = String.length suf →
  endswith (x +:+ y) suf = String.eqb y suf.
Proof.
  intros Hlen. unfold endswith. rewrite append_length, <- Hlen.
  replace (String.length y <=? String.length x + String.length y)%nat with true
    by (symmetry; apply Nat.leb_le; lia).
  replace (String.length x + String.length y - String.length y)%nat
    with (String.length x) by lia.
  by rewrite substring_tail.
Qed.

(** Whatever the clock and the directory, a recording made in one of the
    other containers the format menu offers is never given a row. *)
Lemma other_containers_never_listed (ext timestamp : string)
    (dir : list Recorder.FileEntry) (s : Recorder.ScreenRecorder)
    (size : Z) (target : Path) :
  ext ∈ Recorder.FORMATS → ext ≠ "mp4" →
  Recorder.RecordingRow ("recording_" +:+ timestamp +:+ "." +:+ ext) size target
    ∉ Recorder.recordings_scroll (fst (Recorder._refresh_recordings_list dir s)).
Proof.
  intros Hext Hne Hrow.
  apply (proj2 (listed_rows_are_mp4 dir s)) in Hrow
    as [Hrow | (f & _ & Hsuf & [Hrow | (n & _ & Hrow)])];
    [discriminate Hrow | discriminate Hrow |].
  injection Hrow as Hname _ _. rewrite <- Hname in Hsuf.
  unfold Recorder.FORMATS in Hext. enum Hext.
  - by apply Hne.
  - rewrite (append_assoc "recording_"), (endswith_tail _ ".mkv" ".mp4") in Hsuf;
      [discriminate Hsuf | reflexivity].
  - rewrite (append_assoc timestamp), (append_assoc "recording_"),
      (endswith_tail _ "webm" ".mp4") in Hsuf; [discriminate Hsuf | reflexivity].
  - rewrite (append_assoc "recording_"), (endswith_tail _ ".avi" ".mp4") in Hsuf;
      [discriminate Hsuf | reflexivity].
  - rewrite (append_assoc "recording_"), (endswith_tail _ ".mov" ".mp4") in Hsuf;
      [discriminate Hsuf | reflexivity].
Qed.

(** C8, on the code. A recording made with the Matroska container is
    written to "recording_20240101_120000.mkv"; when it stops and that file
    is the content of the output directory, the panel still shows the
    placeholder and no row for the file. *)
Theorem mkv_recording_not_listed :
  Recorder.current_output_file (Recorder.self (started mkv_recorder)) =
    Some (parse "/home/user/Videos/N01D-Recordings/recording_20240101_120000.mkv") ∧
  Recorder.recordings_scroll
    (Recorder.self
       (fst (Recorder._stop_recording Recorder.ExitsInTime mkv_directory
               (started mkv_recorder)))) =
    [Recorder.NoRecordingsYet].
Proof. split; vm_compute; reflexivity. Qed.

End Control.

(** * More on the encoder: failures of the builder, the worker after a cancel *)

Module EncoderMore.
Import PurePath Encoder Props MoreProps Scenarios ProofTools.

Lemma presets_lookup (n : nat) :
  (∃ p, getitem presets n = Ok p ∧ (n < 9)%nat) ∨
  (getitem presets n = Raise IndexError ∧ (9 ≤ n)%nat).
Proof.
  do 9 (destruct n as [| n]; [left; eexists; split; [reflexivity | lia] |]).
  right. split; [reflexivity | lia].
Qed.

Lemma resolution_args_cases (res : string) :
  (∃ r, resolution_args res = Ok r ∧
        ¬ (res ≠ "Original" ∧ res ≠ "Custom" ∧ split_ws res = [])) ∨
  (resolution_args res = Raise IndexError ∧
   res ≠ "Original" ∧ res ≠ "Custom" ∧ split_ws res = []).
Proof.
  unfold resolution_args, getitem.
  destruct (String.eqb_spec res "Original") as [Ho | Ho];
    [left; eexists; split; [reflexivity | tauto] |].
  destruct (String.eqb_spec res "Custom") as [Hc | Hc];
    [left; eexists; split; [reflexivity | tauto] |].
  cbn [negb andb]. destruct (split_ws res) as [| v l].
  - right. auto.
  - left. eexists. split; [reflexivity |]. intros (_ & _ & H). discriminate H.
Qed.

(** X1. The builder raises exactly when the category is "Video" and either
    the resolution box holds something other than "Original" and "Custom"
    with no token in it (it is empty or white space), or the preset slider is
    beyond its nine positions; what it raises is then an IndexError.  For
    every other category and setting it returns a command. *)
Theorem build_raises_exactly_when (s : MediaEncoder) (f : Path)
    (cat fmt : string) :
  let res := resolution_dropdown s in
  let bad :=
    cat = "Video" ∧
    ((res ≠ "Original" ∧ res ≠ "Custom" ∧ split_ws res = []) ∨
     (9 ≤ preset_slider s)%nat) in
  (is_ok (_build_ffmpeg_command s f cat fmt) = false ↔ bad) ∧
  (∀ e, _build_ffmpeg_command s f cat fmt = Raise e → e = IndexError).
Proof.
  cbn zeta. unfold _build_ffmpeg_command.
  generalize (default ".mp4" (ext_map !! fmt)). intros ext.
  match goal with
  | |- context [Ok (_ ++ [?o])] => generalize o
  end.
  intros out.
  destruct (String.eqb_spec cat "Video") as [-> | Hcat].
  - rewrite EncoderBuilder.video_args_groups.
    destruct (resolution_args_cases (resolution_dropdown s))
      as [(r & -> & Hr) | (-> & Hr)];
      cbn [mbind Result_bind is_ok].
    + destruct (presets_lookup (preset_slider s)) as [(p & -> & Hn) | (-> & Hn)];
        cbn [mbind Result_bind is_ok].
      * split; [| discriminate]. split; [discriminate |].
        intros [_ [H | H]]; [contradiction | lia].
      * split; [| by intros e [= <-]]. split; [auto | reflexivity].
    + split; [| by intros e [= <-]]. split; [auto | reflexivity].
  - assert (∀ c : list string, is_ok (Ok c ≫= λ cmd, Ok (cmd ++ [out])) = true)
      as Hok by reflexivity.
    destruct (String.eqb cat "Audio"); cbn [mbind Result_bind is_ok];
      (split; [split; [discriminate | intros [H _]; contradiction] | discriminate]).
Qed.

(** No callback sets the batch flag. *)
Lemma callbacks_never_set_flag (l : list Callback) (s : MediaEncoder) :
  is_encoding s = false → is_encoding (foldl run_callback s l) = false.
Proof.
  revert s. induction l as [| cb l IH]; intros s Hs; [exact Hs |].
  cbn [foldl]. apply IH. destruct cb; [exact Hs | reflexivity | reflexivity].
Qed.

Lemma read_when_cleared (sched : Schedule) (w : World) :
  is_encoding (self w) = false →
  ∃ w', read_is_encoding sched w = (w', false) ∧
        is_encoding (self w') = false ∧ trace w' = trace w.
Proof.
  intros H. unfold read_is_encoding, mainloop. cbn [self queue trace clock].
  rewrite (callbacks_never_set_flag _ _ H). eexists. split; [reflexivity |].
  cbn [self trace]. split; [by apply callbacks_never_set_flag | reflexivity].
Qed.












End EncoderMore.

(** * Paths: what [Path(...)] builds, and [str] on it *)

Module PathFacts.
Import PurePath Props MoreProps ProofTools.

Lemma has_char_append (c : ascii) (x y : string) :
  has_char c (x +:+ y) = has_char c x || has_char c y.
Proof.
  induction x as [| d x IH]; [reflexivity |].
  change (has_char c (String d (x +:+ y)) = has_char c (String d x) || has_char c y).
  cbn [has_char]. by rewrite IH, orb_assoc.
Qed.

Lemma has_char_substring (c : ascii) (s : string) :
  has_char c s = false → ∀ i, has_char c (String.substring 0 i s) = false.
Proof.
  induction s as [| d s IH]; intros H i; [by destruct i |].
  cbn [has_char] in H. apply orb_false_iff in H as [Hd Hs].
  destruct i as [| i]; [reflexivity |].
  cbn [String.substring has_char]. by rewrite Hd, IH.
Qed.

(** Splitting at the separator. *)
Lemma split_on_fields (sep : ascii) (s : string) :
  split_on sep s ≠ [] ∧ Forall (λ x, has_char sep x = false) (split_on sep s).
Proof.
  induction s as [| c s [IHn IHf]]; cbn [split_on].
  - split; [discriminate | by repeat constructor].
  - destruct (Ascii.eqb c sep) eqn:Hc.
    + split; [discriminate |]. by constructor.
    + destruct (split_on sep s) as [| w ws]; [contradiction |].
      split; [discriminate |]. inversion IHf as [| ? ? Hw Hws]; subst.
      constructor; [| exact Hws]. cbn [has_char]. by rewrite Hc, Hw.
Qed.

Lemma split_on_no_separator (sep : ascii) (x : string) :
  has_char sep x = false → split_on sep x = [x].
Proof.
  induction x as [| c x IH]; [reflexivity |]. cbn [has_char split_on].
  intros H. apply orb_false_iff in H as [Hc Hx]. by rewrite Hc, IH.
Qed.

Lemma split_on_append (sep : ascii) (x r : string) :
  has_char sep x = false →
  split_on sep (x +:+ String sep r) = x :: split_on sep r.
Proof.
  induction x as [| c x IH]; intros H.
  - change (split_on sep (String sep r) = "" :: split_on sep r).
    cbn [split_on]. by rewrite Ascii.eqb_refl.
  - cbn [has_char] in H. apply orb_false_iff in H as [Hc Hx].
    change (split_on sep (String c (x +:+ String sep r)) = String c x :: split_on sep r).
    cbn [split_on]. by rewrite Hc, IH.
Qed.

Lemma split_join (x : string) (l : list string) :
  Forall component (x :: l) → split_on "/" (join "/" (x :: l)) = x :: l.
Proof.
  revert x. induction l as [| y l IH]; intros x H.
  - inversion H as [| ? ? (_ & _ & Hx) _]; subst. by apply split_on_no_separator.
  - inversion H as [| ? ? (_ & _ & Hx) Hl]; subst.
    change (join "/" (x :: y :: l)) with (x +:+ String "/" (join "/" (y :: l))).
    rewrite split_on_append by exact Hx. by rewrite IH.
Qed.

Lemma filter_components (l : list string) :
  Forall component l → List.filter keep_component l = l.
Proof.
  induction 1 as [| x l (Hx1 & Hx2 & _) _ IH]; [reflexivity |].
  cbn [List.filter]. unfold keep_component at 1.
  apply String.eqb_neq in Hx1, Hx2. by rewrite Hx1, Hx2, IH.
Qed.

(** [Path(s)] is a parsed path. *)
Lemma parse_parsed (s : string) : parsed (parse s).
Proof.
  split.
  - cbn [parse root]. unfold splitroot.
    destruct (lstrip_slash_count s) as [| [| [| n]]]; listed.
  - cbn [parse tail].
    destruct (split_on_fields "/" s) as [_ Hf].
    induction Hf as [| x l Hx _ IH]; [constructor |].
    cbn [List.filter]. unfold keep_component at 1.
    destruct (String.eqb_spec x ""); [exact IH |].
    destruct (String.eqb_spec x "."); [exact IH |].
    constructor; [by repeat split | exact IH].
Qed.

Lemma component_first (x : string) :
  component x → ∃ c t, x = String c t ∧ c ≠ "/"%char.
Proof.
  intros (Hn & _ & Hs). destruct x as [| c t]; [contradiction |].
  exists c, t. split; [reflexivity |]. cbn [has_char] in Hs.
  apply orb_false_iff in Hs as [Hc _]. by apply Ascii.eqb_neq in Hc.
Qed.

Lemma join_first (x : string) (l : list string) :
  component x → ∃ c t, join "/" (x :: l) = String c t ∧ c ≠ "/"%char.
Proof.
  intros Hx. destruct (component_first x Hx) as (c & t & -> & Hc).
  destruct l as [| y l]; cbn [join]; [eauto |].
  exists c. eexists. split; [reflexivity | exact Hc].
Qed.

(** A single component parses to itself. *)
Lemma parse_component (x : string) :
  component x → parse x = mkPath "" [x].
Proof.
  intros Hx. destruct (component_first x Hx) as (c & t & -> & Hc).
  unfold parse. rewrite split_on_no_separator by apply Hx.
  rewrite (filter_components [String c t]) by (by constructor).
  f_equal. unfold splitroot. cbn.
  destruct c as [[] [] [] [] [] [] [] []]; try reflexivity. by destruct Hc.
Qed.

Lemma joinpath_component (d : Path) (x : string) :
  component x → joinpath d x = mkPath (root d) (tail d ++ [x]).
Proof.
  intros Hx. unfold joinpath. rewrite (parse_component x Hx).
  destruct (component_first x Hx) as (c & t & -> & Hc).
  destruct c as [[] [] [] [] [] [] [] []]; try reflexivity. by destruct Hc.
Qed.

Lemma lstrip_other (c : ascii) (t : string) :
  c ≠ "/"%char → lstrip_slash_count (String c t) = 0%nat.
Proof.
  intros Hc. destruct c as [[] [] [] [] [] [] [] []]; try reflexivity. by destruct Hc.
Qed.

Lemma lstrip_slash (s : string) :
  lstrip_slash_count (String "/" s) = S (lstrip_slash_count s).
Proof. reflexivity. Qed.

(** [Path(str(p))] is [p] again, for every parsed [p]. *)
Lemma parse_str (p : Path) : parsed p → parse (str p) = p.
Proof.
  destruct p as [r l]. intros [Hr Hl]. cbn [root tail] in Hr, Hl.
  unfold str. cbn [root tail].
  destruct l as [| x l].
  - enum Hr; reflexivity.
  - inversion Hl as [| ? ? Hx Hl']; subst.
    destruct (join_first x l Hx) as (c & t & Hj & Hc).
    pose proof (split_join x l Hl) as Hsplit.
    set (j := join "/" (x :: l)) in *.
    assert (lstrip_slash_count j = 0%nat) as Hcount
      by (rewrite Hj; by apply lstrip_other).
    enum Hr.
    + change ("" +:+ j) with j. rewrite Hj at 1. rewrite <- Hj.
      unfold parse, splitroot. by rewrite Hcount, Hsplit, filter_components.
    + change ("/" +:+ j) with (String "/" j). cbv iota.
      unfold parse, splitroot. rewrite lstrip_slash, Hcount. f_equal.
      cbn [split_on]. change (Ascii.eqb "/" "/") with true. cbv iota.
      rewrite Hsplit. change (keep_component "") with false.
      cbn [List.filter]. cbv iota.
      apply (filter_components (x :: l) Hl).
    + change ("//" +:+ j) with (String "/" (String "/" j)). cbv iota.
      unfold parse, splitroot. rewrite !lstrip_slash, Hcount. f_equal.
      cbn [split_on]. change (Ascii.eqb "/" "/") with true. cbv iota.
      rewrite Hsplit. change (keep_component "") with false.
      cbn [List.filter]. cbv iota.
      apply (filter_components (x :: l) Hl).
Qed.

(** The last occurrence of a character cuts the string in two. *)
Lemma rfind_split (c : ascii) (s : string) (i : nat) :
  rfind c s = Some i → ∃ t, s = String.substring 0 i s +:+ String c t.
Proof.
  revert i. induction s as [| d s IH]; intros i H; [discriminate |].
  cbn [rfind] in H. destruct (rfind c s) as [j |].
  - injection H as <-. destruct (IH j eq_refl) as [t Ht].
    exists t. cbn [String.substring]. 
    change (String d s = String d (String.substring 0 j s +:+ String c t)).
    by rewrite <- Ht.
  - destruct (Ascii.eqb_spec d c) as [-> |]; [| discriminate].
    injection H as <-. exists s. reflexivity.
Qed.

(** The name of a path is its stem followed by nothing or by a suffix that
    starts with a dot. *)
Lemma stem_prefix (p : Path) :
  ∃ suf, name p = stem p +:+ suf ∧ (suf = "" ∨ ∃ t, suf = String "." t).
Proof.
  unfold stem. set (n := name p).
  assert (n = n +:+ "") as Hn.
  { clear. induction n as [| c n IH]; [reflexivity |].
    change (String c n = String c (n +:+ "")). by rewrite <- IH. }
  destruct (rfind "." n) as [i |] eqn:Hi; [| exists ""; auto].
  destruct (_ && _); [| exists ""; auto].
  destruct (rfind_split _ _ _ Hi) as [t Ht].
  exists (String "." t). split; [exact Ht | eauto].
Qed.

Lemma last_component (l : list string) :
  Forall component l → l = [] ∨ component (List.last l "").
Proof.
  induction 1 as [| x l Hx Hl IH]; [by left |]. right.
  destruct l as [| y l]; [exact Hx |].
  destruct IH as [IH | IH]; [discriminate | exact IH].
Qed.

Lemma stem_no_separator (p : Path) :
  parsed p → has_char "/" (stem p) = false.
Proof.
  intros [_ Hl].
  assert (has_char "/" (name p) = false) as Hn.
  { unfold name. destruct (last_component _ Hl) as [-> | (_ & _ & H)]; [reflexivity | exact H]. }
  unfold stem. destruct (rfind "." (name p)); [| exact Hn].
  destruct (_ && _); [| exact Hn]. by apply has_char_substring.
Qed.

(** Every extension the builder can choose starts with a dot and holds no
    separator. *)
Lemma extension_shape (fmt : string) :
  has_char "/" (default ".mp4" (Encoder.ext_map !! fmt)) = false ∧
  ∃ t, default ".mp4" (Encoder.ext_map !! fmt) = String "." t.
Proof.
  destruct (Encoder.ext_map !! fmt) as [e |] eqn:He; cbn [default];
    [| split; [reflexivity | eexists; reflexivity]].
  unfold Encoder.ext_map in He. apply elem_of_list_to_map_2 in He.
  repeat (apply elem_of_cons in He as [[= _ ->] | He];
          [split; [reflexivity | eexists; reflexivity] |]).
  by apply elem_of_nil in He.
Qed.

(** The name the builder gives the output is one component. *)
Lemma output_name_component (p : Path) (fmt : string) :
  parsed p →
  component (stem p +:+ "_converted" +:+ default ".mp4" (Encoder.ext_map !! fmt)).
Proof.
  intros Hp. destruct (extension_shape fmt) as [He _].
  set (ext := default ".mp4" (Encoder.ext_map !! fmt)) in *.
  assert (String.length (stem p +:+ "_converted" +:+ ext) =
          (String.length (stem p) + (10 + String.length ext))%nat) as Hlen.
  { rewrite !Control.append_length. reflexivity. }
  repeat split.
  - intros H. rewrite H in Hlen. cbn in Hlen. lia.
  - intros H. rewrite H in Hlen. cbn in Hlen. lia.
  - rewrite !has_char_append, (stem_no_separator p Hp), He. reflexivity.
Qed.

Lemma parent_parsed (p : Path) : parsed p → parsed (parent p).
Proof.
  intros [Hr Hl]. unfold parent. destruct (tail p) as [| x l] eqn:Ht.
  - split; [exact Hr | by rewrite Ht].
  - split; [exact Hr |]. cbn [tail].
    rewrite <- (take_drop (length (removelast (x :: l))) (x :: l)) in Hl.
    clear Ht. revert x Hl. induction l as [| y l IH]; intros x Hl; [constructor |].
    change (removelast (x :: y :: l)) with (x :: removelast (y :: l)).
    cbn [length take drop app] in Hl. inversion Hl as [| ? ? Hx Hl']; subst.
    constructor; [exact Hx |]. by apply IH.
Qed.

End PathFacts.

(** * The output of the encoder's builder *)

Module EncoderOutput.
Import PurePath Encoder Props MoreProps MoreScenarios ProofTools PathFacts.

(** X4. The input argument handed to the tool denotes the file that was
    chosen: for a file chosen as the string [raw], the third argument of
    every command built for [Path(raw)] gives [Path(raw)] when it is read as
    a path again. *)
Theorem input_argument_denotes_the_file (s : MediaEncoder)
    (raw cat fmt : string) (cmd : list string) :
  _build_ffmpeg_command s (parse raw) cat fmt = Ok cmd →
  ∃ a, cmd !! 2%nat = Some a ∧ parse a = parse raw.
Proof.
  intros H. apply EncoderBuilder.build_prefix in H as [rest ->].
  exists (str (parse raw)). split; [reflexivity |].
  apply parse_str, parse_parsed.
Qed.

Lemma input_argument_denotes_the_file_witness :
  ∃ a, [ "ffmpeg"; "-i"; "/home/user/clips/a.b/clip.mov"; "-y";
         "/home/user/clips/a.b/clip_converted.png" ] !! 2%nat = Some a ∧
       parse a = parse "/home///user/./clips/a.b/clip.mov/".
Proof.
  apply (input_argument_denotes_the_file Encoder.init
           "/home///user/./clips/a.b/clip.mov/" "Image" "PNG").
  vm_compute. reflexivity.
Defined.

(** The path the builder derives, as a parsed path. *)
Lemma derived_output (d input : Path) (fmt : string) :
  parsed d → parsed input →
  let key := stem input +:+ "_converted" +:+ default ".mp4" (ext_map !! fmt) in
  let out := joinpath d key in
  parsed out ∧ name out = key ∧ parent out = d ∧ out ≠ input.
Proof.
  intros Hd Hi. cbn zeta.
  pose proof (output_name_component input fmt Hi) as Hkey.
  set (key := stem input +:+ "_converted" +:+ default ".mp4" (ext_map !! fmt)) in *.
  rewrite (joinpath_component d key Hkey).
  assert (name (mkPath (root d) (tail d ++ [key])) = key) as Hname
    by (unfold name; cbn [tail]; apply last_last).
  split; [| split; [exact Hname | split]].
  - destruct Hd as [Hr Hl]. split; [exact Hr |]. cbn [tail].
    apply Forall_app. split; [exact Hl | by constructor].
  - unfold parent. cbn [tail root].
    destruct (tail d ++ [key]) as [| x l] eqn:Hl;
      [by apply app_eq_nil in Hl as [_ Hl] |].
    rewrite <- Hl, removelast_last. by destruct d.
  - intros Heq. rewrite Heq in Hname.
    destruct (stem_prefix input) as (suf & Hsuf & Hs).
    rewrite Hname in Hsuf. subst key.
    apply (inj (String.append (stem input))) in Hsuf.
    destruct Hs as [-> | [t ->]]; discriminate Hsuf.
Qed.

(** X5. The output the builder names is a new file: for an input built by
    [Path(...)] and an output directory that is unset or was chosen in the
    dialog, the last argument of the command is a path whose name is the
    input's stem followed by "_converted" and the extension of the format
    (".mp4" for a format the table does not know), which lies in the output
    directory if one is set and beside the input otherwise, and which is
    never the input itself, so the overwrite flag cannot destroy the
    input. *)
Theorem output_is_a_new_file (s : MediaEncoder) (raw cat fmt : string)
    (cmd : list string) :
  parsed_directory (output_dir s) →
  _build_ffmpeg_command s (parse raw) cat fmt = Ok cmd →
  ∃ out : Path,
    last cmd = Some (str out) ∧
    parse (str out) = out ∧
    name out = stem (parse raw) +:+ "_converted" +:+
               default ".mp4" (ext_map !! fmt) ∧
    parent out = default (parent (parse raw)) (output_dir s) ∧
    str out ≠ str (parse raw).
Proof.
  intros Hd H. unfold _build_ffmpeg_command in H.
  pose proof (parse_parsed raw) as Hi.
  set (input := parse raw) in *.
  set (key := stem input +:+ "_converted" +:+ default ".mp4" (ext_map !! fmt)) in *.
  set (d := default (parent input) (output_dir s)).
  assert (parsed d) as Hdp.
  { subst d. destruct (output_dir s); [exact Hd | by apply parent_parsed]. }
  assert (match output_dir s with
          | Some d0 => joinpath d0 key
          | None => joinpath (parent input) key
          end = joinpath d key) as Hout
    by (subst d; by destruct (output_dir s)).
  rewrite Hout in H. clear Hout.
  destruct (derived_output d input fmt Hdp Hi) as (Hp & Hn & Hpar & Hne).
  fold key in Hp, Hn, Hpar, Hne.
  apply EncoderBuilder.bind_ok in H as (c & _ & H). injection H as <-.
  exists (joinpath d key).
  split; [apply last_snoc |]. split; [by apply parse_str |].
  split; [exact Hn |]. split; [exact Hpar |].
  intros Heq. apply Hne.
  rewrite <- (parse_str _ Hp), <- (parse_str input Hi). by rewrite Heq.
Qed.

Lemma output_is_a_new_file_witness :
  ∃ out : Path,
    last [ "ffmpeg"; "-i"; "/media/in/take.final.MOV"; "-y"; "-vn"; "-c:a";
           "flac"; "-b:a"; "192k"; "/media/out/take.final_converted.flac" ] =
      Some (str out) ∧
    parse (str out) = out ∧
    name out = stem (parse "/media/in/take.final.MOV") +:+ "_converted" +:+
               default ".mp4" (ext_map !! "FLAC") ∧
    parent out =
      default (parent (parse "/media/in/take.final.MOV")) (output_dir flac_encoder) ∧
    str out ≠ str (parse "/media/in/take.final.MOV").
Proof.
  apply (output_is_a_new_file flac_encoder "/media/in/take.final.MOV" "Audio" "FLAC").
  - exact (parse_parsed "/media/out").
  - vm_compute. reflexivity.
Defined.

End EncoderOutput.

(** * The list of input files of the encoder *)

Module FileList.
Import PurePath Encoder PyMore EncoderFiles Props MoreProps MoreScenarios ProofTools PathFacts.

(** Refreshing the display leaves the encoder alone. *)
Lemma update_keeps_encoder (stat : Stat) (p : Panel) :
  encoder (fst (_update_file_list stat p)) = encoder p.
Proof.
  unfold _update_file_list. destruct (input_files (encoder p)); [reflexivity |].
  by destruct (file_rows stat _).
Qed.

Lemma append_new_spec (files : list Path) (f : string) :
  NoDup files →
  NoDup (append_new files f) ∧ parse f ∈ append_new files f ∧
  ∃ added, append_new files f = files ++ added.
Proof.
  intros Hn. unfold append_new. case_bool_decide as Hin.
  - split; [exact Hn |]. split; [exact Hin |]. exists []. by rewrite app_nil_r.
  - split; [| split; [| eauto]].
    + apply NoDup_app. split; [exact Hn |]. split; [| apply NoDup_singleton].
      intros x Hx Hx'. apply list_elem_of_singleton in Hx' as ->. contradiction.
    + apply elem_of_app. right. listed.
Qed.

Lemma add_all_spec (chosen : list string) (files : list Path) :
  NoDup files →
  NoDup (foldl append_new files chosen) ∧
  (∀ f, f ∈ chosen → parse f ∈ foldl append_new files chosen) ∧
  ∃ added, foldl append_new files chosen = files ++ added.
Proof.
  revert files. induction chosen as [| c chosen IH]; intros files Hn; cbn [foldl].
  - split; [exact Hn |]. split; [intros f Hf; by apply elem_of_nil in Hf |].
    exists []. by rewrite app_nil_r.
  - destruct (append_new_spec files c Hn) as (Hn1 & Hc & added1 & Ha1).
    destruct (IH _ Hn1) as (Hn2 & Hin & added2 & Ha2).
    split; [exact Hn2 |]. split.
    + intros f Hf. apply elem_of_cons in Hf as [-> | Hf]; [| by apply Hin].
      rewrite Ha2. apply elem_of_app. by left.
    + exists (added1 ++ added2). by rewrite Ha2, Ha1, app_assoc.
Qed.

Lemma list_remove_spec (x : Path) (l : list Path) :
  NoDup l → NoDup (list_remove x l) ∧ (x ∉ list_remove x l) ∧
  ∀ y, y ∈ list_remove x l → y ∈ l.
Proof.
  induction 1 as [| y l Hy Hl IH]; cbn [list_remove].
  - split; [constructor |]. split; [apply not_elem_of_nil | auto].
  - case_bool_decide as Heq.
    + subst y. split; [exact Hl |]. split; [exact Hy |].
      intros z Hz. by apply list_elem_of_further.
    + destruct IH as (IH1 & IH2 & IH3). split; [| split].
      * apply NoDup_cons. split; [| exact IH1]. intros H. by apply Hy, IH3.
      * intros H. apply elem_of_cons in H as [-> | H]; [by apply Heq | by apply IH2].
      * intros z Hz. apply elem_of_cons in Hz as [-> | Hz]; [listed |].
        by apply list_elem_of_further, IH3.
Qed.

Lemma list_remove_appended (x : Path) (l : list Path) :
  x ∉ l → list_remove x (l ++ [x]) = l.
Proof.
  induction l as [| y l IH]; intros Hx; cbn [list_remove app].
  - by rewrite bool_decide_true.
  - apply not_elem_of_cons in Hx as [Hxy Hx].
    rewrite bool_decide_false by congruence. by rewrite IH.
Qed.

(** X6. The list of input files never holds a file twice: if its entries are
    distinct, they still are after adding the files chosen in the dialog,
    after loading one file, after removing one and after clearing, whatever
    the file system answers.  Adding keeps the files that were there, in
    their order, in front of the new ones, and every chosen file is then in
    the list; removing a file leaves none of it. *)
Theorem input_files_stay_distinct (stat : Stat) (chosen : list string)
    (f : Path) (p : Panel) :
  NoDup (input_files (encoder p)) →
  (let files := input_files (encoder (fst (add_files stat chosen p))) in
   NoDup files ∧
   (∃ added, files = input_files (encoder p) ++ added) ∧
   ∀ c, c ∈ chosen → parse c ∈ files) ∧
  (let files := input_files (encoder (fst (load_file stat f p))) in
   NoDup files ∧ f ∈ files) ∧
  (let files := input_files (encoder (fst (_remove_file stat f p))) in
   NoDup files ∧ (f ∉ files)) ∧
  input_files (encoder (fst (clear_files stat p))) = [].
Proof.
  intros Hn. cbn zeta. split; [| split; [| split]].
  - unfold add_files. rewrite update_keeps_encoder. cbn [encoder set_input_files input_files].
    destruct (add_all_spec chosen _ Hn) as (H1 & H2 & H3). auto.
  - unfold load_file. case_bool_decide as Hin; cbn [fst]; [by split |].
    rewrite update_keeps_encoder. cbn [encoder set_input_files input_files].
    split; [| apply elem_of_app; right; listed].
    apply NoDup_app. split; [exact Hn |]. split; [| apply NoDup_singleton].
    intros x Hx Hx'. apply list_elem_of_singleton in Hx' as ->. contradiction.
  - unfold _remove_file. case_bool_decide as Hin; cbn [fst]; [| by split].
    rewrite update_keeps_encoder. cbn [encoder set_input_files input_files].
    destruct (list_remove_spec f _ Hn) as (H1 & H2 & _). by split.
  - unfold clear_files. by rewrite update_keeps_encoder.
Qed.

Lemma input_files_stay_distinct_witness :
  (let files :=
     input_files (encoder (fst (add_files some_files
                                  ["/media/in/b.MP3"; "c.png"; "./c.png"]
                                  two_files_panel))) in
   NoDup files ∧
   (∃ added, files = input_files (encoder two_files_panel) ++ added) ∧
   ∀ c, c ∈ ["/media/in/b.MP3"; "c.png"; "./c.png"] → parse c ∈ files) ∧
  (let files :=
     input_files (encoder (fst (load_file some_files (parse "c.png")
                                  two_files_panel))) in
   NoDup files ∧ parse "c.png" ∈ files) ∧
  (let files :=
     input_files (encoder (fst (_remove_file some_files (parse "c.png")
                                  two_files_panel))) in
   NoDup files ∧ (parse "c.png" ∉ files)) ∧
  input_files (encoder (fst (clear_files some_files two_files_panel))) = [].
Proof.
  apply (input_files_stay_distinct some_files
           ["/media/in/b.MP3"; "c.png"; "./c.png"] (parse "c.png") two_files_panel).
  apply (bool_decide_unpack _). vm_compute. exact I.
Defined.

(** X7. Loading a file that is not in the list and then removing it gives
    the list back; removing a file that is not in the list changes nothing
    and does not touch the display; and a file that is in the list is not
    added again when the dialog returns it under the spelling [str] gives
    it. *)
Theorem load_then_remove_restores (stat stat' : Stat) (f : Path) (p : Panel) :
  f ∉ input_files (encoder p) →
  input_files (encoder (fst (_remove_file stat' f (fst (load_file stat f p))))) =
    input_files (encoder p) ∧
  _remove_file stat f p = (p, None) ∧
  ∀ g, g ∈ input_files (encoder p) → parsed g →
       input_files (encoder (fst (add_files stat [str g] p))) =
       input_files (encoder p).
Proof.
  intros Hf. split; [| split].
  - unfold load_file. rewrite bool_decide_false by exact Hf.
    unfold _remove_file. rewrite !update_keeps_encoder.
    cbn [encoder set_input_files input_files fst].
    rewrite bool_decide_true by (apply elem_of_app; right; listed).
    rewrite update_keeps_encoder. cbn [encoder set_input_files input_files].
    by apply list_remove_appended.
  - unfold _remove_file. by rewrite bool_decide_false.
  - intros g Hg Hp. unfold add_files. rewrite update_keeps_encoder.
    cbn [encoder set_input_files input_files foldl]. unfold append_new.
    rewrite (parse_str g Hp). by rewrite bool_decide_true.
Qed.

Lemma load_then_remove_restores_witness :
  input_files (encoder (fst (_remove_file some_files (parse "c.png")
                               (fst (load_file some_files (parse "c.png")
                                       two_files_panel))))) =
    input_files (encoder two_files_panel) ∧
  _remove_file some_files (parse "c.png") two_files_panel = (two_files_panel, None) ∧
  ∀ g, g ∈ input_files (encoder two_files_panel) → parsed g →
       input_files (encoder (fst (add_files some_files [str g] two_files_panel))) =
       input_files (encoder two_files_panel).
Proof.
  apply (load_then_remove_restores some_files some_files (parse "c.png")
           two_files_panel).
  apply (bool_decide_unpack _). vm_compute. exact I.
Defined.

(** One row per file, as long as [stat] answers. *)
Lemma file_rows_all_present (stat : Stat) (files : list Path) :
  Forall (λ f, is_Some (stat f)) files →
  snd (file_rows stat files) = None ∧
  length (fst (file_rows stat files)) = length files ∧
  Forall (λ row, ∃ label size, row = FileFrame label (Some size))
    (fst (file_rows stat files)).
Proof.
  induction 1 as [| f files [size Hf] _ (IH1 & IH2 & IH3)]; cbn [file_rows].
  - repeat split. constructor.
  - rewrite Hf. destruct (file_rows stat files) as [rows e]. cbn [fst snd] in *.
    split; [exact IH1 |]. split; [cbn [length]; congruence |].
    constructor; [eauto | exact IH3].
Qed.

Lemma file_rows_first_missing (stat : Stat) (before after : list Path) (f : Path) :
  Forall (λ g, is_Some (stat g)) before → stat f = None →
  snd (file_rows stat (before ++ f :: after)) =
    Some (OSError ("No such file or directory: " +:+ str f)) ∧
  length (fst (file_rows stat (before ++ f :: after))) = S (length before) ∧
  last (fst (file_rows stat (before ++ f :: after))) =
    Some (FileFrame (icon_of f +:+ "  " +:+ name f) None).
Proof.
  intros Hb Hf. induction Hb as [| g before [size Hg] _ (IH1 & IH2 & IH3)];
    cbn [app file_rows].
  - rewrite Hf. repeat split.
  - rewrite Hg. destruct (file_rows stat (before ++ f :: after)) as [rows e].
    cbn [fst snd] in *. split; [exact IH1 |]. split; [cbn [length]; congruence |].
    destruct rows as [| r rows]; [discriminate IH2 | exact IH3].
Qed.

(** X8. The display follows the list as long as every listed file can be
    examined: the refresh then raises nothing and shows the placeholder for
    an empty list and otherwise exactly one complete frame per file.  When
    the first file that cannot be examined comes after [before], the refresh
    raises an OSError after drawing the frames of [before] and the bare label
    of that file; [add_files] has by then put the chosen files in the list,
    which keeps them. *)
Theorem display_follows_list (stat : Stat) (p : Panel) :
  (Forall (λ f, is_Some (stat f)) (input_files (encoder p)) →
   snd (_update_file_list stat p) = None ∧
   match input_files (encoder p) with
   | [] => file_list (fst (_update_file_list stat p)) = [NoFilesLabel]
   | files =>
       length (file_list (fst (_update_file_list stat p))) = length files ∧
       Forall (λ row, ∃ label size, row = FileFrame label (Some size))
         (file_list (fst (_update_file_list stat p)))
   end) ∧
  (∀ before f after,
     input_files (encoder p) = before ++ f :: after →
     Forall (λ g, is_Some (stat g)) before → stat f = None →
     snd (_update_file_list stat p) =
       Some (OSError ("No such file or directory: " +:+ str f)) ∧
     length (file_list (fst (_update_file_list stat p))) = S (length before) ∧
     last (file_list (fst (_update_file_list stat p))) =
       Some (FileFrame (icon_of f +:+ "  " +:+ name f) None)) ∧
  (∀ chosen,
     input_files (encoder (fst (add_files stat chosen p))) =
     foldl append_new (input_files (encoder p)) chosen).
Proof.
  split; [| split].
  - intros Hall. unfold _update_file_list.
    destruct (input_files (encoder p)) as [| f files] eqn:Hfiles; [by split |].
    destruct (file_rows_all_present stat (f :: files) Hall) as (H1 & H2 & H3).
    destruct (file_rows stat (f :: files)) as [rows e]. cbn [fst snd file_list] in *.
    auto.
  - intros before f after Hfiles Hb Hf. unfold _update_file_list. rewrite Hfiles.
    destruct (file_rows_first_missing stat before after f Hb Hf) as (H1 & H2 & H3).
    destruct (before ++ f :: after) as [| g l] eqn:Hl;
      [by destruct before |].
    destruct (file_rows stat (g :: l)) as [rows e]. cbn [fst snd file_list] in *.
    auto.
  - intros chosen. unfold add_files. by rewrite update_keeps_encoder.
Qed.

Lemma display_follows_list_witness :
  snd (_update_file_list some_files two_files_panel) = None ∧
  length (file_list (fst (_update_file_list some_files two_files_panel))) =
    length (input_files (encoder two_files_panel)) ∧
  Forall (λ row, ∃ label size, row = FileFrame label (Some size))
    (file_list (fst (_update_file_list some_files two_files_panel))).
Proof.
  apply (proj1 (display_follows_list some_files two_files_panel)).
  repeat constructor; vm_compute; eexists; reflexivity.
Defined.

(** X9. Each of the three category tabs changes the format drop-down to the
    formats of that category, shows the first of them, and raises nothing;
    every format it can then show has an extension in the builder's table, so
    the ".mp4" fallback is never used for a format taken from the drop-down.
    For any other category the drop-down is emptied, the shown format is
    left, and a KeyError for that category is raised. *)
Theorem offered_formats_have_extensions (category : string) (p : FormatPanel) :
  let p' := fst (_on_category_change category p) in
  let e := snd (_on_category_change category p) in
  (category ∈ ["Video"; "Audio"; "Image"] →
   e = None ∧ head (format_values p') = Some (format_shown p') ∧
   (video_settings p', audio_settings p') =
     (bool_decide (category = "Video"), bool_decide (category ≠ "Image")) ∧
   ∀ fmt, fmt ∈ format_values p' → is_Some (ext_map !! fmt)) ∧
  (category ∉ ["Video"; "Audio"; "Image"] →
   e = Some (KeyError category) ∧ format_values p' = [] ∧
   format_shown p' = format_shown p).
Proof.
  cbn zeta. split.
  - intros Hc. enum Hc; (split; [reflexivity |]); (split; [reflexivity |]);
      (split; [reflexivity |]); intros fmt Hf; cbn in Hf; enum Hf;
      vm_compute; eexists; reflexivity.
  - intros Hc. unfold _on_category_change, formats_get, formats. cbn [List.find fst].
    destruct (String.eqb_spec "Video" category) as [<- | _]; [destruct Hc; listed |].
    destruct (String.eqb_spec "Audio" category) as [<- | _]; [destruct Hc; listed |].
    destruct (String.eqb_spec "Image" category) as [<- | _]; [destruct Hc; listed |].
    repeat split.
Qed.

Lemma offered_formats_have_extensions_witness :
  let p := mkFormatPanel ["MP4 (H.264)"] "MP4 (H.264)" true true in
  let p' := fst (_on_category_change "Audio" p) in
  snd (_on_category_change "Audio" p) = None ∧
  head (format_values p') = Some (format_shown p') ∧
  (video_settings p', audio_settings p') =
    (bool_decide ("Audio" = "Video"), bool_decide ("Audio" ≠ "Image")) ∧
  ∀ fmt, fmt ∈ format_values p' → is_Some (ext_map !! fmt).
Proof.
  apply (proj1 (offered_formats_have_extensions "Audio"
                  (mkFormatPanel ["MP4 (H.264)"] "MP4 (H.264)" true true))).
  listed.
Defined.

End FileList.

(** * More on the recorder *)

Module RecorderMore.
Import PurePath Recorder Props MoreProps Scenarios MoreScenarios ProofTools.

(** X10. The quality menu and the table of presets agree: every label of the
    table is found again with the preset it belongs to, and a label that is
    in no entry makes the search raise StopIteration. *)
Theorem quality_label_round_trip (l : string) :
  (∀ k q, (k, q) ∈ QUALITY_PRESETS → quality_of_label (label q) = Ok q) ∧
  (l ∈ List.map (λ kv, label (snd kv)) QUALITY_PRESETS →
   ∃ q, quality_of_label l = Ok q ∧ label q = l) ∧
  (l ∉ List.map (λ kv, label (snd kv)) QUALITY_PRESETS →
   quality_of_label l = Raise StopIteration).
Proof.
  split; [| split].
  - intros k q H. unfold QUALITY_PRESETS in H.
    repeat (apply elem_of_cons in H as [[= -> ->] | H]; [reflexivity |]).
    by apply elem_of_nil in H.
  - intros H. cbn in H. enum H; eexists; split; reflexivity.
  - intros H. cbn in H. unfold quality_of_label, QUALITY_PRESETS.
    cbn [List.find snd label].
    destruct (String.eqb_spec "Low (Fast)" l) as [<- | _]; [destruct H; listed |].
    destruct (String.eqb_spec "Medium" l) as [<- | _]; [destruct H; listed |].
    destruct (String.eqb_spec "High" l) as [<- | _]; [destruct H; listed |].
    destruct (String.eqb_spec "Lossless" l) as [<- | _]; [destruct H; listed |].
    reflexivity.
Qed.

Lemma quality_label_round_trip_witness :
  ∃ q, quality_of_label "High" = Ok q ∧ label q = "High".
Proof.
  apply (proj1 (proj2 (quality_label_round_trip "High"))). cbn. listed.
Defined.

(** X11. The frame rate survives its way through the menu: a frame rate that
    is not negative, written with [str] and read back with [int], is the same
    number; and each of the four values of the menu is read as the number
    that [str] writes as that value, which is what the command gets after
    "-framerate". *)
Theorem frame_rate_round_trip (n : Z) (v : string) :
  ((0 ≤ n)%Z → int_of_str (str_int n) = Ok n) ∧
  (v ∈ ["15"; "24"; "30"; "60"] →
   ∃ fps, int_of_str v = Ok fps ∧ str_int fps = v).
Proof.
  split.
  - intros Hn. unfold int_of_str, str_int.
    destruct n as [| p | p]; [reflexivity | | lia].
    cbn [Z.to_int NilZero.string_of_int].
    rewrite NilZero.usu by apply DecimalPos.Unsigned.to_uint_nonnil.
    unfold Z.of_uint. by rewrite DecimalPos.Unsigned.of_to.
  - intros H. enum H; eexists; split; reflexivity.
Qed.

Lemma frame_rate_round_trip_witness :
  int_of_str (str_int 144) = Ok 144%Z.
Proof. apply (proj1 (frame_rate_round_trip 144 "")). lia. Defined.

Lemma toggle_step (w : World) (pid : nat) :
  recording_process (self w) = Some pid →
  recording_process (self (_toggle_pause w)) = Some pid ∧
  is_paused (self (_toggle_pause w)) = negb (is_paused (self w)) ∧
  is_recording (self (_toggle_pause w)) = is_recording (self w) ∧
  current_output_file (self (_toggle_pause w)) = current_output_file (self w) ∧
  trace (_toggle_pause w) =
    trace w ++ [SysSendSignal pid (if is_paused (self w) then SIGCONT else SIGSTOP)].
Proof.
  destruct w as [[] t l]. cbn [self recording_process]. intros ->.
  unfold _toggle_pause. cbn [self recording_process is_paused].
  destruct is_paused0; repeat split.
Qed.

(** X12. However often the pause button is pressed on a recording, the
    process handle, the recording flag and the output file stay the same; the
    recorder is paused exactly after an odd number of presses from running;
    and the only system calls are signals to that one process, SIGSTOP and
    SIGCONT in turn. *)
Theorem pause_presses_alternate (n : nat) (w : World) (pid : nat) :
  recording_process (self w) = Some pid →
  let w' := Nat.iter n _toggle_pause w in
  recording_process (self w') = Some pid ∧
  is_recording (self w') = is_recording (self w) ∧
  current_output_file (self w') = current_output_file (self w) ∧
  is_paused (self w') = xorb (Nat.odd n) (is_paused (self w)) ∧
  trace w' =
    trace w ++ List.map (SysSendSignal pid) (pause_signals (is_paused (self w)) n).
Proof.
  cbn zeta. revert w. induction n as [| n IH]; intros w Hp.
  - cbn. rewrite app_nil_r. by destruct (is_paused (self w)).
  - rewrite Nat.iter_succ_r.
    destruct (toggle_step w pid Hp) as (H1 & H2 & H3 & H4 & H5).
    destruct (IH (_toggle_pause w) H1) as (I1 & I2 & I3 & I4 & I5).
    split; [exact I1 |]. split; [congruence |]. split; [congruence |]. split.
    + rewrite I4, H2, Nat.odd_succ, <- Nat.negb_odd.
      by destruct (Nat.odd n), (is_paused (self w)).
    + rewrite I5, H5, H2, <- app_assoc. reflexivity.
Qed.

Lemma pause_presses_alternate_witness :
  let w' := Nat.iter 3 _toggle_pause recording_world in
  recording_process (self w') = Some 4242 ∧
  is_recording (self w') = is_recording (self recording_world) ∧
  current_output_file (self w') = current_output_file (self recording_world) ∧
  is_paused (self w') = xorb (Nat.odd 3) (is_paused (self recording_world)) ∧
  trace w' =
    trace recording_world ++
    List.map (SysSendSignal 4242) (pause_signals (is_paused (self recording_world)) 3).
Proof.
  apply (pause_presses_alternate 3 recording_world 4242). reflexivity.
Defined.

(** X13. A recording that is stopped while it is paused is never continued:
    after the SIGSTOP of the pause, the stop writes the quit byte to the
    suspended process and goes on as for a running one, no SIGCONT is sent,
    and the recorder ends up neither recording nor paused, without a
    handle. *)
Theorem stop_while_paused_sends_no_continue (r : StopResponse)
    (dir : list FileEntry) (w : World) (pid : nat) :
  recording_process (self w) = Some pid →
  is_paused (self w) = false →
  let paused := _toggle_pause w in
  let stopped := fst (_stop_recording r dir paused) in
  is_paused (self paused) = true ∧
  (∃ rest,
     trace stopped =
       trace w ++ SysSendSignal pid SIGSTOP :: SysStdinWrite pid "q" :: rest ∧
     ∀ p sig, SysSendSignal p sig ∉ rest) ∧
  is_paused (self stopped) = false ∧
  is_recording (self stopped) = false ∧
  recording_process (self stopped) = None.
Proof.
  intros Hp Hpa. cbn zeta.
  destruct (toggle_step w pid Hp) as (H1 & H2 & _ & _ & H5).
  rewrite Hpa in H2, H5. split; [exact H2 |]. split.
  - rewrite Control.stop_trace, H1.
    destruct r; unfold graceful_stop, syscall; cbn [trace]; rewrite H5;
      rewrite <- ?app_assoc; cbn [app]; eexists; (split; [reflexivity |]);
      intros p sig H;
      repeat (apply elem_of_cons in H as [H | H]; [discriminate H |]);
      by apply elem_of_nil in H.
  - rewrite Control.stop_self, Control.refresh_self. repeat split.
Qed.

Lemma stop_while_paused_sends_no_continue_witness :
  let paused := _toggle_pause recording_world in
  let stopped := fst (_stop_recording WaitTimesOut [] paused) in
  is_paused (self paused) = true ∧
  (∃ rest,
     trace stopped =
       trace recording_world ++
       SysSendSignal 4242 SIGSTOP :: SysStdinWrite 4242 "q" :: rest ∧
     ∀ p sig, SysSendSignal p sig ∉ rest) ∧
  is_paused (self stopped) = false ∧
  is_recording (self stopped) = false ∧
  recording_process (self stopped) = None.
Proof.
  apply (stop_while_paused_sends_no_continue WaitTimesOut [] recording_world 4242);
    reflexivity.
Defined.

Lemma insert_by_mtime_length (x : Z * FileEntry) (l : list (Z * FileEntry)) :
  length (insert_by_mtime x l) = S (length l).
Proof.
  induction l as [| y l IH]; [reflexivity |]. cbn [insert_by_mtime].
  destruct (_ <=? _)%Z; cbn [length]; [reflexivity | by rewrite IH].
Qed.

Lemma sorted_by_mtime_length (l : list (Z * FileEntry)) :
  length (sorted_by_mtime l) = length l.
Proof.
  unfold sorted_by_mtime. induction l as [| x l IH]; [reflexivity |].
  cbn [foldr length]. by rewrite insert_by_mtime_length, IH.
Qed.

(** Entries sorted by their keys are sorted by their modification times. *)
Lemma sorted_entries (ps : list (Z * FileEntry)) :
  Forall (λ p, st_mtime (snd p) = Some (fst p)) ps →
  StronglySorted (λ a b, (fst b ≤ fst a)%Z) ps →
  StronglySorted newer_first (List.map snd ps).
Proof.
  intros Hkey. induction 1 as [| p ps Hs IH Hp]; cbn [List.map]; [constructor |].
  inversion Hkey as [| ? ? Hkp Hkps]; subst.
  constructor; [by apply IH |].
  apply Forall_forall. intros g Hg.
  apply list_elem_of_In, in_map_iff in Hg as (q & <- & Hq). apply list_elem_of_In in Hq.
  unfold newer_first.
  rewrite Hkp, (proj1 (Forall_forall _ _) Hkps q Hq).
  by apply (proj1 (Forall_forall _ _) Hp).
Qed.

Lemma sorted_take {A} (R : A → A → Prop) (n : nat) (l : list A) :
  StronglySorted R l → StronglySorted R (take n l).
Proof.
  revert n. induction l as [| x l IH]; intros [| n] H; cbn [take]; try constructor.
  - apply IH. by inversion H.
  - inversion H as [| ? ? _ Hx]; subst.
    apply Forall_forall. intros z Hz.
    apply (proj1 (Forall_forall _ _) Hx).
    rewrite <- (take_drop n l). apply elem_of_app. by left.
Qed.

(** The rows of the loop: all of them, or those up to the first failure. *)
Lemma draw_rows_all (out : Path) (l : list FileEntry) :
  Forall (λ f, is_Some (st_size f)) l →
  draw_rows out l = (List.map (row_of out) l, None).
Proof.
  induction 1 as [| f l [n Hn] _ IH]; [reflexivity |].
  cbn [draw_rows List.map]. unfold row_of at 1. by rewrite Hn, IH.
Qed.

Lemma draw_rows_first_missing (out : Path) (before after : list FileEntry)
    (f : FileEntry) :
  Forall (λ f, is_Some (st_size f)) before →
  st_size f = None →
  draw_rows out (before ++ f :: after) =
    (List.map (row_of out) before ++ [UnfinishedRow (fname f)],
     Some (OSError ("No such file or directory: " +:+ str (joinpath out (fname f))))).
Proof.
  intros Hb Hf. induction Hb as [| g l [n Hn] _ IH]; cbn [app draw_rows List.map].
  - by rewrite Hf.
  - unfold row_of at 1. by rewrite Hn, IH.
Qed.

(** X14. When [stat()] gives the modification time of every "*.mp4" entry
    of the output directory, the recordings panel is a window on the newest
    of them: the files it goes through are at most ten, newest first, all
    of them "*.mp4" entries of the directory; an entry that is left out is
    no newer than any of them, and with at most ten entries none is left
    out.  The panel shows the placeholder when there is none, and one
    complete row per file when [stat()] answers in the loop; when it fails
    there, the panel holds the rows of the files before that one and the
    bare name of it, and an [OSError] is raised.  When [stat()] fails for
    the modification time of some "*.mp4" entry, an [OSError] is raised and
    the panel is left empty. *)
Theorem recordings_panel_is_a_window (dir : list FileEntry) (s : ScreenRecorder) :
  let out := output_dir s in
  let rows := recordings_scroll (fst (_refresh_recordings_list dir s)) in
  let raised := snd (_refresh_recordings_list dir s) in
  (Forall (λ f, is_Some (st_mtime f)) (glob_mp4 dir) →
   ∃ shown,
     recent_recordings out dir = Ok shown ∧
     (length shown ≤ 10)%nat ∧
     StronglySorted newer_first shown ∧
     (∀ f, f ∈ shown → f ∈ dir ∧ endswith (fname f) ".mp4" = true) ∧
     (∀ f g, f ∈ dir → endswith (fname f) ".mp4" = true → f ∉ shown →
             g ∈ shown → newer_first g f) ∧
     ((length (glob_mp4 dir) ≤ 10)%nat →
      ∀ f, f ∈ dir → endswith (fname f) ".mp4" = true → f ∈ shown) ∧
     (shown = [] → rows = [NoRecordingsYet] ∧ raised = None) ∧
     (shown ≠ [] → Forall (λ f, is_Some (st_size f)) shown →
      rows = List.map (row_of out) shown ∧ raised = None) ∧
     (∀ before f after,
        shown = before ++ f :: after →
        Forall (λ f, is_Some (st_size f)) before → st_size f = None →
        rows = List.map (row_of out) before ++ [UnfinishedRow (fname f)] ∧
        ∃ msg, raised = Some (OSError msg))) ∧
  (¬ Forall (λ f, is_Some (st_mtime f)) (glob_mp4 dir) →
   rows = [] ∧ ∃ msg, raised = Some (OSError msg)).
Proof.
  cbn zeta. rewrite Control.refresh_self, Control.refresh_raised.
  cbn [set_recordings_scroll recordings_scroll].
  assert (∀ f, f ∈ glob_mp4 dir ↔ f ∈ dir ∧ endswith (fname f) ".mp4" = true) as Hglob.
  { intros f. unfold glob_mp4. rewrite !list_elem_of_In. apply filter_In. }
  split.
  - intros Hall.
    destruct (Control.keys_total (output_dir s) _ Hall) as [ks Hks].
    destruct (Control.keys_ok _ _ _ Hks) as [Hmap Hkey].
    assert (recent_recordings (output_dir s) dir =
            Ok (take 10 (List.map snd (sorted_by_mtime ks)))) as Hrec
      by (unfold recent_recordings; by rewrite Hks).
    assert (Forall (λ p, st_mtime (snd p) = Some (fst p)) (sorted_by_mtime ks)) as Hkey'.
    { apply Forall_forall. intros p Hp.
      apply (proj1 (Forall_forall _ _) Hkey).
      by apply (proj1 (Control.sorted_by_mtime_elem _ _)). }
    pose proof (Control.sorted_by_mtime_sorted ks) as Hsorted.
    pose proof (sorted_by_mtime_length ks) as Hlen.
    assert (length ks = length (glob_mp4 dir)) as Hlen'
      by (by rewrite <- Hmap, length_map).
    exists (take 10 (List.map snd (sorted_by_mtime ks))).
    split; [exact Hrec |].
    destruct (Control.recent_elem _ _ _ Hrec) as [Hten Hin].
    split; [exact Hten |].
    split; [by apply sorted_take, sorted_entries |].
    split; [intros f Hf; destruct (Hin f Hf) as (? & ? & _); by split |].
    split; [| split; [| split; [| split]]].
    + intros f g Hf Hsuf Hout Hg.
      assert (f ∈ List.map snd ks) as Hfk by (rewrite Hmap; apply Hglob; by split).
      apply list_elem_of_In, in_map_iff in Hfk as (p & <- & Hp).
      apply list_elem_of_In, Control.sorted_by_mtime_elem in Hp.
      rewrite firstn_map in Hout, Hg.
      apply list_elem_of_In, in_map_iff in Hg as (q & <- & Hq).
      apply list_elem_of_In in Hq.
      assert (p ∉ take 10 (sorted_by_mtime ks)) as Hpout.
      { intros Hp'. apply Hout, list_elem_of_In, in_map, list_elem_of_In, Hp'. }
      assert (q ∈ sorted_by_mtime ks) as Hq'.
      { rewrite <- (take_drop 10 (sorted_by_mtime ks)). apply elem_of_app. by left. }
      unfold newer_first.
      rewrite (proj1 (Forall_forall _ _) Hkey' q Hq'),
              (proj1 (Forall_forall _ _) Hkey' p Hp).
      rewrite <- (take_drop 10 (sorted_by_mtime ks)) in Hp, Hsorted.
      apply elem_of_app in Hp as [Hp | Hp]; [contradiction |].
      revert Hsorted Hq Hp.
      generalize (take 10 (sorted_by_mtime ks)), (drop 10 (sorted_by_mtime ks)).
      intros front back Hs Hq Hp. induction front as [| x front IH];
        [by apply elem_of_nil in Hq |].
      cbn [app] in Hs. inversion Hs as [| ? ? Hs' Hx]; subst.
      apply elem_of_cons in Hq as [-> | Hq]; [| by apply IH].
      apply (proj1 (Forall_forall _ _) Hx). apply elem_of_app. by right.
    + intros Hfew f Hf Hsuf.
      rewrite take_ge by (rewrite length_map; lia).
      assert (f ∈ List.map snd ks) as Hfk by (rewrite Hmap; apply Hglob; by split).
      apply list_elem_of_In, in_map_iff in Hfk as (p & <- & Hp).
      apply list_elem_of_In, Control.sorted_by_mtime_elem in Hp.
      apply list_elem_of_In, in_map, list_elem_of_In, Hp.
    + intros Hnil. unfold recordings_panel. by rewrite Hrec, Hnil.
    + intros Hsome Hsizes. unfold recordings_panel. rewrite Hrec.
      destruct (take 10 _) as [| f l]; [by destruct Hsome |].
      by rewrite (draw_rows_all _ _ Hsizes).
    + intros before f after Hshown Hb Hf. unfold recordings_panel.
      rewrite Hrec, Hshown.
      destruct (before ++ f :: after) as [| x l] eqn:Hl;
        [by apply app_eq_nil in Hl as [_ [=]] |].
      rewrite <- Hl, (draw_rows_first_missing _ _ _ _ Hb Hf).
      split; [reflexivity | by eexists].
  - intros Hnot. unfold recordings_panel, recent_recordings.
    destruct (Control.keys_raise (output_dir s) _ Hnot) as [msg ->].
    split; [reflexivity | by exists msg].
Qed.

Lemma recordings_panel_is_a_window_witness :
  recordings_scroll (fst (_refresh_recordings_list broken_directory mkv_recorder)) = [] ∧
  ∃ msg, snd (_refresh_recordings_list broken_directory mkv_recorder) =
         Some (OSError msg).
Proof.
  apply (proj2 (recordings_panel_is_a_window broken_directory mkv_recorder)).
  intros H. vm_compute in H.
  inversion H as [| ? ? _ H']. inversion H' as [| ? ? [t Ht] _]. discriminate Ht.
Defined.

Lemma quality_menu_found (l : string) :
  l ∈ ["Low (Fast)"; "Medium"; "High"; "Lossless"] → ∃ q, quality_of_label l = Ok q.
Proof. intros H. enum H; eexists; reflexivity. Qed.

Lemma fps_menu_read (v : string) :
  v ∈ ["15"; "24"; "30"; "60"] → ∃ fps, int_of_str v = Ok fps.
Proof. intros H. enum H; eexists; reflexivity. Qed.

Lemma first30_length (e : string) : (String.length (first30 e) ≤ 30)%nat.
Proof.
  unfold first30. generalize 30%nat. intros n. revert n.
  induction e as [| c e IH]; intros [| n]; cbn; try lia.
  specialize (IH n). lia.
Qed.

Lemma capture_last_argument (environ : gmap string string) (s : ScreenRecorder)
    (q : Quality) (fps : Z) (out : Path) :
  current_output_file s = Some out →
  last (_build_ffmpeg_command environ s q fps) = Some (str out).
Proof. intros H. unfold _build_ffmpeg_command. rewrite H. apply last_snoc. Qed.

(** X15. With the menus at values they offer, starting a capture raises
    nothing.  The output file is named "recording_<timestamp>.<format>" in
    the output directory and is the last argument of the command.  When the
    process starts, the recorder is recording, not paused, holds the new
    handle and the start time, and has its pause and stop buttons enabled;
    when starting the process fails, the recorder keeps its flags and its
    handle, tells the status callback nothing, and shows "Error: " followed
    by at most 30 characters of the message. *)
Theorem begin_capture_outcome (environ : gmap string string) (timestamp : string)
    (now : Z) (env : list string → Outcome) (w : World) :
  quality_var (self w) ∈ ["Low (Fast)"; "Medium"; "High"; "Lossless"] →
  fps_var (self w) ∈ ["15"; "24"; "30"; "60"] →
  let out := joinpath (output_dir (self w))
               ("recording_" +:+ timestamp +:+ "." +:+ format_var (self w)) in
  ∃ w' cmd,
    _begin_capture environ timestamp now env w = Ok w' ∧
    last cmd = Some (str out) ∧
    current_output_file (self w') = Some out ∧
    match env cmd with
    | Spawned pid =>
        is_recording (self w') = true ∧ is_paused (self w') = false ∧
        recording_process (self w') = Some pid ∧
        record_start_time (self w') = Some now ∧
        fst (pause_btn (self w')) = normal ∧ stop_btn (self w') = normal ∧
        trace w' = trace w ++ [SysPopen pid cmd]
    | SpawnFails e =>
        is_recording (self w') = is_recording (self w) ∧
        is_paused (self w') = is_paused (self w) ∧
        recording_process (self w') = recording_process (self w) ∧
        status_log w' = status_log w ∧
        status_label (self w') = "Error: " +:+ first30 e ∧
        (String.length (status_label (self w')) ≤ 37)%nat ∧
        trace w' = trace w ++ [SysPopenFailed cmd]
    end.
Proof.
  intros Hq Hf. cbn zeta.
  destruct (quality_menu_found _ Hq) as [q Hq'].
  destruct (fps_menu_read _ Hf) as [fps Hf'].
  unfold _begin_capture.
  cbn [quality_var fps_var]. rewrite Hq'. cbn [mbind Result_bind].
  rewrite Hf'. cbn [mbind Result_bind].
  match goal with
  | |- context [env ?c] => set (cmd := c)
  end.
  assert (last cmd = Some (str (joinpath (output_dir (self w))
            ("recording_" +:+ timestamp +:+ "." +:+ format_var (self w))))) as Hlast
    by (subst cmd; by apply capture_last_argument).
  destruct (env cmd) as [e | pid] eqn:Henv.
  - eexists _, cmd. split; [reflexivity |]. split; [exact Hlast |].
    rewrite Henv. cbn [self trace status_log is_recording is_paused
      recording_process status_label current_output_file].
    repeat split.
    change (String.length ("Error: " +:+ first30 e))
      with (7 + String.length (first30 e))%nat.
    pose proof (first30_length e). lia.
  - eexists _, cmd. split; [reflexivity |]. split; [exact Hlast |].
    rewrite Henv. repeat split.
Qed.

Lemma begin_capture_outcome_witness :
  let w := Recorder.mkWorld mkv_recorder [] [] in
  let out := joinpath (output_dir (self w))
               ("recording_" +:+ "20240101_120000" +:+ "." +:+ format_var (self w)) in
  ∃ w' cmd,
    _begin_capture ∅ "20240101_120000" 1000 spawn_ok w = Ok w' ∧
    last cmd = Some (str out) ∧
    current_output_file (self w') = Some out ∧
    match spawn_ok cmd with
    | Spawned pid =>
        is_recording (self w') = true ∧ is_paused (self w') = false ∧
        recording_process (self w') = Some pid ∧
        record_start_time (self w') = Some 1000%Z ∧
        fst (pause_btn (self w')) = normal ∧ stop_btn (self w') = normal ∧
        trace w' = trace w ++ [SysPopen pid cmd]
    | SpawnFails e =>
        is_recording (self w') = is_recording (self w) ∧
        is_paused (self w') = is_paused (self w) ∧
        recording_process (self w') = recording_process (self w) ∧
        status_log w' = status_log w ∧
        status_label (self w') = "Error: " +:+ first30 e ∧
        (String.length (status_label (self w')) ≤ 37)%nat ∧
        trace w' = trace w ++ [SysPopenFailed cmd]
    end.
Proof.
  apply (begin_capture_outcome ∅ "20240101_120000" 1000 spawn_ok
           (Recorder.mkWorld mkv_recorder [] [])); cbn; listed.
Defined.

End RecorderMore.

(** * The record button and its countdown *)

Module Countdown.
Import PurePath Recorder RecorderUI Props MoreProps Scenarios MoreScenarios ProofTools.

Lemma counting_again (w : World) (a b : nat) :
  counting (counting w a) b = counting w b.
Proof. by destruct w as [[] t l]. Qed.

Lemma about_to_begin_counting (w : World) (a : nat) (status : string) :
  about_to_begin (counting w a) status = about_to_begin w status.
Proof. by destruct w as [[] t l]. Qed.

Lemma countdown_tick (m : Moment) (j : nat) (d : Desk) :
  countdown m (Z.of_nat (S j)) d =
  Ok (mkDesk (counting (world d) (S j)) (timers d ++ [Z.of_nat j])).
Proof.
  unfold countdown.
  replace (0 <? Z.of_nat (S j))%Z with true by (symmetry; apply Z.ltb_lt; lia).
  replace (Z.of_nat (S j) - 1)%Z with (Z.of_nat j) by lia. reflexivity.
Qed.

Lemma countdown_over (m : Moment) (n : Z) (d : Desk) :
  (n ≤ 0)%Z →
  countdown m n d =
  w ← _begin_capture (environ m) (timestamp m) (now m) (popen m)
        (about_to_begin (world d) (status_label (self (world d))));
  Ok (mkDesk w (timers d)).
Proof.
  intros Hn. unfold countdown.
  replace (0 <? n)%Z with false by (symmetry; apply Z.ltb_ge; lia). reflexivity.
Qed.

(** The ticks of one countdown. *)
Lemma ticks_of_one (m : Moment) (k j : nat) (w : World) :
  fire_each (replicate k m) (mkDesk (counting w (S (k + j))) [Z.of_nat (k + j)]) =
  Ok (mkDesk (counting w (S j)) [Z.of_nat j]).
Proof.
  revert w. induction k as [| k IH]; intros w; [reflexivity |].
  cbn [replicate fire_each]. unfold fire at 1. cbn [timers world].
  change (S k + j)%nat with (S (k + j)). rewrite countdown_tick.
  cbn [mbind Result_bind world timers app]. rewrite counting_again. apply IH.
Qed.

(** X16. The press of the record button on a recorder that is not recording,
    with the countdown ticked and [countdown_seconds] set to n+1, schedules
    one timer and shows n+1; after k of the n+1 timers have fired the label
    shows what is left and nothing else has changed, no process has been
    started; when the last one fires the timer label is reset and the capture
    begins, exactly as [_begin_capture] does at that moment.  With the
    countdown box unticked, or with [countdown_seconds] at zero or below, the
    capture begins at once. *)
Theorem countdown_then_capture (m last : Moment) (n : nat) (secs : Z)
    (r : StopResponse) (dir : list FileEntry) (w : World) :
  is_recording (self w) = false →
  (countdown_var (self w) = true →
   _toggle_recording m (Z.of_nat (S n)) r dir (mkDesk w []) =
     Ok (mkDesk (counting w (S n)) [Z.of_nat n]) ∧
   (∀ k j, (k + j = n)%nat →
      fire_each (replicate k m) (mkDesk (counting w (S n)) [Z.of_nat n]) =
        Ok (mkDesk (counting w (S j)) [Z.of_nat j])) ∧
   fire_each (replicate n m ++ [last]) (mkDesk (counting w (S n)) [Z.of_nat n]) =
     (w' ← _begin_capture (environ last) (timestamp last) (now last) (popen last)
             (about_to_begin w "Starting...");
      Ok (mkDesk w' [])) ∧
   ((secs ≤ 0)%Z →
    _toggle_recording m secs r dir (mkDesk w []) =
      (w' ← _begin_capture (environ m) (timestamp m) (now m) (popen m)
              (about_to_begin w (status_label (self w)));
       Ok (mkDesk w' [])))) ∧
  (countdown_var (self w) = false →
   _toggle_recording m secs r dir (mkDesk w []) =
     (w' ← _begin_capture (environ m) (timestamp m) (now m) (popen m) w;
      Ok (mkDesk w' []))).
Proof.
  intros Hrec. split.
  - intros Hcd.
    assert (∀ k j, (k + j = n)%nat →
      fire_each (replicate k m) (mkDesk (counting w (S n)) [Z.of_nat n]) =
        Ok (mkDesk (counting w (S j)) [Z.of_nat j])) as Hticks
      by (intros k j <-; apply ticks_of_one).
    split; [| split; [exact Hticks | split]].
    + unfold _toggle_recording, _start_recording. cbn [world].
      rewrite Hrec, Hcd. apply countdown_tick.
    + assert (∀ ms d1 d2 l, fire_each ms d1 = Ok d2 →
                fire_each (ms ++ l) d1 = fire_each l d2) as Happ.
      { clear. induction ms as [| a ms IH]; intros d1 d2 l H; cbn [fire_each app] in *.
        - by injection H as ->.
        - destruct (fire a d1) as [d' |]; cbn [mbind Result_bind] in *;
            [by apply IH | discriminate]. }
      rewrite (Happ _ _ _ _ (Hticks n 0%nat (Nat.add_0_r n))).
      cbn [fire_each]. unfold fire. cbn [timers world].
      rewrite countdown_over by lia. cbn [world timers].
      rewrite about_to_begin_counting.
      change (status_label (self (counting w 1))) with "Starting...".
      by destruct (_begin_capture _ _ _ _ _).
    + intros Hs. unfold _toggle_recording, _start_recording. cbn [world].
      rewrite Hrec, Hcd. by apply countdown_over.
  - intros Hcd. unfold _toggle_recording, _start_recording. cbn [world].
    by rewrite Hrec, Hcd.
Qed.

Lemma countdown_then_capture_witness :
  let w := world idle_desk in
  let m := first_moment in
  let last := second_moment in
  (_toggle_recording m 3 ExitsInTime [] (mkDesk w []) =
     Ok (mkDesk (counting w 3) [2%Z]) ∧
   (∀ k j, (k + j = 2)%nat →
      fire_each (replicate k m) (mkDesk (counting w 3) [2%Z]) =
        Ok (mkDesk (counting w (S j)) [Z.of_nat j])) ∧
   fire_each [m; m; last] (mkDesk (counting w 3) [2%Z]) =
     (w' ← _begin_capture (environ last) (timestamp last) (now last) (popen last)
             (about_to_begin w "Starting...");
      Ok (mkDesk w' [])) ∧
   ((0 ≤ 0)%Z →
    _toggle_recording m 0 ExitsInTime [] (mkDesk w []) =
      (w' ← _begin_capture (environ m) (timestamp m) (now m) (popen m)
              (about_to_begin w (status_label (self w)));
       Ok (mkDesk w' [])))).
Proof.
  exact (proj1 (countdown_then_capture first_moment second_moment 2 0
                  ExitsInTime [] (world idle_desk) eq_refl) eq_refl).
Defined.

Lemma begin_capture_spawned (m : Moment) (w : World) (pid : nat) :
  menus_valid (self w) →
  (∀ cmd, popen m cmd = Spawned pid) →
  ∃ cmd w',
    _begin_capture (environ m) (timestamp m) (now m) (popen m) w = Ok w' ∧
    trace w' = trace w ++ [SysPopen pid cmd] ∧
    recording_process (self w') = Some pid ∧
    quality_var (self w') = quality_var (self w) ∧
    fps_var (self w') = fps_var (self w).
Proof.
  intros [Hq Hf] Hp.
  destruct (RecorderMore.quality_menu_found _ Hq) as [q Hq'].
  destruct (RecorderMore.fps_menu_read _ Hf) as [fps Hf'].
  unfold _begin_capture.
  cbn [quality_var fps_var]. rewrite Hq'. cbn [mbind Result_bind].
  rewrite Hf'. cbn [mbind Result_bind].
  match goal with
  | |- context [popen m ?c] => set (cmd := c)
  end.
  rewrite (Hp cmd). eexists cmd, _. split; [reflexivity |]. by repeat split.
Qed.

Lemma fire_tick (m : Moment) (j : nat) (w : World) (rest : list Z) :
  fire m (mkDesk w (Z.of_nat (S j) :: rest)) =
  Ok (mkDesk (counting w (S j)) (rest ++ [Z.of_nat j])).
Proof. unfold fire. cbn [timers world]. apply countdown_tick. Qed.

Lemma press_counts (m : Moment) (n : nat) (r : StopResponse)
    (dir : list FileEntry) (w : World) (pending : list Z) :
  is_recording (self w) = false →
  countdown_var (self w) = true →
  _toggle_recording m (Z.of_nat (S n)) r dir (mkDesk w pending) =
  Ok (mkDesk (counting w (S n)) (pending ++ [Z.of_nat n])).
Proof.
  intros Hrec Hcd. unfold _toggle_recording, _start_recording. cbn [world].
  rewrite Hrec, Hcd. apply countdown_tick.
Qed.

Lemma fire_last (m : Moment) (w : World) (rest : list Z) :
  fire m (mkDesk w (Z.of_nat 0 :: rest)) =
  w' ← _begin_capture (environ m) (timestamp m) (now m) (popen m)
         (about_to_begin w (status_label (self w)));
  Ok (mkDesk w' rest).
Proof. unfold fire. cbn [timers world]. by rewrite countdown_over. Qed.

(** The ticks of two countdowns started before the first tick of either. *)
Lemma ticks_of_two (m : Moment) (k j : nat) (w : World) :
  fire_each (replicate (k + k) m)
    (mkDesk (counting w (S (k + j))) [Z.of_nat (k + j); Z.of_nat (k + j)]) =
  Ok (mkDesk (counting w (S j)) [Z.of_nat j; Z.of_nat j]).
Proof.
  revert w. induction k as [| k IH]; intros w; [reflexivity |].
  replace (S k + S k)%nat with (S (S (k + k))) by lia.
  change (S k + j)%nat with (S (k + j)).
  cbn [replicate fire_each].
  rewrite fire_tick. cbn [mbind Result_bind app].
  rewrite fire_tick. cbn [mbind Result_bind app].
  rewrite !counting_again. apply IH.
Qed.

(** X17. The recorder does not count as recording while the countdown runs,
    so a second press of the record button before the first tick starts a
    second countdown instead of stopping.  When both have run out, two
    capture processes have been started, and the recorder holds the handle
    of the second one only: stopping afterwards addresses every system call
    to the second process and drops the handle, so the first process is
    never told to quit. *)
Theorem second_press_starts_second_capture (m m1 m2 : Moment) (n p1 p2 : nat)
    (r r' : StopResponse) (dir dir' : list FileEntry) (w : World) :
  is_recording (self w) = false →
  countdown_var (self w) = true →
  menus_valid (self w) →
  (∀ cmd, popen m1 cmd = Spawned p1) →
  (∀ cmd, popen m2 cmd = Spawned p2) →
  ∃ cmd1 cmd2 w2,
    (d1 ← _toggle_recording m (Z.of_nat (S n)) r dir (mkDesk w []);
     d2 ← _toggle_recording m (Z.of_nat (S n)) r dir d1;
     fire_each (replicate (n + n) m ++ [m1; m2]) d2) = Ok (mkDesk w2 []) ∧
    trace w2 = trace w ++ [SysPopen p1 cmd1; SysPopen p2 cmd2] ∧
    recording_process (self w2) = Some p2 ∧
    let stopped := fst (_stop_recording r' dir' w2) in
    new_calls w2 stopped ≠ [] ∧
    Forall (λ c, acts_on p2 c = true) (new_calls w2 stopped) ∧
    recording_process (self stopped) = None.
Proof.
  intros Hrec Hcd Hmenus Hp1 Hp2.
  destruct (begin_capture_spawned m1 (about_to_begin w "Starting...") p1 Hmenus Hp1)
    as (cmd1 & w1 & Hb1 & Ht1 & Hh1 & Hq1 & Hf1).
  assert (menus_valid (self (about_to_begin w1 (status_label (self w1))))) as Hmenus1.
  { destruct Hmenus as [Hq Hf]. split; cbn; [rewrite Hq1 | rewrite Hf1]; assumption. }
  destruct (begin_capture_spawned m2 _ p2 Hmenus1 Hp2)
    as (cmd2 & w2 & Hb2 & Ht2 & Hh2 & _ & _).
  exists cmd1, cmd2, w2. split; [| split; [| split; [exact Hh2 |]]].
  - rewrite (press_counts _ _ _ _ _ _ Hrec Hcd). cbn [mbind Result_bind app].
    rewrite (press_counts _ _ _ _ (counting w (S n)) _ Hrec Hcd).
    cbn [mbind Result_bind app]. rewrite counting_again.
    assert (∀ ms d1 d2 l, fire_each ms d1 = Ok d2 →
              fire_each (ms ++ l) d1 = fire_each l d2) as Happ.
    { clear. induction ms as [| a ms IH]; intros d1 d2 l H; cbn [fire_each app] in *.
      - by injection H as ->.
      - destruct (fire a d1) as [d' |]; cbn [mbind Result_bind] in *;
          [by apply IH | discriminate]. }
    pose proof (ticks_of_two m n 0 w) as Hticks.
    rewrite Nat.add_0_r in Hticks. rewrite (Happ _ _ _ _ Hticks).
    cbn [fire_each]. rewrite fire_last, about_to_begin_counting.
    change (status_label (self (counting w 1))) with "Starting...".
    rewrite Hb1. cbn [mbind Result_bind].
    rewrite fire_last, Hb2. reflexivity.
  - rewrite Ht2. cbn [about_to_begin with_self trace]. rewrite Ht1.
    cbn [about_to_begin with_self trace]. by rewrite <- app_assoc.
  - cbn zeta. unfold new_calls. rewrite Control.stop_trace, Hh2.
    split; [| split].
    + destruct r'; unfold graceful_stop, syscall; cbn [trace];
        rewrite <- ?app_assoc, drop_app_length; discriminate.
    + destruct r'; unfold graceful_stop, syscall; cbn [trace];
        rewrite <- ?app_assoc, drop_app_length; cbn [app];
        repeat constructor; cbn [acts_on]; apply Nat.eqb_refl.
    + rewrite Control.stop_self.
      rewrite (proj1 (Control.refresh_keeps _ _)). reflexivity.
Qed.

Lemma second_press_starts_second_capture_witness :
  ∃ cmd1 cmd2 w2,
    (d1 ← _toggle_recording first_moment 3 ExitsInTime [] idle_desk;
     d2 ← _toggle_recording first_moment 3 ExitsInTime [] d1;
     fire_each (replicate 4 first_moment ++ [first_moment; second_moment]) d2) =
      Ok (mkDesk w2 []) ∧
    trace w2 = trace (world idle_desk) ++ [SysPopen 501 cmd1; SysPopen 502 cmd2] ∧
    recording_process (self w2) = Some 502%nat ∧
    let stopped := fst (_stop_recording WaitTimesOut [] w2) in
    new_calls w2 stopped ≠ [] ∧
    Forall (λ c, acts_on 502 c = true) (new_calls w2 stopped) ∧
    recording_process (self stopped) = None.
Proof.
  apply (second_press_starts_second_capture first_moment first_moment second_moment
           2 501 502 ExitsInTime WaitTimesOut [] [] (world idle_desk)).
  - reflexivity.
  - reflexivity.
  - split; cbn; listed.
  - reflexivity.
  - reflexivity.
Defined.

End Countdown.

(** * Sessions of the recorder *)

Module Session.
Import PurePath Recorder RecorderUI Props MoreProps Scenarios MoreScenarios ProofTools.

















Lemma begin_capture_file (m : Moment) (w : World) :
  menus_valid (self w) →
  ∃ w',
    _begin_capture (environ m) (timestamp m) (now m) (popen m) w = Ok w' ∧
    current_output_file (self w') =
      Some (joinpath (output_dir (self w))
              ("recording_" +:+ timestamp m +:+ "." +:+ format_var (self w))).
Proof.
  intros [Hq Hf].
  destruct (RecorderMore.quality_menu_found _ Hq) as [q Hq'].
  destruct (RecorderMore.fps_menu_read _ Hf) as [fps Hf'].
  unfold _begin_capture.
  cbn [quality_var fps_var]. rewrite Hq'. cbn [mbind Result_bind].
  rewrite Hf'. cbn [mbind Result_bind].
  match goal with
  | |- context [popen m ?c] => destruct (popen m c) as [e | pid]
  end; eexists; (split; [reflexivity |]); reflexivity.
Qed.

Lemma recording_name_component (ts fmt : string) :
  has_char "/" ts = false →
  has_char "/" fmt = false →
  component ("recording_" +:+ ts +:+ "." +:+ fmt).
Proof.
  intros Hts Hfmt. split; [| split].
  - discriminate.
  - change ("recording_" +:+ ts +:+ "." +:+ fmt)
      with (String "r" ("ecording_" +:+ ts +:+ "." +:+ fmt)).
    intros [=].
  - rewrite !PathFacts.has_char_append, Hts, Hfmt. reflexivity.
Qed.

(** The panel of a directory that can be examined: the placeholder, or one
    complete row per recent recording. *)
Lemma panel_of_examinable (out : Path) (dir : list FileEntry) :
  examinable dir →
  ∃ shown,
    recent_recordings out dir = Ok shown ∧
    recordings_panel out dir =
      (match shown with
       | [] => [NoRecordingsYet]
       | _ => List.map (row_of out) shown
       end, None).
Proof.
  intros Hdir.
  destruct (Control.keys_total out (glob_mp4 dir)) as [ks Hks].
  { apply Forall_forall. intros g Hg.
    apply list_elem_of_In, filter_In in Hg as [Hd Hsuf].
    apply list_elem_of_In in Hd. by apply (Hdir g Hd Hsuf). }
  assert (recent_recordings out dir =
          Ok (take 10 (List.map snd (sorted_by_mtime ks)))) as Hrec
    by (unfold recent_recordings; by rewrite Hks).
  eexists. split; [exact Hrec |].
  destruct (Control.recent_elem _ _ _ Hrec) as [_ Hin].
  unfold recordings_panel. rewrite Hrec.
  destruct (take 10 _) as [| f l]; [reflexivity |].
  apply RecorderMore.draw_rows_all, Forall_forall. intros g Hg.
  destruct (Hin g Hg) as (Hd & Hsuf & _). by apply (Hdir g Hd Hsuf).
Qed.

(** X19. A recording lands in the folder that was chosen.  After the
    directory dialog returned a path, the output directory is that path,
    whether the refresh of the panel raises or not, and the next capture
    writes a file whose parent is that path and whose name is
    "recording_<timestamp>.<format>" (timestamp and format holding no
    separator).  When [stat()] answers for every "*.mp4" entry of the new
    folder, nothing is raised and the panel shows the recent recordings of
    that folder, each with the path in that folder as the target of its
    play button, or the placeholder when it has none; otherwise the only
    exception is the [OSError] of the refresh.  A dialog that is cancelled
    changes nothing. *)
Theorem recording_lands_in_chosen_folder (path : string) (dir : list FileEntry)
    (m : Moment) (w : World) :
  path ≠ "" →
  has_char "/" (timestamp m) = false →
  has_char "/" (format_var (self w)) = false →
  menus_valid (self w) →
  let chosen := fst (_browse_output path dir (self w)) in
  let raised := snd (_browse_output path dir (self w)) in
  output_dir chosen = parse path ∧
  (examinable dir →
   raised = None ∧
   ∃ shown,
     recent_recordings (parse path) dir = Ok shown ∧
     recordings_scroll chosen =
       match shown with
       | [] => [NoRecordingsYet]
       | _ => List.map (row_of (parse path)) shown
       end) ∧
  (raised = None ∨ ∃ msg, raised = Some (OSError msg)) ∧
  (∃ w' out,
     _begin_capture (environ m) (timestamp m) (now m) (popen m)
       (with_self w chosen) = Ok w' ∧
     current_output_file (self w') = Some out ∧
     parent out = parse path ∧
     name out = "recording_" +:+ timestamp m +:+ "." +:+ format_var (self w)) ∧
  _browse_output "" dir (self w) = (self w, None).
Proof.
  intros Hpath Hts Hfmt Hmenus. cbn zeta.
  assert (_browse_output path dir (self w) =
          _refresh_recordings_list dir (set_output_dir (self w) (parse path))) as Hb.
  { unfold _browse_output.
    by destruct (String.eqb_spec path ""); [contradiction |]. }
  rewrite Hb, Control.refresh_self, Control.refresh_raised. clear Hb.
  cbn [set_output_dir output_dir set_recordings_scroll recordings_scroll].
  split; [reflexivity |]. split; [| split; [| split; [| reflexivity]]].
  - intros Hex. destruct (panel_of_examinable (parse path) dir Hex) as (shown & Hs & ->).
    split; [reflexivity |]. by exists shown.
  - apply Control.panel_raised.
  - match goal with
    | |- context [with_self w ?s0] => set (chosen := s0)
    end.
    destruct (begin_capture_file m (with_self w chosen)) as (w' & Hw' & Hout);
      [exact Hmenus |].
    eexists w', _. split; [exact Hw' |]. split; [exact Hout |].
    subst chosen.
    cbn [with_self self output_dir format_var set_recordings_scroll set_output_dir].
    rewrite (PathFacts.joinpath_component _ _
               (recording_name_component _ _ Hts Hfmt)).
    split.
    + unfold parent. cbn [tail root].
      destruct (tail (parse path) ++ [_]) eqn:Hl;
        [by apply app_eq_nil in Hl as [_ [=]] |].
      rewrite <- Hl, removelast_last. reflexivity.
    + unfold name. cbn [tail]. apply last_last.
Qed.

Lemma recording_lands_in_chosen_folder_witness :
  let w := prompt_recorder in
  let chosen := fst (_browse_output "/tmp/takes" mixed_directory (self w)) in
  let raised := snd (_browse_output "/tmp/takes" mixed_directory (self w)) in
  output_dir chosen = parse "/tmp/takes" ∧
  (examinable mixed_directory →
   raised = None ∧
   ∃ shown,
     recent_recordings (parse "/tmp/takes") mixed_directory = Ok shown ∧
     recordings_scroll chosen =
       match shown with
       | [] => [NoRecordingsYet]
       | _ => List.map (row_of (parse "/tmp/takes")) shown
       end) ∧
  (raised = None ∨ ∃ msg, raised = Some (OSError msg)) ∧
  (∃ w' out,
     _begin_capture (environ first_moment) (timestamp first_moment)
       (now first_moment) (popen first_moment) (with_self w chosen) = Ok w' ∧
     current_output_file (self w') = Some out ∧
     parent out = parse "/tmp/takes" ∧
     name out = "recording_" +:+ timestamp first_moment +:+ "." +:+ format_var (self w)) ∧
  _browse_output "" mixed_directory (self w) = (self w, None).
Proof.
  apply (recording_lands_in_chosen_folder "/tmp/takes" mixed_directory first_moment
           prompt_recorder).
  - discriminate.
  - reflexivity.
  - reflexivity.
  - split; cbn; listed.
Defined.

Lemma press_begins (m : Moment) (secs : Z) (r : StopResponse)
    (dir : list FileEntry) (w : World) (pending : list Z) :
  is_recording (self w) = false →
  countdown_var (self w) = false →
  _toggle_recording m secs r dir (mkDesk w pending) =
  w' ← _begin_capture (environ m) (timestamp m) (now m) (popen m) w;
  Ok (mkDesk w' pending).
Proof.
  intros Hrec Hcd. unfold _toggle_recording, _start_recording. cbn [world timers].
  by rewrite Hrec, Hcd.
Qed.

(** X20. A press of the record button with the countdown unticked and a
    second press make one recording: the process is started and then told
    to quit with "q", and the last argument of its command is the output
    file.  The status bar is told "Recording to <name>" and, when the
    refresh of the panel has returned, "Saved: <name>" for the same file;
    that is the case when [stat()] answers for every "*.mp4" entry of the
    output directory.  Otherwise the second press raises the [OSError] of
    the refresh, after the process has been stopped, and no "Saved:"
    message is sent.  In both cases the recorder is idle afterwards, with
    the preset, the folder and the menus as before. *)
Theorem record_stop_cycle (m m' : Moment) (secs : Z) (r r' : StopResponse)
    (dir dir' : list FileEntry) (w : World) (pid : nat) :
  is_recording (self w) = false →
  countdown_var (self w) = false →
  menus_valid (self w) →
  (∀ cmd, popen m cmd = Spawned pid) →
  let out := joinpath (output_dir (self w))
               ("recording_" +:+ timestamp m +:+ "." +:+ format_var (self w)) in
  ∃ cmd rest w1,
    _toggle_recording m secs r dir (mkDesk w []) = Ok (mkDesk w1 []) ∧
    let w2 := fst (_stop_recording r' dir' w1) in
    let raised := snd (_stop_recording r' dir' w1) in
    _toggle_recording m' secs r' dir' (mkDesk w1 []) =
      match raised with
      | None => Ok (mkDesk w2 [])
      | Some e => Raise e
      end ∧
    (examinable dir' → raised = None) ∧
    (raised = None ∨ ∃ msg, raised = Some (OSError msg)) ∧
    trace w2 = trace w ++ SysPopen pid cmd :: SysStdinWrite pid "q" :: rest ∧
    last cmd = Some (str out) ∧
    status_log w2 =
      status_log w ++
      (if status_callback (self w)
       then ("Recording to " +:+ name out) ::
            match raised with
            | None => ["Saved: " +:+ name out]
            | Some _ => []
            end
       else []) ∧
    is_recording (self w2) = false ∧
    recording_process (self w2) = None ∧
    current_preset (self w2) = current_preset (self w) ∧
    output_dir (self w2) = output_dir (self w) ∧
    format_var (self w2) = format_var (self w) ∧
    quality_var (self w2) = quality_var (self w) ∧
    fps_var (self w2) = fps_var (self w) ∧
    countdown_var (self w2) = countdown_var (self w).
Proof.
  intros Hrec Hcd [Hq Hf] Hp. cbn zeta.
  destruct (RecorderMore.quality_menu_found _ Hq) as [q Hq'].
  destruct (RecorderMore.fps_menu_read _ Hf) as [fps Hf'].
  rewrite (press_begins _ _ _ _ _ _ Hrec Hcd). unfold _begin_capture.
  cbn [quality_var fps_var]. rewrite Hq'. cbn [mbind Result_bind].
  rewrite Hf'. cbn [mbind Result_bind].
  match goal with
  | |- context [popen m ?c] => set (cmd := c)
  end.
  assert (last cmd = Some (str (joinpath (output_dir (self w))
            ("recording_" +:+ timestamp m +:+ "." +:+ format_var (self w))))) as Hlast
    by (subst cmd; by apply RecorderMore.capture_last_argument).
  rewrite (Hp cmd). cbn [mbind Result_bind].
  exists cmd.
  exists (match r' with
          | WriteRaises _ => [SysTerminate pid]
          | FlushRaises _ => [SysStdinFlush pid; SysTerminate pid]
          | ExitsInTime => [SysStdinFlush pid; SysWait pid 5]
          | WaitTimesOut => [SysStdinFlush pid; SysWait pid 5; SysTerminate pid]
          end).
  eexists. split; [reflexivity |].
  match goal with
  | |- context [_stop_recording r' dir' ?w0] => set (w1 := w0)
  end.
  assert (recording_process (self w1) = Some pid) as Hpid by reflexivity.
  assert (current_output_file (self w1) =
          Some (joinpath (output_dir (self w))
                  ("recording_" +:+ timestamp m +:+ "." +:+ format_var (self w))))
    as Hout by reflexivity.
  assert (output_dir (self w1) = output_dir (self w)) as Hdir by reflexivity.
  assert (status_callback (self w1) = status_callback (self w)) as Hcb by reflexivity.
  pose proof (Control.stop_raised r' dir' w1) as Hraised.
  pose proof (Control.stop_trace r' dir' w1) as Htrace.
  pose proof (Control.stop_self r' dir' w1) as Hself.
  pose proof (Control.stop_log r' dir' w1 _ Hout) as Hlog.
  rewrite Control.refresh_self in Hself.
  rewrite Hout, Hdir, Hcb in Hraised. rewrite Hdir, Hcb in Hlog.
  assert (snd (_stop_recording r' dir' w1) =
          snd (recordings_panel (output_dir (self w)) dir')) as Hraised'.
  { rewrite Hraised. destruct (snd (recordings_panel _ _)); [reflexivity |].
    by destruct (status_callback (self w)). }
  clear Hraised. rewrite Hpid in Htrace.
  split.
  { unfold _toggle_recording. cbn [world timers].
    change (is_recording (self w1)) with true. cbv iota.
    by destruct (_stop_recording r' dir' w1) as [w2 [e |]]. }
  split; [intros Hex; rewrite Hraised'; by apply Control.panel_examinable |].
  split; [rewrite Hraised'; apply Control.panel_raised |].
  split.
  { rewrite Htrace. subst w1.
    destruct r'; unfold graceful_stop, syscall; cbn [trace];
      rewrite <- ?app_assoc; reflexivity. }
  split; [exact Hlast |]. split.
  { rewrite Hlog, Hraised'. subst w1. cbn [status_log self status_callback].
    destruct (status_callback (self w)).
    - rewrite <- app_assoc. by destruct (snd (recordings_panel _ _)).
    - rewrite !app_nil_r. by destruct (snd (recordings_panel _ _)); rewrite ?app_nil_r. }
  rewrite Hself. subst w1. by repeat split.
Qed.

Lemma record_stop_cycle_witness :
  let w := prompt_recorder in
  let out := joinpath (output_dir (self w))
               ("recording_" +:+ timestamp first_moment +:+ "." +:+ format_var (self w)) in
  ∃ cmd rest w1,
    _toggle_recording first_moment 3 ExitsInTime [] (mkDesk w []) = Ok (mkDesk w1 []) ∧
    let w2 := fst (_stop_recording ExitsInTime broken_directory w1) in
    let raised := snd (_stop_recording ExitsInTime broken_directory w1) in
    _toggle_recording second_moment 3 ExitsInTime broken_directory (mkDesk w1 []) =
      match raised with
      | None => Ok (mkDesk w2 [])
      | Some e => Raise e
      end ∧
    (examinable broken_directory → raised = None) ∧
    (raised = None ∨ ∃ msg, raised = Some (OSError msg)) ∧
    trace w2 = trace w ++ SysPopen 501 cmd :: SysStdinWrite 501 "q" :: rest ∧
    last cmd = Some (str out) ∧
    status_log w2 =
      status_log w ++
      (if status_callback (self w)
       then ("Recording to " +:+ name out) ::
            match raised with
            | None => ["Saved: " +:+ name out]
            | Some _ => []
            end
       else []) ∧
    is_recording (self w2) = false ∧
    recording_process (self w2) = None ∧
    current_preset (self w2) = current_preset (self w) ∧
    output_dir (self w2) = output_dir (self w) ∧
    format_var (self w2) = format_var (self w) ∧
    quality_var (self w2) = quality_var (self w) ∧
    fps_var (self w2) = fps_var (self w) ∧
    countdown_var (self w2) = countdown_var (self w).
Proof.
  apply (record_stop_cycle first_moment second_moment 3 ExitsInTime ExitsInTime
           [] broken_directory prompt_recorder 501).
  - reflexivity.
  - reflexivity.
  - split; cbn; listed.
  - reflexivity.
Defined.

End Session.

(** * The messages of the status bar *)

Module StatusBarFacts.
Import StatusBar MoreProps MoreScenarios ProofTools.

Lemma cancel_tidy (b : Bar) (id : nat) :
  tidy b → _message_timeout b = Some id → scheduled (after_cancel id b) = [].
Proof.
  unfold tidy. intros Ht Hid. cbn [after_cancel scheduled].
  destruct (scheduled b) as [| [i due] [| ? ?]]; [reflexivity | | contradiction].
  rewrite Hid in Ht. injection Ht as ->. cbn. by rewrite Nat.eqb_refl.
Qed.

Lemma handle_dropped (b : Bar) :
  tidy b → _message_timeout b = None → scheduled b = [].
Proof.
  unfold tidy. intros Ht Hid.
  destruct (scheduled b) as [| [i due] [| ? ?]]; [reflexivity | | contradiction].
  congruence.
Qed.

(** What [set_message] leaves on a tidy bar. *)
Lemma set_message_tidy (message : string) (error : bool) (timeout now : Z) (b : Bar) :
  tidy b →
  set_message message error timeout now b =
  if (0 <? timeout)%Z
  then mkBar (message, error) (Some (next_id b)) [(next_id b, (now + timeout)%Z)]
         (S (next_id b))
  else mkBar (message, error) (_message_timeout b) [] (next_id b).
Proof.
  intros Ht. unfold set_message. cbn [_message_timeout].
  destruct (_message_timeout b) as [id |] eqn:Hid.
  - pose proof (cancel_tidy b id Ht Hid) as Hc.
    cbn [after_cancel scheduled] in Hc.
    unfold after, after_cancel.
    cbn [message_label _message_timeout scheduled next_id].
    rewrite Hc. by destruct (0 <? timeout)%Z.
  - pose proof (handle_dropped b Ht Hid) as Hc.
    unfold after. cbn [message_label _message_timeout scheduled next_id].
    rewrite Hc. by destruct (0 <? timeout)%Z.
Qed.

Lemma call_tidy (c : Call) (b : Bar) : tidy b → tidy (call c b).
Proof.
  intros Ht. destruct c as [message error timeout now | id]; cbn [call].
  - rewrite set_message_tidy by exact Ht. by destruct (0 <? timeout)%Z.
  - unfold timer_runs. destruct (existsb _ _) eqn:He; [| exact Ht].
    unfold tidy in *. cbn [clear after_cancel scheduled _message_timeout].
    destruct (scheduled b) as [| [i due] [| ? ?]]; [exact I | | contradiction].
    cbn in He |- *. rewrite orb_false_r in He. by rewrite He.
Qed.

Lemma calls_tidy (l : list Call) (b : Bar) : tidy b → tidy (calls l b).
Proof.
  revert b. induction l as [| c l IH]; intros b Ht; [exact Ht |].
  cbn [calls fold_left]. apply IH. by apply call_tidy.
Qed.

Lemma history_tidy (l : list Call) : tidy (calls l init).
Proof. apply calls_tidy. exact I. Qed.

(** X21. As long as [clear] is only run by the bar's own timers, a message
    is never cleared by the timer of an earlier one: after any history of
    messages (with or without timeout) and timer runs, a message set with a
    positive timeout is shown and the only scheduled clearing is its own,
    due exactly that timeout later; a message set with timeout 0 leaves
    nothing scheduled, so it stays until the next message. *)
Theorem one_timer_per_message (l : list Call) (message : string) (error : bool)
    (timeout now : Z) :
  let b := set_message message error timeout now (calls l init) in
  message_label b = (message, error) ∧
  ((0 < timeout)%Z →
   ∃ id, scheduled b = [(id, (now + timeout)%Z)] ∧ _message_timeout b = Some id ∧
         message_label (timer_runs id b) = ("Ready", false) ∧
         scheduled (timer_runs id b) = []) ∧
  ((timeout ≤ 0)%Z → scheduled b = []).
Proof.
  cbn zeta. rewrite set_message_tidy by apply history_tidy.
  split; [by destruct (0 <? timeout)%Z |]. split.
  - intros Hpos. replace (0 <? timeout)%Z with true by (symmetry; apply Z.ltb_lt; lia).
    eexists. split; [reflexivity |]. split; [reflexivity |].
    unfold timer_runs, clear, after_cancel.
    cbn [message_label _message_timeout scheduled next_id existsb List.filter fst].
    rewrite Nat.eqb_refl. by split.
  - intros Hneg. by replace (0 <? timeout)%Z with false by (symmetry; apply Z.ltb_ge; lia).
Qed.

Lemma one_timer_per_message_witness :
  let b := set_message "Loaded: clip.mp4" false 5000 3000 (calls bar_history init) in
  ∃ id, scheduled b = [(id, 8000%Z)] ∧ _message_timeout b = Some id ∧
        message_label (timer_runs id b) = ("Ready", false) ∧
        scheduled (timer_runs id b) = [].
Proof.
  apply (proj1 (proj2 (one_timer_per_message bar_history "Loaded: clip.mp4" false
                         5000 3000))).
  lia.
Defined.

(** X22. A direct call of [clear], as the sidebar makes when the pointer
    leaves a button, drops the handle without cancelling the timer: a
    message set afterwards has two clearings scheduled, its own and the one
    of the message before the [clear]; when the earlier one runs the new
    message is replaced by "Ready" while its own timer is still scheduled,
    and the bar holds no handle to cancel it with. *)
Theorem direct_clear_leaves_timer (l : list Call) (first second : string)
    (e1 e2 : bool) (t1 t2 now1 now2 : Z) :
  (0 < t1)%Z →
  (0 < t2)%Z →
  let b := set_message second e2 t2 now2
             (clear (set_message first e1 t1 now1 (calls l init))) in
  ∃ id1 id2,
    id1 ≠ id2 ∧
    message_label b = (second, e2) ∧
    scheduled b = [(id1, (now1 + t1)%Z); (id2, (now2 + t2)%Z)] ∧
    message_label (timer_runs id1 b) = ("Ready", false) ∧
    scheduled (timer_runs id1 b) = [(id2, (now2 + t2)%Z)] ∧
    _message_timeout (timer_runs id1 b) = None.
Proof.
  intros H1 H2. cbn zeta.
  rewrite (set_message_tidy first) by apply history_tidy.
  replace (0 <? t1)%Z with true by (symmetry; apply Z.ltb_lt; lia).
  set (n := next_id (calls l init)).
  unfold clear, set_message, after.
  cbn [message_label _message_timeout scheduled next_id app].
  replace (0 <? t2)%Z with true by (symmetry; apply Z.ltb_lt; lia).
  exists n, (S n). split; [lia |].
  split; [reflexivity |]. split; [reflexivity |].
  unfold timer_runs, clear, after_cancel.
  cbn [message_label _message_timeout scheduled next_id existsb List.filter fst].
  rewrite Nat.eqb_refl. cbn [orb negb].
  replace (S n =? n)%nat with false by (symmetry; apply Nat.eqb_neq; lia).
  cbn [negb]. by repeat split.
Qed.

Lemma direct_clear_leaves_timer_witness :
  let b := set_message "Encoding complete!" false 5000 2000
             (clear (set_message "Convert media formats" false 5000 0 (calls [] init))) in
  ∃ id1 id2,
    id1 ≠ id2 ∧
    message_label b = ("Encoding complete!", false) ∧
    scheduled b = [(id1, 5000%Z); (id2, 7000%Z)] ∧
    message_label (timer_runs id1 b) = ("Ready", false) ∧
    scheduled (timer_runs id1 b) = [(id2, 7000%Z)] ∧
    _message_timeout (timer_runs id1 b) = None.
Proof.
  apply (direct_clear_leaves_timer [] "Convert media formats" "Encoding complete!"
           false false 5000 5000 0 2000); lia.
Defined.

End StatusBarFacts.

(** * The preset slider of the encoder *)

Module PresetLabel.
Import PurePath Encoder EncoderPreset Props ProofTools.

Lemma video_command_preset (s : MediaEncoder) (f : Path) (fmt name : string)
    (cmd : list string) :
  getitem presets (preset_slider s) = Ok name →
  _build_ffmpeg_command s f "Video" fmt = Ok cmd →
  has_option "-preset" name cmd = true.
Proof.
  intros Hname. unfold _build_ffmpeg_command.
  match goal with
  | |- context [Ok (_ ++ [?o])] => generalize o
  end.
  intros out. change (String.eqb "Video" "Video") with true. cbv iota.
  rewrite EncoderBuilder.video_args_groups, Hname. intros H.
  apply EncoderBuilder.bind_ok in H as (c & Hc & H). injection H as <-.
  apply EncoderBuilder.bind_ok in Hc as (r & _ & Hc).
  cbn [mbind Result_bind] in Hc. injection Hc as <-.
  match goal with
  | |- has_option _ _ ?l = true =>
      replace l with
        ((["ffmpeg"; "-i"; str f; "-y"] ++ r ++ video_codec_args fmt) ++
         "-preset" :: name ::
         (video_bitrate_args (video_bitrate s) ++
          frame_rate_args (fps_dropdown s) ++
          audio_codec_args (audio_codec s) ++
          ["-b:a"; audio_bitrate s] ++ [out]))
        by (repeat (cbn [app]; rewrite <- app_assoc); reflexivity)
  end.
  apply EncoderBuilder.has_option_here.
Qed.

(** X23. After every movement of the preset slider the label under it names
    the preset the builder passes after "-preset" in a video command, and
    moving it to a position beyond the ninth raises an IndexError.  The
    panel as it is built does not agree with the builder: the slider stands
    at position 4, the label reads "Current: medium (balanced)" and the
    command gets "-preset fast"; and of the marks under the slider, those
    at positions 2 and 4 name another preset than the builder uses there. *)
Theorem preset_label_names_the_preset :
  (∀ (value : nat) (p p' : PresetPanel),
     slide value p = Ok p' →
     ∃ name description,
       preset_label p' = "Current: " +:+ name +:+ " (" +:+ description +:+ ")" ∧
       ∀ f fmt cmd,
         _build_ffmpeg_command (encoder p') f "Video" fmt = Ok cmd →
         has_option "-preset" name cmd = true) ∧
  (∀ (value : nat) (p : PresetPanel),
     if (value <? 9)%nat then is_ok (slide value p) = true
     else slide value p = Raise IndexError) ∧
  (preset_label init_panel = "Current: medium (balanced)" ∧
   ∀ f fmt cmd,
     _build_ffmpeg_command (encoder init_panel) f "Video" fmt = Ok cmd →
     has_option "-preset" "fast" cmd = true) ∧
  (∀ (i : nat) (mark : string),
     tick_labels !! i = Some mark → mark ≠ "" →
     (getitem presets i = Ok mark ↔ i ∉ [2%nat; 4%nat])).
Proof.
  split; [| split; [| split]].
  - intros value p p' H. unfold slide, _on_preset_change in H.
    apply EncoderBuilder.bind_ok in H as (name & Hname & H).
    apply EncoderBuilder.bind_ok in H as (d & _ & H).
    injection H as <-. exists name, d. split; [reflexivity |].
    intros f fmt cmd. cbn [encoder]. apply video_command_preset.
    cbn [preset_slider]. exact Hname.
  - intros value p.
    do 9 (destruct value as [| value]; [reflexivity |]). reflexivity.
  - split; [reflexivity |]. intros f fmt cmd.
    by apply video_command_preset.
  - intros i mark Hi Hmark.
    do 9 (destruct i as [| i];
          [injection Hi as <-;
           first
             [ by destruct Hmark
             | split;
               [ intros _; apply (bool_decide_unpack _); vm_compute; exact I
               | intros _; reflexivity ]
             | split;
               [ intros H; vm_compute in H; discriminate H
               | intros Hout; exfalso; apply Hout; listed ] ] |]).
    discriminate Hi.
Qed.

Lemma preset_label_names_the_preset_witness :
  ∃ name description,
    preset_label MoreScenarios.slid_panel =
      "Current: " +:+ name +:+ " (" +:+ description +:+ ")" ∧
    ∀ f fmt cmd,
      _build_ffmpeg_command (encoder MoreScenarios.slid_panel) f "Video" fmt = Ok cmd →
      has_option "-preset" name cmd = true.
Proof.
  apply (proj1 preset_label_names_the_preset 5%nat init_panel MoreScenarios.slid_panel).
  reflexivity.
Defined.

End PresetLabel.

